(** * The MCP proxy: provider lifecycle, request routing and access control

    A shallow embedding of the parts of
    [services/agenticwork-mcp-proxy/src/mcp_manager.py] and
    [services/agenticwork-mcp-proxy/src/main.py] that decide how a tool call
    is authenticated, authorised, routed to a stdio child and audited.

    Conventions of the embedding.
    - JSON values are the inductive type [json]; Python dictionaries are
      association lists in insertion order ([PyDict]), because the code
      depends on iteration order ([start_all], tool auto-detection, the first
      key of [mcpServers]).  JSON numbers are integers; non-integer numbers
      are outside the model.
    - A Python call either returns, raises, or never returns (a blocking
      [readline] on a silent live child): [outcome].
    - A child process is the text it will still write on its stdout, the
      requests written to its stdin so far, whether [poll()] reports it
      alive, and whether it exits or stays silent once that text is read.
    - Everything outside the process (environment variables, [Popen], the
      platform API, the token libraries, [uuid4]) is a field of
      [environment]. *)

From Stdlib Require Import ZArith Lia Bool List Ascii String.
From stdpp Require Import base option strings pretty gmap.
Import ListNotations.

Set Warnings "-register-all".

Local Open Scope string_scope.
Local Open Scope Z_scope.

(** ** JSON values and the Python operations the code applies to them *)

Inductive json : Type :=
| JNull
| JBool (b : bool)
| JInt (z : Z)
| JStr (s : string)
| JArr (items : list json)
| JObj (members : list (string * json)).

(** Python dictionaries with string keys, in insertion order. *)
Module PyDict.
Section Ops.
Context {V : Type}.

Fixpoint get (k : string) (d : list (string * V)) : option V :=
  match d with
  | [] => None
  | (k', v) :: rest => if String.eqb k k' then Some v else get k rest
  end.

Definition mem (k : string) (d : list (string * V)) : bool :=
  match get k d with Some _ => true | None => false end.

(** [d[k] = v]: an existing key keeps its position, a new key goes last. *)
Fixpoint set (k : string) (v : V) (d : list (string * V)) : list (string * V) :=
  match d with
  | [] => [(k, v)]
  | (k', v') :: rest =>
      if String.eqb k k' then (k', v) :: rest else (k', v') :: set k v rest
  end.

(** [del d[k]] *)
Fixpoint del (k : string) (d : list (string * V)) : list (string * V) :=
  match d with
  | [] => []
  | (k', v') :: rest =>
      if String.eqb k k' then rest else (k', v') :: del k rest
  end.

Definition keys (d : list (string * V)) : list string := map fst d.

(** [d.get(k, default)] *)
Definition get_default (k : string) (default : V) (d : list (string * V)) : V :=
  match get k d with Some v => v | None => default end.
End Ops.
End PyDict.

Abbreviation pydict := (list (string * json)).

(** [d.get(k)]: a missing key reads as [None]. *)
Definition dict_get_none (k : string) (d : pydict) : json :=
  PyDict.get_default k JNull d.

(** Python truthiness ([if v:], [not v], [a or b]). *)
Definition truthy (v : json) : bool :=
  match v with
  | JNull => false
  | JBool b => b
  | JInt z => negb (z =? 0)
  | JStr s => negb (String.eqb s "")
  | JArr l => match l with [] => false | _ => true end
  | JObj d => match d with [] => false | _ => true end
  end.

(** [a or b] *)
Definition py_or (a b : json) : json := if truthy a then a else b.

Definition is_pydict (v : json) : bool :=
  match v with JObj _ => true | _ => false end.

(** [v == s] for a string literal [s]. *)
Definition eq_str (v : json) (s : string) : bool :=
  match v with JStr t => String.eqb t s | _ => false end.

(** Python [==] on JSON values: booleans compare as the integers 0 and 1,
    lists element-wise, dictionaries key-wise regardless of order. *)
Fixpoint py_eq (a b : json) {struct a} : bool :=
  match a, b with
  | JNull, JNull => true
  | JBool x, JBool y => Bool.eqb x y
  | JBool x, JInt z => (if x then 1 else 0) =? z
  | JInt z, JBool y => z =? (if y then 1 else 0)
  | JInt x, JInt y => x =? y
  | JStr s, JStr t => String.eqb s t
  | JArr xs, JArr ys =>
      (fix go (xs : list json) (ys : list json) {struct xs} : bool :=
         match xs, ys with
         | [], [] => true
         | x :: xs', y :: ys' => py_eq x y && go xs' ys'
         | _, _ => false
         end) xs ys
  | JObj d, JObj e =>
      (length d =? length e)%nat &&
      (fix go (d : list (string * json)) {struct d} : bool :=
         match d with
         | [] => true
         | (k, v) :: d' =>
             match PyDict.get k e with
             | Some w => py_eq v w && go d'
             | None => false
             end
         end) d
  | _, _ => false
  end.

(** [x in l] for a Python list [l]. *)
Definition py_in_list (x : json) (l : list json) : bool :=
  existsb (py_eq x) l.

(** [repr(v)]; string literals are written between single quotes without
    escapes, which is exact for strings free of quotes, backslashes and
    control characters. *)
Fixpoint py_repr (v : json) : string :=
  match v with
  | JNull => "None"
  | JBool true => "True"
  | JBool false => "False"
  | JInt z => pretty z
  | JStr s => "'" ++ s ++ "'"
  | JArr l =>
      "[" ++
      (fix go (l : list json) : string :=
         match l with
         | [] => ""
         | [x] => py_repr x
         | x :: rest => py_repr x ++ ", " ++ go rest
         end) l ++ "]"
  | JObj d =>
      "{" ++
      (fix go (d : list (string * json)) : string :=
         match d with
         | [] => ""
         | [(k, x)] => "'" ++ k ++ "': " ++ py_repr x
         | (k, x) :: rest => "'" ++ k ++ "': " ++ py_repr x ++ ", " ++ go rest
         end) d ++ "}"
  end.

(** [str(v)] *)
Definition py_str (v : json) : string :=
  match v with
  | JStr s => s
  | _ => py_repr v
  end.

(** ASCII part of [str.lower()]. *)
Definition lower_ascii (c : ascii) : ascii :=
  let n := nat_of_ascii c in
  if ((65 <=? n) && (n <=? 90))%nat then ascii_of_nat (n + 32) else c.

Fixpoint lower (s : string) : string :=
  match s with
  | EmptyString => EmptyString
  | String c rest => String (lower_ascii c) (lower rest)
  end.

(** [s.startswith(p)] *)
Definition startswith (s p : string) : bool := String.prefix p s.

(** [p in s] for strings. *)
Fixpoint contains (s p : string) : bool :=
  String.prefix p s ||
  match s with
  | EmptyString => false
  | String _ rest => contains rest p
  end.

(** [s.replace(old, new)] for a non-empty [old]; the recursion is on a
    character budget that [length s] always covers. *)
Fixpoint replace_fuel (fuel : nat) (s old new : string) : string :=
  match fuel with
  | O => s
  | S fuel' =>
      match s with
      | EmptyString => EmptyString
      | String c rest =>
          if String.prefix old s
          then new ++ replace_fuel fuel'
                        (String.substring (String.length old)
                           (String.length s - String.length old) s) old new
          else String c (replace_fuel fuel' rest old new)
      end
  end.

Definition replace (s old new : string) : string :=
  replace_fuel (String.length s) s old new.

(** Whitespace removed by [str.strip()]. *)
Definition is_space (c : ascii) : bool :=
  let n := nat_of_ascii c in
  ((n =? 32) || ((9 <=? n) && (n <=? 13)) || ((28 <=? n) && (n <=? 31)))%nat.

Fixpoint lstrip (s : string) : string :=
  match s with
  | EmptyString => EmptyString
  | String c rest => if is_space c then lstrip rest else s
  end.

Fixpoint rstrip (s : string) : string :=
  match s with
  | EmptyString => EmptyString
  | String c rest =>
      match rstrip rest with
      | EmptyString => if is_space c then EmptyString else String c EmptyString
      | r => String c r
      end
  end.

Definition strip (s : string) : string := rstrip (lstrip s).

(** [s.split(',')] *)
Fixpoint split_comma (s : string) : list string :=
  match s with
  | EmptyString => [EmptyString]
  | String c rest =>
      if Ascii.eqb c ","%char
      then EmptyString :: split_comma rest
      else match split_comma rest with
           | [] => [String c EmptyString]
           | h :: t => String c h :: t
           end
  end.

(** ** Exceptions and outcomes *)

(** The exceptions the modelled code raises or catches.  All of them are
    subclasses of [Exception], so [except Exception] catches each one. *)
Inductive exn : Type :=
| RuntimeError (msg : string)
| ValueError (msg : string)
| TypeError (msg : string)
| KeyError (msg : string)
| AttributeError (msg : string)
| BrokenPipeError
| JSONDecodeError
| OSError (msg : string)
| ValidationError
| InvalidTokenError (msg : string)
| ExpiredSignatureError
| TokenExchangeError (msg : string) (status_code : Z)
| HTTPException (status_code : Z) (detail : string).

(** [str(e)] *)
Definition exn_str (e : exn) : string :=
  match e with
  | RuntimeError m | ValueError m | TypeError m | AttributeError m
  | OSError m | InvalidTokenError m => m
  | KeyError m => "'" ++ m ++ "'"
  | BrokenPipeError => "[Errno 32] Broken pipe"
  | JSONDecodeError => "Expecting value: line 1 column 1 (char 0)"
  | ValidationError => "validation error for MCPResponse"
  | ExpiredSignatureError => "Signature has expired"
  | TokenExchangeError m _ => m
  | HTTPException c d => pretty c ++ ": " ++ d
  end.

Definition is_http_exception (e : exn) : bool :=
  match e with HTTPException _ _ => true | _ => false end.

Definition is_value_error (e : exn) : bool :=
  match e with ValueError _ => true | _ => false end.

(** What a call does: it returns a value, raises, or blocks forever. *)
Inductive outcome (A : Type) : Type :=
| Ret (a : A)
| Raise (e : exn)
| Block.
Arguments Ret {A} a.
Arguments Raise {A} e.
Arguments Block {A}.

(** Stateful computations over a state [S]. *)
Definition M (S A : Type) : Type := S -> outcome A * S.

Definition ret {S A} (a : A) : M S A := fun s => (Ret a, s).
Definition raise {S A} (e : exn) : M S A := fun s => (Raise e, s).
Definition block {S A} : M S A := fun s => (Block, s).

Definition bind {S A B} (m : M S A) (k : A -> M S B) : M S B :=
  fun s =>
    match m s with
    | (Ret a, s') => k a s'
    | (Raise e, s') => (Raise e, s')
    | (Block, s') => (Block, s')
    end.

(** [try: m  except Exception as e: h e] *)
Definition try_except {S A} (m : M S A) (h : exn -> M S A) : M S A :=
  fun s =>
    match m s with
    | (Raise e, s') => h e s'
    | r => r
    end.

Definition get_state {S} : M S S := fun s => (Ret s, s).
Definition put_state {S} (s : S) : M S unit := fun _ => (Ret tt, s).
Definition modify {S} (f : S -> S) : M S unit := fun s => (Ret tt, f s).

(** Lift a pure fallible value. *)
Definition lift_sum {S A} (r : exn + A) : M S A :=
  match r with inl e => raise e | inr a => ret a end.

Declare Scope py_scope.
Delimit Scope py_scope with py.
Notation "x <- m ;; k" := (bind m (fun x => k))
  (at level 100, m at next level, right associativity) : py_scope.
Notation "m ;;; k" := (bind m (fun _ => k))
  (at level 100, right associativity) : py_scope.
Local Open Scope py_scope.

(** ** Child processes *)

(** One line read from a child's stdout, as [send_request] distinguishes
    them: blank after [strip()], not parseable by [json.loads], or a JSON
    value. *)
Inductive line : Type :=
| Blank
| Garbage
| Json (v : json).

(** [stdout] holds the lines the child will still write; [stdin] the
    requests written to it so far, oldest first; [alive] is
    [poll() is None]; [exits] tells whether the child exits once it has
    written those lines (its stdout then reaches end of file) or stays alive
    and silent. *)
Record process : Type := mkProcess {
  pid : nat;
  alive : bool;
  exits : bool;
  stdout : list line;
  stdin : list pydict;
  stderr : string
}.

Definition set_alive (b : bool) (p : process) : process :=
  mkProcess (pid p) b (exits p) (stdout p) (stdin p) (stderr p).
Definition set_stdout (l : list line) (p : process) : process :=
  mkProcess (pid p) (alive p) (exits p) l (stdin p) (stderr p).
Definition set_stdin (l : list pydict) (p : process) : process :=
  mkProcess (pid p) (alive p) (exits p) (stdout p) l (stderr p).

(** [process.stdin.write(json.dumps(request) + "\n"); flush()]: the pipe of
    an exited child is closed. *)
Definition write_stdin (request : pydict) : M process unit :=
  fun p =>
    if alive p then (Ret tt, set_stdin (stdin p ++ [request]) p)
    else (Raise BrokenPipeError, p).

(** [process.stdout.readline()]: the next line; end of file (the empty
    string, hence blank) once the output of an exited or exiting child is
    drained; no return while a live child stays silent. *)
Definition readline : M process line :=
  fun p =>
    match stdout p with
    | l :: rest => (Ret l, set_stdout rest p)
    | [] =>
        if alive p && negb (exits p) then (Block, p)
        else (Ret Blank, set_alive false p)
    end.

(** ** Providers ([mcp_manager.py]) *)

Inductive MCPServerStatus : Type :=
| STOPPED
| STARTING
| RUNNING
| FAILED.

(** [MCPServerStatus.value] *)
Definition status_value (s : MCPServerStatus) : string :=
  match s with
  | STOPPED => "stopped"
  | STARTING => "starting"
  | RUNNING => "running"
  | FAILED => "failed"
  end.

Definition is_running (s : MCPServerStatus) : bool :=
  match s with RUNNING => true | _ => false end.

(** The dataclass [MCPServerConfig].  [enabled] and [supports_obo] are only
    ever tested for truth, and are kept as booleans. *)
Record MCPServerConfig : Type := mkConfig {
  name : string;
  command : list json;
  env : json;
  transport : json;
  enabled : bool;
  supports_obo : bool
}.

Definition set_enabled (b : bool) (c : MCPServerConfig) : MCPServerConfig :=
  mkConfig (name c) (command c) (env c) (transport c) b (supports_obo c).

Record MCPServer : Type := mkServer {
  config : MCPServerConfig;
  proc : option process;
  status : MCPServerStatus;
  last_error : option string
}.

Definition set_config (c : MCPServerConfig) (s : MCPServer) : MCPServer :=
  mkServer c (proc s) (status s) (last_error s).
Definition set_proc (p : option process) (s : MCPServer) : MCPServer :=
  mkServer (config s) p (status s) (last_error s).
Definition set_status (st : MCPServerStatus) (s : MCPServer) : MCPServer :=
  mkServer (config s) (proc s) st (last_error s).
Definition set_last_error (e : option string) (s : MCPServer) : MCPServer :=
  mkServer (config s) (proc s) (status s) e.

(** [MCPServer.__init__] *)
Definition new_server (c : MCPServerConfig) : MCPServer :=
  mkServer c None STOPPED None.

(** Run an operation of the child inside the server that owns it. *)
Definition with_process {A} (m : M process A) : M MCPServer A :=
  fun self =>
    match proc self with
    | Some p => let '(r, p') := m p in (r, set_proc (Some p') self)
    | None => (Raise (AttributeError "'NoneType' object has no attribute"), self)
    end.

(** [self.process] is not [None]. *)
Definition has_process (self : MCPServer) : bool :=
  match proc self with Some _ => true | None => false end.

(** [str(x) if x is not None else None] *)
Definition normalize_id (v : json) : option string :=
  match v with
  | JNull => None
  | _ => Some (py_str v)
  end.

Definition same_id (a b : json) : bool :=
  match normalize_id a, normalize_id b with
  | None, None => true
  | Some x, Some y => String.eqb x y
  | _, _ => false
  end.

Definition max_attempts : nat := 10.

(** The [for attempt in range(max_attempts)] loop of [send_request], with
    [attempts] iterations left. *)
Fixpoint read_response (request_id : json) (attempts : nat) : M process pydict :=
  match attempts with
  | O => raise (RuntimeError "Failed to get matching response after 10 attempts")
  | S attempts' =>
      response_str <- readline ;;
      match response_str with
      | Blank => raise (RuntimeError "Empty response from MCP server")
      | Garbage => raise JSONDecodeError
      | Json (JObj response) =>
          if same_id request_id (dict_get_none "id" response)
          then ret response
          else read_response request_id attempts'
      | Json _ => raise (AttributeError "object has no attribute 'get'")
      end
  end.

(** [MCPServer.send_request] *)
Definition send_request (request : pydict) : M MCPServer pydict :=
  fun self =>
    if negb (is_running (status self)) || negb (has_process self)
    then (Raise (RuntimeError ("MCP server " ++ name (config self) ++ " is not running")), self)
    else
      try_except
        (let request_id := dict_get_none "id" request in
         with_process (write_stdin request ;;; read_response request_id max_attempts))
        (fun e self' =>
           match proc self' with
           | Some p =>
               if alive p then (Raise e, self')
               else (Raise e,
                     set_last_error (Some ("Process died: " ++ stderr p))
                       (set_status FAILED self'))
           | None => (Raise e, self')
           end)
        self.

(** The handshake sent by [start]. *)
Definition init_request : pydict :=
  [ ("jsonrpc", JStr "2.0");
    ("id", JInt 0);
    ("method", JStr "initialize");
    ("params", JObj
       [ ("protocolVersion", JStr "2024-11-05");
         ("capabilities", JObj []);
         ("clientInfo", JObj [ ("name", JStr "mcp-proxy"); ("version", JStr "1.0.0") ]) ]) ].

(** [MCPServer.start]; [spawn] is what [subprocess.Popen] does for this
    call, the child being observed after the one-second sleep. *)
Definition start (spawn : exn + process) : M MCPServer unit :=
  fun self =>
    if is_running (status self) then (Ret tt, self)
    else
      try_except
        (modify (set_status STARTING) ;;;
         p <- lift_sum spawn ;;
         modify (set_proc (Some p)) ;;;
         if alive p then
           modify (set_status RUNNING) ;;;
           try_except
             (init_response <- send_request init_request ;; ret tt)
             (fun _ => ret tt)
         else
           modify (set_last_error (Some ("Process exited immediately: " ++ stderr p))) ;;;
           modify (set_status FAILED))
        (fun e =>
           modify (set_last_error (Some (exn_str e))) ;;;
           modify (set_status FAILED))
        self.

(** [MCPServer.stop]: terminate (or kill after five seconds) a live child;
    nothing else touches the status. *)
Definition stop : M MCPServer unit :=
  fun self =>
    match proc self with
    | Some p =>
        if alive p
        then (Ret tt, set_status STOPPED (set_proc (Some (set_alive false p)) self))
        else (Ret tt, self)
    | None => (Ret tt, self)
    end.

(** ** The world outside the process *)

(** The reply of an HTTP dependency: the call raised (network error,
    timeout, a body that is not JSON), or a status code with its JSON body. *)
Inductive http_reply : Type :=
| HttpError (e : exn)
| HttpResponse (status_code : Z) (body : json).

Record environment : Type := mkEnv {
  (** [os.environ] *)
  getenv : string -> option string;
  (** [subprocess.Popen] followed by the one-second sleep, for the n-th spawn *)
  popen : nat -> MCPServerConfig -> exn + process;
  (** [uuid.uuid4().hex[:8]], for the n-th draw *)
  uuid4_hex8 : nat -> string;
  (** [GET {API_INTERNAL_URL}/api/auth/me] with the given bearer token *)
  api_auth_me : string -> http_reply;
  (** [GET {API_BASE_URL}/api/admin/mcp/access-summary/{group_id}] *)
  api_access_summary : string -> http_reply;
  (** [POST] to the identity provider's token endpoint: assertion, scope *)
  idp_token_endpoint : string -> string -> http_reply;
  (** [jwt.get_unverified_header]: the header, or the message of the
      [DecodeError] it raises *)
  jwt_get_unverified_header : string -> string + pydict;
  (** [jwt.decode(token, secret, algorithms=['HS256'], ...)] *)
  jwt_decode_hs256 : string -> string -> exn + pydict;
  (** the JWKS lookup and the RS256 [jwt.decode] attempts of [get_user_info],
      for a token and the [kid] of its header *)
  azure_jwt_validate : string -> json -> exn + pydict
}.

(** [os.getenv(key, default)] *)
Definition getenv_default (E : environment) (key default : string) : string :=
  match getenv E key with Some v => v | None => default end.

(** [os.getenv(var, default).lower() == "true"] *)
Definition env_is_true (E : environment) (var default : string) : bool :=
  String.eqb (lower (getenv_default E var default)) "true".

(** The key-value store: its content and whether commands reach it. *)
Record redis : Type := mkRedis {
  store : gmap string string;
  reachable : bool
}.

Definition REDIS_MCP_ENABLED_PREFIX : string := "mcp:server:enabled:".

(** [redis_client.get(key)] *)
Definition redis_get (r : redis) (key : string) : exn + option string :=
  if reachable r then inr (store r !! key)
  else inl (OSError "Error connecting to Redis").

(** [redis_client.set(key, value)] *)
Definition redis_set (r : redis) (key value : string) : exn + redis :=
  if reachable r then inr (mkRedis (<[key := value]> (store r)) (reachable r))
  else inl (OSError "Error connecting to Redis").

(** [MCPManager]: the registry in insertion order and the store client.
    [spawns] and [uuids] count the [Popen] calls and the [uuid4] draws made
    so far; they index the environment and are not fields of the Python
    object. *)
Record MCPManager : Type := mkManager {
  servers : list (string * MCPServer);
  redis_client : option redis;
  spawns : nat;
  uuids : nat
}.

Definition set_servers (l : list (string * MCPServer)) (m : MCPManager) : MCPManager :=
  mkManager l (redis_client m) (spawns m) (uuids m).
Definition set_redis (r : option redis) (m : MCPManager) : MCPManager :=
  mkManager (servers m) r (spawns m) (uuids m).
Definition set_spawns (n : nat) (m : MCPManager) : MCPManager :=
  mkManager (servers m) (redis_client m) n (uuids m).
Definition set_uuids (n : nat) (m : MCPManager) : MCPManager :=
  mkManager (servers m) (redis_client m) (spawns m) n.

(** Run a method of the provider registered under [key]; the provider object
    is shared, so its new state is what the registry holds afterwards. *)
Definition on_server {A} (key : string) (m : M MCPServer A) : M MCPManager A :=
  fun mgr =>
    match PyDict.get key (servers mgr) with
    | Some srv =>
        let '(r, srv') := m srv in
        (r, set_servers (PyDict.set key srv' (servers mgr)) mgr)
    | None => (Raise (KeyError key), mgr)
    end.

(** [server.start()] for a registered provider: one more [Popen] call. *)
Definition start_registered (E : environment) (key : string) : M MCPManager unit :=
  fun mgr =>
    match PyDict.get key (servers mgr) with
    | Some srv =>
        if is_running (status srv) then (Ret tt, mgr)
        else
          let '(r, srv') := start (popen E (spawns mgr) (config srv)) srv in
          (r, set_spawns (S (spawns mgr))
                (set_servers (PyDict.set key srv' (servers mgr)) mgr))
    | None => (Raise (KeyError key), mgr)
    end.

(** [uuid.uuid4().hex[:8]] *)
Definition fresh_uuid (E : environment) : M MCPManager string :=
  fun mgr => (Ret (uuid4_hex8 E (uuids mgr)), set_uuids (S (uuids mgr)) mgr).

(** ** The built-in registry ([MCPManager.initialize_servers]) *)

Section BuiltIn.
Variable E : environment.

(** An environment-overlay entry [key: os.getenv(var, default)]. *)
Definition ovl (key var default : string) : string * json :=
  (key, JStr (getenv_default E var default)).
Definition ov (var default : string) : string * json := ovl var var default.
Definition log_level : string * json := ("LOG_LEVEL", JStr "info").

Definition fastmcp (path : string) : list json :=
  [JStr "fastmcp"; JStr "run"; JStr "-t"; JStr "stdio"; JStr path].

(** [MCPServerConfig(name=..., command=..., env=..., supports_obo=...)] *)
Definition builtin (n : string) (cmd : list json) (overlay : pydict) (obo : bool)
  : string * MCPServer :=
  (n, new_server (mkConfig n cmd (JObj overlay) (JStr "stdio") true obo)).

Definition azure_credentials : pydict :=
  [ ov "AZURE_TENANT_ID" ""; ov "AZURE_CLIENT_ID" ""; ov "AZURE_CLIENT_SECRET" "";
    ov "AZURE_SUBSCRIPTION_ID" "" ].

Definition agenticode_overlay : pydict :=
  [ ov "AGENTICODE_MANAGER_URL" "http://agenticode-manager:3050";
    ov "AGENTICWORK_API_URL" "http://agenticwork-api:8000";
    ov "MCP_SERVICE_AUTH_KEY" "";
    ovl "INTERNAL_API_KEY" "CODE_MANAGER_INTERNAL_KEY" "";
    log_level ].

(** Each entry: whether the provider is configured, and the provider. *)
Definition builtin_table : list (bool * (string * MCPServer)) :=
  let api_internal_url := getenv_default E "API_INTERNAL_URL" "http://agenticwork-api:8000" in
  [ (negb (env_is_true E "AWP_ADMIN_MCP_DISABLED" "false"),
     builtin "awp_admin" (fastmcp "/app/mcp-servers/awp-admin-mcp/server.py")
       [ ov "DATABASE_URL" ""; ov "REDIS_URL" "";
         ov "REDIS_HOST" "agenticworkchat-redis"; ov "REDIS_PORT" "6379";
         ov "MILVUS_HOST" "agenticworkchat-milvus"; ov "MILVUS_PORT" "19530";
         log_level ] false);
    (negb (env_is_true E "AWP_KUBERNETES_MCP_DISABLED" "false"),
     builtin "awp_kubernetes" (fastmcp "/app/mcp-servers/awp-kubernetes-mcp/server.py")
       [ ov "AGENTICWORK_NAMESPACE" "agenticwork"; log_level ] false);
    (negb (env_is_true E "SEQUENTIAL_THINKING_MCP_DISABLED" "false"),
     builtin "sequential_thinking"
       [JStr "npx"; JStr "-y"; JStr "@modelcontextprotocol/server-sequential-thinking"]
       [] false);
    (negb (env_is_true E "AWP_WEB_MCP_DISABLED" "false"),
     builtin "awp_web" [JStr "python"; JStr "/app/mcp-servers/awp-web-mcp/server.py"]
       [ log_level; ovl "REQUEST_TIMEOUT" "AWP_WEB_REQUEST_TIMEOUT" "30";
         ov "MEMORY_MCP_URL" "http://mcp-proxy:3100" ] false);
    (negb (env_is_true E "AZURE_COST_MCP_DISABLED" "false"),
     builtin "azure_cost" [JStr "node"; JStr "/app/mcp-servers/azure-cost-mcp/dist/index.js"]
       (azure_credentials ++ [log_level]) false);
    (negb (env_is_true E "AWP_AZURE_MCP_DISABLED" "false"),
     builtin "awp_azure" (fastmcp "/app/mcp-servers/awp-azure-mcp/src/server.py")
       (azure_credentials ++
        [ ovl "AWC_AZURE_OBO_CLIENT_ID" "AZURE_CLIENT_ID" "";
          ovl "AWC_AZURE_OBO_CLIENT_SECRET" "AZURE_CLIENT_SECRET" "";
          log_level ]) true);
    (negb (env_is_true E "AWP_AZURE_COST_MCP_DISABLED" "false"),
     builtin "awp_azure_cost" (fastmcp "/app/mcp-servers/awp-azure-cost-mcp/src/server.py")
       (azure_credentials ++ [log_level]) true);
    (negb (env_is_true E "AWP_GCP_MCP_DISABLED" "false"),
     builtin "awp_gcp" (fastmcp "/app/mcp-servers/awp-gcp-mcp/src/server.py")
       [ ov "GCP_PROJECT_ID" ""; ov "GCP_CREDENTIALS_JSON" "";
         ov "GCP_CREDENTIALS_FILE" ""; ov "GCP_REGION" "us-central1"; log_level ] false);
    (negb (env_is_true E "AWP_AWS_MCP_DISABLED" "false"),
     builtin "awp_aws" (fastmcp "/app/mcp-servers/awp-aws-mcp/server.py")
       [ ov "AWS_REGION" ""; ov "AWS_OBO_ROLE_ARN" ""; ov "AWS_ACCOUNT_ID" "";
         ov "AWS_IC_INSTANCE_ARN" ""; ov "AWS_IC_APPLICATION_ARN" "";
         ov "AWS_ACCESS_KEY_ID" ""; ov "AWS_SECRET_ACCESS_KEY" "";
         ov "REDIS_HOST" "redis"; ov "REDIS_PORT" "6379"; ov "REDIS_PASSWORD" "";
         log_level ] true);
    (negb (env_is_true E "VMWARE_MCP_DISABLED" "true"),
     builtin "vmware" [JStr "node"; JStr "/app/mcp-servers/vmware-mcp-server/dist/index.js"]
       [ ov "VMWARE_HOST" ""; ov "VMWARE_USERNAME" ""; ov "VMWARE_PASSWORD" "";
         log_level ] false);
    (negb (String.eqb
             (lower (getenv_default E "PROMETHEUS_MCP_DISABLED"
                       (getenv_default E "AWP_PROMETHEUS_MCP_DISABLED" "false")))
             "true"),
     builtin "awp_prometheus" [JStr "prometheus-mcp-server"]
       [ ov "PROMETHEUS_URL" "http://prometheus:9090"; log_level ] false);
    (negb (env_is_true E "AWP_FLOWISE_MCP_DISABLED" "false"),
     builtin "awp_flowise" (fastmcp "/app/mcp-servers/awp-flowise-mcp/server.py")
       [ ov "FLOWISE_URL" (api_internal_url ++ "/api/flowise-workspace");
         ov "FLOWISE_DIRECT_URL" "http://agenticwork-flowise:3000";
         ("API_INTERNAL_URL", JStr api_internal_url);
         ov "FLOWISE_API_KEY" ""; ov "FLOWISE_ADMIN_TOKEN" "";
         ov "FLOWISE_DEFAULT_WORKSPACE_ID" "";
         ov "APP_BASE_URL" "https://chat-dev.agenticwork.io"; log_level ] true);
    (negb (env_is_true E "AWP_AGENTICODE_MCP_DISABLED" "false"),
     builtin "awp_agenticode" (fastmcp "/app/mcp-servers/awp-agenticode-mcp/server.py")
       agenticode_overlay false);
    (negb (env_is_true E "AWP_AGENTICWORK_CLI_MCP_DISABLED" "false"),
     builtin "awp_agenticwork_cli"
       (fastmcp "/app/mcp-servers/awp-agenticwork-cli-mcp/server.py")
       agenticode_overlay false);
    (negb (env_is_true E "AWP_SERVICENOW_MCP_DISABLED" "true"),
     builtin "awp_servicenow" (fastmcp "/app/mcp-servers/awp-servicenow-mcp/src/server.py")
       ([ ov "SERVICENOW_INSTANCE_URL" ""; ov "SERVICENOW_CLIENT_ID" "";
          ov "SERVICENOW_CLIENT_SECRET" "";
          ov "AZURE_TENANT_ID" ""; ov "AZURE_CLIENT_ID" ""; ov "AZURE_CLIENT_SECRET" "";
          ov "SERVICENOW_USERNAME" ""; ov "SERVICENOW_PASSWORD" ""; log_level ]) true);
    (negb (env_is_true E "AWS_KNOWLEDGE_MCP_DISABLED" "false"),
     builtin "aws_knowledge"
       [JStr "uvx"; JStr "fastmcp"; JStr "run"; JStr "https://knowledge-mcp.global.api.aws"]
       [ ov "AWS_REGION" "" ] false) ].

(** [initialize_servers]: the configured providers, in the order the
    method registers them. *)
Definition initialize_servers : list (string * MCPServer) :=
  map snd (List.filter (fun e : bool * (string * MCPServer) => fst e) builtin_table).
End BuiltIn.

(** ** The manager ([MCPManager]) *)

(** [for x in l: body x] *)
Fixpoint for_each {S A} (l : list A) (body : A -> M S unit) : M S unit :=
  match l with
  | [] => ret tt
  | x :: rest => body x ;;; for_each rest body
  end.

(** [self.servers[name].config.enabled = b] *)
Definition assign_enabled (key : string) (b : bool) (mgr : MCPManager) : MCPManager :=
  match PyDict.get key (servers mgr) with
  | Some srv =>
      set_servers
        (PyDict.set key (set_config (set_enabled b (config srv)) srv) (servers mgr)) mgr
  | None => mgr
  end.

(** The loop of [_load_enabled_states_from_redis]; an exception of the store
    ends it and keeps what was loaded before. *)
Fixpoint load_enabled_states (r : redis) (names : list string) (mgr : MCPManager)
  : MCPManager :=
  match names with
  | [] => mgr
  | server_name :: rest =>
      match redis_get r (REDIS_MCP_ENABLED_PREFIX ++ server_name) with
      | inl _ => mgr
      | inr None => load_enabled_states r rest mgr
      | inr (Some value) =>
          load_enabled_states r rest
            (assign_enabled server_name (String.eqb (lower value) "true") mgr)
      end
  end.

Definition _load_enabled_states_from_redis (mgr : MCPManager) : MCPManager :=
  match redis_client mgr with
  | None => mgr
  | Some r => load_enabled_states r (PyDict.keys (servers mgr)) mgr
  end.

(** [str(enabled).lower()] *)
Definition bool_text (b : bool) : string := if b then "true" else "false".

(** [_save_enabled_state_to_redis]: the stored state and whether it was
    persisted. *)
Definition _save_enabled_state_to_redis (server_name : string) (b : bool)
  : M MCPManager bool :=
  fun mgr =>
    match redis_client mgr with
    | None => (Ret false, mgr)
    | Some r =>
        match redis_set r (REDIS_MCP_ENABLED_PREFIX ++ server_name) (bool_text b) with
        | inr r' => (Ret true, set_redis (Some r') mgr)
        | inl _ => (Ret false, mgr)
        end
    end.

(** [MCPManager.__init__]: the content of the store survives the process,
    the registry is rebuilt from the environment. *)
Definition new_manager (E : environment) (redis_client : option redis)
    (spawns uuids : nat) : MCPManager :=
  _load_enabled_states_from_redis
    (mkManager (initialize_servers E) redis_client spawns uuids).

Definition start_all (E : environment) : M MCPManager unit :=
  fun mgr =>
    for_each (PyDict.keys (servers mgr))
      (fun key mgr' =>
         match PyDict.get key (servers mgr') with
         | Some srv =>
             if enabled (config srv) then start_registered E key mgr'
             else (Ret tt, mgr')
         | None => (Ret tt, mgr')
         end)
      mgr.

Definition stop_all : M MCPManager unit :=
  fun mgr => for_each (PyDict.keys (servers mgr)) (fun key => on_server key stop) mgr.

(** The token injection of [route_request]:
    [request["params"]["arguments"]["meta"]["userAccessToken"] = user_token],
    after creating what is missing.  Testing or indexing a value that is not
    a dictionary with a string key raises [TypeError]. *)
Definition inject_user_token (request : pydict) (user_token : string) : exn + pydict :=
  let request1 :=
    if PyDict.mem "params" request then request
    else PyDict.set "params" (JObj []) request in
  match dict_get_none "params" request1 with
  | JObj params =>
      let params1 :=
        match PyDict.get "arguments" params with
        | None | Some JNull => PyDict.set "arguments" (JObj []) params
        | Some _ => params
        end in
      match dict_get_none "arguments" params1 with
      | JObj arguments =>
          let arguments1 :=
            match PyDict.get "meta" arguments with
            | None | Some JNull => PyDict.set "meta" (JObj []) arguments
            | Some _ => arguments
            end in
          match dict_get_none "meta" arguments1 with
          | JObj meta =>
              let meta1 := PyDict.set "userAccessToken" (JStr user_token) meta in
              inr (PyDict.set "params"
                     (JObj (PyDict.set "arguments"
                              (JObj (PyDict.set "meta" (JObj meta1) arguments1))
                              params1))
                     request1)
          | _ => inl (TypeError "object does not support item assignment")
          end
      | _ => inl (TypeError "argument is not a dictionary")
      end
  | _ => inl (TypeError "argument is not a dictionary")
  end.

(** A token that is neither [None] nor empty. *)
Definition usable (t : option string) : option string :=
  match t with
  | Some s => if String.eqb s "" then None else Some s
  | None => None
  end.

Definition route_request (server_name : string) (request : pydict)
    (user_token : option string) : M MCPManager pydict :=
  fun mgr =>
    match PyDict.get server_name (servers mgr) with
    | None => (Raise (ValueError ("Unknown MCP server: " ++ server_name)), mgr)
    | Some server =>
        if negb (is_running (status server))
        then (Raise (RuntimeError ("MCP server " ++ server_name
                                   ++ " is not running (status: "
                                   ++ status_value (status server) ++ ")")), mgr)
        else
          match usable user_token with
          | Some tok =>
              if eq_str (dict_get_none "method" request) "tools/call"
              then
                match inject_user_token request tok with
                | inr request' => on_server server_name (send_request request') mgr
                | inl e => (Raise e, mgr)
                end
              else on_server server_name (send_request request) mgr
          | None => on_server server_name (send_request request) mgr
          end
    end.

Definition unknown_server (server_id : string) : exn :=
  ValueError ("Unknown server: " ++ server_id).

Definition start_server (E : environment) (server_id : string) : M MCPManager unit :=
  fun mgr =>
    if negb (PyDict.mem server_id (servers mgr))
    then (Raise (unknown_server server_id), mgr)
    else start_registered E server_id mgr.

Definition stop_server (server_id : string) : M MCPManager unit :=
  fun mgr =>
    if negb (PyDict.mem server_id (servers mgr))
    then (Raise (unknown_server server_id), mgr)
    else on_server server_id stop mgr.

Definition remove_server (server_id : string) : M MCPManager unit :=
  fun mgr =>
    match PyDict.get server_id (servers mgr) with
    | None => (Raise (unknown_server server_id), mgr)
    | Some server =>
        ((if is_running (status server) then on_server server_id stop else ret tt) ;;;
         modify (fun mgr' => set_servers (PyDict.del server_id (servers mgr')) mgr'))
          mgr
    end.

Definition restart_server (E : environment) (server_id : string) : M MCPManager unit :=
  fun mgr =>
    if negb (PyDict.mem server_id (servers mgr))
    then (Raise (unknown_server server_id), mgr)
    else (on_server server_id stop ;;; start_registered E server_id) mgr.

Definition set_server_enabled (E : environment) (server_id : string) (b : bool)
  : M MCPManager pydict :=
  fun mgr =>
    match PyDict.get server_id (servers mgr) with
    | None => (Raise (unknown_server server_id), mgr)
    | Some server =>
        let previous_state := enabled (config server) in
        (modify (assign_enabled server_id b) ;;;
         persisted <- _save_enabled_state_to_redis server_id b ;;
         action_taken <-
           (if b && negb (is_running (status server))
            then start_registered E server_id ;;; ret "started"
            else if negb b && is_running (status server)
            then on_server server_id stop ;;; ret "stopped"
            else ret "no_change") ;;
         mgr' <- get_state ;;
         ret [ ("server_id", JStr server_id);
               ("enabled", JBool b);
               ("previous_enabled", JBool previous_state);
               ("status", JStr (match PyDict.get server_id (servers mgr') with
                                | Some s => status_value (status s)
                                | None => status_value (status server)
                                end));
               ("action", JStr action_taken);
               ("persisted_to_redis", JBool persisted) ])
          mgr
    end.

(** [{"name": server_name, **server_config}] *)
Definition merge_named (server_name : string) (server_config : pydict) : pydict :=
  fold_left (fun acc kv => PyDict.set (fst kv) (snd kv) acc) server_config
    [("name", JStr server_name)].

(** The first part of [add_server]: unwrap the [mcpServers] container. *)
Definition normalize_config (config : pydict) : exn + pydict :=
  match PyDict.get "mcpServers" config with
  | None => inr config
  | Some mcp_servers =>
      if negb (truthy mcp_servers) then inl (ValueError "mcpServers object is empty")
      else
        match mcp_servers with
        | JObj ((server_name, server_config) :: _) =>
            match server_config with
            | JObj sc => inr (merge_named server_name sc)
            | _ => inl (TypeError "'name' object is not a mapping")
            end
        | _ => inl (AttributeError "object has no attribute 'keys'")
        end
  end.

(** [add_server].  A [name] that is truthy but not a string would be used
    as a registry key of another type; the registry of the model has string
    keys, and such a call is modelled as a [TypeError]. *)
Definition add_server (E : environment) (config0 : pydict) : M MCPManager pydict :=
  config <- lift_sum (normalize_config config0) ;;
  let name_ := dict_get_none "name" config in
  let command_ := dict_get_none "command" config in
  if negb (truthy name_)
  then raise (ValueError "Server configuration must include 'name'")
  else if negb (truthy command_)
  then raise (ValueError "Server configuration must include 'command'")
  else
    match name_ with
    | JStr n =>
        mgr <- get_state ;;
        if PyDict.mem n (servers mgr)
        then raise (ValueError ("Server '" ++ n ++ "' already exists. Use restart or remove first."))
        else
          let args := PyDict.get_default "args" (JArr []) config in
          command_list <-
            match command_ with
            | JStr _ =>
                match args with
                | JArr l => ret (command_ :: l)
                | _ => raise (TypeError "can only concatenate list to list")
                end
            | JArr l => ret l
            | _ => raise (ValueError "'command' must be a string or list")
            end ;;
          let env_ := PyDict.get_default "env" (JObj []) config in
          let transport_ := PyDict.get_default "transport" (JStr "stdio") config in
          let enabled_ := PyDict.get_default "enabled" (JBool true) config in
          let supports_obo_ := PyDict.get_default "supports_obo" (JBool false) config in
          let server_config :=
            mkConfig n command_list env_ transport_ (truthy enabled_) (truthy supports_obo_) in
          modify (fun mgr' =>
                    set_servers (PyDict.set n (new_server server_config) (servers mgr')) mgr') ;;;
          (if truthy enabled_ then start_registered E n else ret tt) ;;;
          mgr' <- get_state ;;
          ret [ ("name", name_);
                ("status", JStr (match PyDict.get n (servers mgr') with
                                 | Some s => status_value (status s)
                                 | None => status_value STOPPED
                                 end));
                ("command", JArr command_list);
                ("enabled", enabled_);
                ("transport", transport_) ]
    | JArr _ | JObj _ => raise (TypeError "unhashable type")
    | _ => raise (TypeError "server name is not a string")
    end.

(** [len(v)] is defined. *)
Definition sized (v : json) : bool :=
  match v with JStr _ | JArr _ | JObj _ => true | _ => false end.

(** One iteration of [list_all_tools] for a running provider: what
    [all_tools[name]] becomes. *)
Definition list_tools_of (E : environment) (name_ : string) : M MCPManager json :=
  try_except
    (u <- fresh_uuid E ;;
     let request :=
       [ ("jsonrpc", JStr "2.0"); ("id", JStr ("list-tools-" ++ name_ ++ "-" ++ u));
         ("method", JStr "tools/list") ] in
     response <- on_server name_ (send_request request) ;;
     response <-
       match PyDict.get "error" response with
       | Some (JObj err) =>
           if py_eq (dict_get_none "code" err) (JInt (-32602))
           then
             u' <- fresh_uuid E ;;
             on_server name_
               (send_request
                  (PyDict.set "params" (JObj [])
                     (PyDict.set "id" (JStr ("list-tools-retry-" ++ name_ ++ "-" ++ u'))
                        request)))
           else ret response
       | Some _ => raise (AttributeError "object has no attribute 'get'")
       | None => ret response
       end ;;
     match PyDict.get "result" response with
     | Some (JObj result) =>
         match PyDict.get "tools" result with
         | Some tools =>
             if sized tools then ret tools
             else raise (TypeError "object has no len()")
         | None => ret (JArr [])
         end
     | Some (JNull | JBool _ | JInt _) => raise (TypeError "argument is not iterable")
     | Some (JArr l) =>
         if py_in_list (JStr "tools") l
         then raise (TypeError "list indices must be integers")
         else ret (JArr [])
     | Some (JStr s) =>
         if contains s "tools"
         then raise (TypeError "string indices must be integers")
         else ret (JArr [])
     | None => ret (JArr [])
     end)
    (fun _ => ret (JArr [])).

(** [MCPManager.list_all_tools] *)
Definition list_all_tools (E : environment) : M MCPManager pydict :=
  fun mgr =>
    (fix loop (names : list string) (all_tools : pydict) : M MCPManager pydict :=
       match names with
       | [] => ret all_tools
       | name_ :: rest =>
           mgr' <- get_state ;;
           match PyDict.get name_ (servers mgr') with
           | Some server =>
               if is_running (status server)
               then tools <- list_tools_of E name_ ;;
                    loop rest (PyDict.set name_ tools all_tools)
               else loop rest all_tools
           | None => loop rest all_tools
           end
       end) (PyDict.keys (servers mgr)) [] mgr.

(** ** Authentication and access policy ([main.py]) *)

(** [for x in v] / [list(v)]: the items of a list, the characters of a
    string, the keys of a dictionary. *)
Fixpoint chars (s : string) : list json :=
  match s with
  | EmptyString => []
  | String c rest => JStr (String c EmptyString) :: chars rest
  end.

Definition py_iter (v : json) : exn + list json :=
  match v with
  | JArr l => inr l
  | JStr s => inr (chars s)
  | JObj d => inr (map (fun kv => JStr (fst kv)) d)
  | _ => inl (TypeError "object is not iterable")
  end.

(** [v[key]] for a string [key]. *)
Definition subscript (v : json) (key : string) : exn + json :=
  match v with
  | JObj d =>
      match PyDict.get key d with
      | Some x => inr x
      | None => inl (KeyError key)
      end
  | _ => inl (TypeError "indices must be integers")
  end.

(** [x in v] for a string [x]. *)
Definition str_in (x : string) (v : json) : exn + bool :=
  match v with
  | JArr l => inr (py_in_list (JStr x) l)
  | JStr s => inr (contains s x)
  | JObj d => inr (PyDict.mem x d)
  | _ => inl (TypeError "argument is not iterable")
  end.

Section Main.
Variable E : environment.

(** Module constants of [main.py]. *)
Definition ENABLE_AUTH : bool :=
  let v := lower (getenv_default E "ENABLE_AUTH" "true") in
  String.eqb v "true" || String.eqb v "1" || String.eqb v "yes".

(** One half of [get_authorized_groups]. *)
Definition group_list (var : string) : list string :=
  List.filter (fun g => negb (String.eqb g ""))
    (map strip (split_comma (getenv_default E var ""))).

Definition get_authorized_groups : list string * list string :=
  (group_list "AAD_AUTHORIZED_USER_GROUPS", group_list "AAD_AUTHORIZED_ADMIN_GROUPS").

(** [any(group in required_groups for group in user_groups)], preceded by
    the empty-list shortcut. *)
Definition is_user_authorized (user_groups : json) (required_groups : list string)
  : exn + bool :=
  match required_groups with
  | [] => inr true
  | _ =>
      match py_iter user_groups with
      | inl e => inl e
      | inr gs =>
          inr (existsb (fun g => existsb (fun r => eq_str g r) required_groups) gs)
      end
  end.

Definition is_admin_user (user_groups : json) (admin_groups : list string) : exn + bool :=
  is_user_authorized user_groups admin_groups.

(** One [access_summary] item of [fetch_user_mcp_access_policies].  Server
    names that are not strings can never equal a registry name; the map of
    the model keeps string keys only. *)
Definition policy_item (item : json) (access_map : pydict) : exn + pydict :=
  match subscript item "server" with
  | inl e => inl e
  | inr server =>
      match subscript server "id" with
      | inl e => inl e
      | inr _ =>
          match subscript server "name" with
          | inl e => inl e
          | inr server_name =>
              match subscript item "access" with
              | inl e => inl e
              | inr access_type =>
                  match server_name with
                  | JStr n =>
                      if negb (PyDict.mem n access_map) || eq_str access_type "allow"
                      then inr (PyDict.set n access_type access_map)
                      else inr access_map
                  | JArr _ | JObj _ => inl (TypeError "unhashable type")
                  | _ => inr access_map
                  end
              end
          end
      end
  end.

(** The items of one group; an exception stops the group and keeps the
    entries made so far. *)
Fixpoint policy_items (items : list json) (access_map : pydict) : pydict :=
  match items with
  | [] => access_map
  | item :: rest =>
      match policy_item item access_map with
      | inr access_map' => policy_items rest access_map'
      | inl _ => access_map
      end
  end.

Definition policy_group (group_id : json) (access_map : pydict) : pydict :=
  match api_access_summary E (py_str group_id) with
  | HttpResponse 200 (JObj data) =>
      match py_iter (PyDict.get_default "access_summary" (JArr []) data) with
      | inr items => policy_items items access_map
      | inl _ => access_map
      end
  | _ => access_map
  end.

Definition fetch_user_mcp_access_policies (user_groups : json) : pydict :=
  match py_iter user_groups with
  | inr groups => fold_left (fun acc g => policy_group g acc) groups []
  | inl _ => []
  end.

Definition admin_servers_policy : list string := ["admin"; "awp_admin"; "awp_kubernetes"].

Definition check_server_access (server_name : string) (user_groups : json)
    (access_policies : pydict) (is_admin : json) : bool :=
  if truthy is_admin then true
  else
    match PyDict.get server_name access_policies with
    | Some access => eq_str access "allow"
    | None =>
        if existsb (String.eqb server_name) admin_servers_policy then false
        else true
    end.
End Main.

(** The dictionary returned by [get_user_info]. *)
Record user_info : Type := mkUser {
  token : option string;
  payload : pydict;
  user_id : json;
  user_name : json;
  email : json;
  upn : json;
  groups : json;
  is_admin : json
}.

Definition SYSTEM_SP_AUTH : string := "SYSTEM_SP_AUTH".

Definition local_admin : user_info :=
  mkUser None [] (JStr "system-admin") (JStr "System Admin") (JStr "admin@local")
    JNull (JArr [JStr "system-admins"]) (JBool true).

Definition system_root : user_info :=
  mkUser (Some SYSTEM_SP_AUTH) [] (JStr "system-root") (JStr "System Root")
    (JStr "system@agenticwork.io") JNull (JArr [JStr "system-admins"]) (JBool true).

Definition flowise_service : user_info :=
  mkUser (Some SYSTEM_SP_AUTH) [] (JStr "flowise-service") (JStr "Flowise Service")
    (JStr "flowise@agenticwork.io") JNull (JArr [JStr "service-accounts"]) (JBool true).

Definition api_service : user_info :=
  mkUser (Some SYSTEM_SP_AUTH) [] (JStr "api-service") (JStr "AgenticWork API Service")
    (JStr "api@agenticwork.io") JNull (JArr [JStr "service-accounts"]) (JBool true).

Section Auth.
Variable E : environment.

(** The identity adopted from a 200 reply of [/api/auth/me]. *)
Definition api_key_user (tok : string) (user_data : pydict) : user_info :=
  mkUser (Some tok) []
    (PyDict.get_default "userId" (JStr "unknown") user_data)
    (py_or (dict_get_none "name" user_data)
           (PyDict.get_default "email" (JStr "API User") user_data))
    (PyDict.get_default "email" (JStr "api-user@agenticwork.io") user_data)
    JNull
    (PyDict.get_default "groups" (JArr []) user_data)
    (PyDict.get_default "isAdmin" (JBool false) user_data).

(** The API-key branch: [Some] identity when the key validates, [None]
    when the code leaves the branch without returning. *)
Definition validate_api_key (tok : string) : option user_info :=
  match api_auth_me E tok with
  | HttpResponse 200 (JObj user_data) => Some (api_key_user tok user_data)
  | _ => None
  end.

Definition unauthorized (detail : string) : exn := HTTPException 401 detail.

(** The claims of a locally signed token. *)
Definition internal_user (tok : string) (p : pydict) : exn + user_info :=
  let uid := py_or (py_or (dict_get_none "userId" p) (dict_get_none "user_id" p))
                   (dict_get_none "sub" p) in
  let user_email := py_or (dict_get_none "email" p) (dict_get_none "userEmail" p) in
  let uname := py_or (py_or (dict_get_none "name" p) (dict_get_none "userName" p))
                     user_email in
  let adm := py_or (PyDict.get_default "isAdmin" (JBool false) p)
                   (PyDict.get_default "is_admin" (JBool false) p) in
  let user_groups := PyDict.get_default "groups" (JArr []) p in
  if truthy adm then
    match str_in "system-admins" user_groups with
    | inl e => inl e
    | inr true => inr (mkUser (Some tok) p uid uname user_email JNull user_groups adm)
    | inr false =>
        match py_iter user_groups with
        | inl e => inl e
        | inr l =>
            inr (mkUser (Some tok) p uid uname user_email JNull
                   (JArr (l ++ [JStr "system-admins"])%list) adm)
        end
    end
  else inr (mkUser (Some tok) p uid uname user_email JNull user_groups adm).

(** [os.environ.get('JWT_SECRET') or os.environ.get('SIGNING_SECRET') or
    os.environ.get('INTERNAL_JWT_SECRET', 'dev-secret-change-in-production')] *)
Definition internal_jwt_secret : string :=
  let nonempty (v : option string) :=
    match v with Some s => negb (String.eqb s "") | None => false end in
  if nonempty (getenv E "JWT_SECRET") then getenv_default E "JWT_SECRET" ""
  else if nonempty (getenv E "SIGNING_SECRET") then getenv_default E "SIGNING_SECRET" ""
  else getenv_default E "INTERNAL_JWT_SECRET" "dev-secret-change-in-production".

(** The outer handlers of the token block: an [HTTPException] passes, any
    other exception becomes a 401. *)
Definition token_failure (e : exn) : exn :=
  if is_http_exception e then e
  else unauthorized ("Token validation failed: " ++ exn_str e).

(** The claims of an identity-provider token, after its validation. *)
Definition azure_user (tok : string) (p : pydict) : exn + user_info :=
  let user_groups := PyDict.get_default "groups" (JArr []) p in
  let '(authorized_user_groups, authorized_admin_groups) := get_authorized_groups E in
  let all_authorized_groups := (authorized_user_groups ++ authorized_admin_groups)%list in
  match is_user_authorized user_groups all_authorized_groups with
  | inl e => inl e
  | inr ok =>
      if negb ok
      then inl (HTTPException 403
                  ("Access denied. You must be a member of one of these groups: "
                   ++ String.concat ", " all_authorized_groups))
      else
        match is_admin_user user_groups authorized_admin_groups with
        | inl e => inl e
        | inr adm =>
            inr (mkUser (Some tok) p
                   (dict_get_none "oid" p)
                   (py_or (dict_get_none "name" p) (dict_get_none "preferred_username" p))
                   (py_or (dict_get_none "email" p) (dict_get_none "preferred_username" p))
                   (dict_get_none "upn" p)
                   user_groups (JBool adm))
        end
  end.

(** The [try] block of [get_user_info] that treats the bearer value as a
    signed token. *)
Definition jwt_identity (tok : string) : exn + user_info :=
  match jwt_get_unverified_header E tok with
  | inl msg => inl (token_failure (InvalidTokenError msg))
  | inr header =>
      let alg := PyDict.get_default "alg" (JStr "RS256") header in
      let kid := dict_get_none "kid" header in
      if eq_str alg "HS256" && negb (truthy kid) then
        match jwt_decode_hs256 E tok internal_jwt_secret with
        | inl ExpiredSignatureError => inl (unauthorized "Token expired")
        | inl (InvalidTokenError m) => inl (unauthorized ("Invalid internal token: " ++ m))
        | inl e => inl (token_failure e)
        | inr p =>
            match internal_user tok p with
            | inl e => inl (token_failure e)
            | inr u => inr u
            end
        end
      else
        match azure_jwt_validate E tok kid with
        | inl e => inl (token_failure e)
        | inr p =>
            match azure_user tok p with
            | inl e => inl (token_failure e)
            | inr u => inr u
            end
        end
  end.

(** The service-key comparisons and the token block: everything of
    [get_user_info] after the API-key branch. *)
Definition service_or_jwt (tok : string) : exn + user_info :=
  let flowise_api_key := getenv_default E "FLOWISE_INTERNAL_API_KEY" "flowise-internal" in
  let api_internal_key := getenv_default E "API_INTERNAL_KEY" "" in
  if negb (String.eqb tok "") && String.eqb tok flowise_api_key then inr flowise_service
  else if negb (String.eqb tok "") && String.eqb tok api_internal_key then inr api_service
  else jwt_identity tok.

(** [get_user_info]; [credentials] is the bearer value, if any. *)
Definition get_user_info (credentials : option string) : exn + user_info :=
  match credentials with
  | None => inr local_admin
  | Some tok =>
      if negb (String.eqb tok "") && startswith tok "awc_system_" then inr system_root
      else if negb (String.eqb tok "") && startswith tok "awc_"
              && negb (startswith tok "awc_system_")
      then
        match validate_api_key tok with
        | Some u => inr u
        | None => service_or_jwt tok
        end
      else service_or_jwt tok
  end.

(** [exchange_token_for_azure]: the on-behalf-of grant. *)
Definition exchange_token_for_azure (original_token scope : string) : exn + json :=
  match idp_token_endpoint E original_token scope with
  | HttpResponse 200 (JObj token_response) =>
      match PyDict.get "access_token" token_response with
      | Some t => inr t
      | None => inl (TokenExchangeError "Unexpected error: 'access_token'" 500)
      end
  | HttpResponse _ _ =>
      inl (TokenExchangeError "Unexpected error: Token exchange failed" 500)
  | HttpError e => inl (TokenExchangeError ("Network error: " ++ exn_str e) 500)
  end.
End Auth.

(** ** The HTTP facade ([main.py]) *)

Record MCPRequest : Type := mkRequest {
  method : string;
  params : pydict;
  id : string;
  server : option string
}.

(** [MCPResponse] without its [execution_time]. *)
Record MCPResponse : Type := mkResponse {
  result : json;
  error : json;
  response_id : string;
  response_server : option string
}.

(** The request headers the handlers read. *)
Record headers : Type := mkHeaders {
  authorization : option string;
  x_azure_id_token : option string;
  x_api_key : option string
}.

(** One [send_mcp_log_to_api] task queued on [background_tasks]; the
    [params], [result] and timing arguments are left out. *)
Record audit_record : Type := mkAudit {
  audit_user_id : json;
  audit_user_name : json;
  audit_server_name : option string;
  audit_tool_name : json;
  audit_method : string;
  audit_error : option string;
  audit_success : bool
}.

(** The state a handler runs in: the global [mcp_manager] and the
    [background_tasks] of the request. *)
Record app : Type := mkApp {
  mcp_manager : option MCPManager;
  background_tasks : list audit_record
}.

Definition with_manager {A} (m : M MCPManager A) : M app A :=
  fun a =>
    match mcp_manager a with
    | Some mgr =>
        let '(r, mgr') := m mgr in (r, mkApp (Some mgr') (background_tasks a))
    | None => (Raise (AttributeError "'NoneType' object has no attribute"), a)
    end.

(** [background_tasks.add_task(send_mcp_log_to_api, ...)] *)
Definition add_task (r : audit_record) : M app unit :=
  modify (fun a => mkApp (mcp_manager a) (background_tasks a ++ [r])%list).

(** A field typed [Optional[Dict[str, Any]]] accepts [None] and
    dictionaries. *)
Definition optional_dict (v : json) : bool :=
  match v with JNull | JObj _ => true | _ => false end.

(** [dict(v)] for a truthy [v]: a copy of a dictionary, or a dictionary
    built from key-value pairs given as two-item lists or two-character
    strings.  Keys that are not strings are outside the model. *)
Definition pair_of (item : json) : exn + (string * json) :=
  match item with
  | JArr [JStr k; v] => inr (k, v)
  | JStr (String a (String b EmptyString)) =>
      inr (String a EmptyString, JStr (String b EmptyString))
  | _ => inl (TypeError "cannot convert dictionary update sequence element")
  end.

Fixpoint dict_of_pairs (items : list json) (acc : pydict) : exn + pydict :=
  match items with
  | [] => inr acc
  | item :: rest =>
      match pair_of item with
      | inl e => inl e
      | inr (k, v) => dict_of_pairs rest (PyDict.set k v acc)
      end
  end.

Definition py_dict (v : json) : exn + pydict :=
  match v with
  | JObj d => inr d
  | JArr l => dict_of_pairs l []
  | JStr _ => inl (ValueError "dictionary update sequence element #0 has length 1; 2 is required")
  | _ => inl (TypeError "object is not iterable")
  end.

Definition admin_servers : list string := ["admin"; "awp_admin"].
Definition servers_needing_user_id : list string := ["awp_agenticwork_cli"; "awp_agenticode"].
Definition serverless_tools : list json :=
  [JStr "run_agenticode_task"; JStr "run_code_generation"; JStr "run_file_operation"].

Definition forbidden (target_server : string) : exn :=
  HTTPException 403
    ("Access denied. Admin privileges required to access '" ++ target_server ++ "' server.").

(** [user_info.get('is_admin', False) if user_info else False] *)
Definition admin_flag (ui : option user_info) : json :=
  match ui with Some u => is_admin u | None => JBool false end.

Section Facade.
Variable E : environment.

(** [[t["name"] for t in tools]] *)
Fixpoint tool_names (tools : list json) : exn + list json :=
  match tools with
  | [] => inr []
  | t :: rest =>
      match subscript t "name" with
      | inl e => inl e
      | inr n =>
          match tool_names rest with
          | inl e => inl e
          | inr ns => inr (n :: ns)
          end
      end
  end.

(** Whether a [tools/list] response advertises [tool_name]; an exception
    of the test reads as "no". *)
Definition advertises (tool_name : json) (response : pydict) : bool :=
  match PyDict.get "result" response with
  | Some (JObj res) =>
      match PyDict.get "tools" res with
      | Some tools =>
          match py_iter tools with
          | inr items =>
              match tool_names items with
              | inr server_tools => py_in_list tool_name server_tools
              | inl _ => false
              end
          | inl _ => false
          end
      | None => false
      end
  | _ => false
  end.

(** The probe of one running provider during auto-detection. *)
Definition probe (server_name : string) (tool_name : json) : M MCPManager bool :=
  try_except
    (u <- fresh_uuid E ;;
     let request :=
       [ ("jsonrpc", JStr "2.0"); ("id", JStr ("auto-detect-" ++ u));
         ("method", JStr "tools/list") ] in
     response <- on_server server_name (send_request request) ;;
     ret (advertises tool_name response))
    (fun _ => ret false).

(** The auto-detection loop of [proxy_mcp_request] over the registry
    keys. *)
Fixpoint auto_detect (names : list string) (tool_name : json)
  : M MCPManager (option string) :=
  match names with
  | [] => ret None
  | server_name :: rest =>
      mgr <- get_state ;;
      match PyDict.get server_name (servers mgr) with
      | Some srv =>
          if is_running (status srv)
          then found <- probe server_name tool_name ;;
               if found then ret (Some server_name)
               else auto_detect rest tool_name
          else auto_detect rest tool_name
      | None => auto_detect rest tool_name
      end
  end.

(** A server name that is neither [None] nor empty. *)
Definition given (s : option string) : option string := usable s.

(** The target of a request: the named provider, or the auto-detected
    one. *)
Definition resolve_target (req : MCPRequest) : M MCPManager (option string) :=
  match given (server req) with
  | Some s => ret (Some s)
  | None =>
      if String.eqb (method req) "tools/call" then
        let tool_name :=
          match params req with [] => JNull | p => dict_get_none "name" p end in
        if truthy tool_name
        then mgr <- get_state ;;
             auto_detect (PyDict.keys (servers mgr)) tool_name
        else ret None
      else ret None
  end.

(** The token passed to [route_request] by [proxy_mcp_request]. *)
Definition select_user_token (mgr : MCPManager) (target_server : string)
    (ui : option user_info) (hdrs : headers) : option string :=
  let server_supports_obo :=
    match PyDict.get target_server (servers mgr) with
    | Some srv => supports_obo (config srv)
    | None => false
    end in
  match ui with
  | Some u =>
      if server_supports_obo && ENABLE_AUTH E then
        let use_shared_sp := env_is_true E "AZURE_MCP_USE_SHARED_SP" "false" in
        match usable (token u) with
        | Some tok =>
            if negb use_shared_sp && negb (String.eqb tok SYSTEM_SP_AUTH)
            then match usable (x_azure_id_token hdrs) with
                 | Some id_token => Some id_token
                 | None => Some tok
                 end
            else None
        | None => None
        end
      else None
  | None => None
  end.

(** The [user_id] and [api_key] injection of [proxy_mcp_request]. *)
Definition params_to_send (req : MCPRequest) (target_server : string)
    (uid : json) (hdrs : headers) : exn + pydict :=
  if String.eqb (method req) "tools/call" && truthy uid
     && existsb (String.eqb target_server) servers_needing_user_id
  then
    let p := params req in
    match PyDict.get "arguments" p with
    | None => inr p
    | Some a =>
        match (if truthy a then py_dict a else inr []) with
        | inl e => inl e
        | inr args =>
            let inject_uid :=
              negb (truthy (dict_get_none "user_id" args))
              || eq_str (dict_get_none "user_id" args) "default" in
            let args1 := if inject_uid then PyDict.set "user_id" uid args else args in
            let p1 := if inject_uid then PyDict.set "arguments" (JObj args1) p else p in
            let tool_name := PyDict.get_default "name" (JStr "") p1 in
            if py_in_list tool_name serverless_tools
               && negb (truthy (dict_get_none "api_key" args1))
            then
              let api_key :=
                match usable (x_api_key hdrs) with
                | Some k => k
                | None =>
                    replace (match authorization hdrs with Some h => h | None => "" end)
                      "Bearer " ""
                end in
              if negb (String.eqb api_key "") && startswith api_key "awc_"
              then inr (PyDict.set "arguments"
                          (JObj (PyDict.set "api_key" (JStr api_key) args1)) p1)
              else inr p1
            else inr p1
        end
    end
  else inr (params req).

(** The audited tool name. *)
Definition audited_tool (req : MCPRequest) : json :=
  if String.eqb (method req) "tools/call"
  then PyDict.get_default "name" (JStr "unknown") (params req)
  else JStr (method req).

Definition audit_of (req : MCPRequest) (target_server : option string)
    (ui : option user_info) (uid : json) (err : option string) : audit_record :=
  mkAudit uid
    (match ui with Some u => user_name u | None => JNull end)
    target_server (audited_tool req) (method req) err
    (match err with None => true | Some _ => false end).

(** The [try] block of [proxy_mcp_request]. *)
Definition routed (req : MCPRequest) (target_server : string)
    (ui : option user_info) (uid : json) (hdrs : headers) : M app MCPResponse :=
  a <- get_state ;;
  let user_token :=
    match mcp_manager a with
    | Some mgr => select_user_token mgr target_server ui hdrs
    | None => None
    end in
  p <- lift_sum (params_to_send req target_server uid hdrs) ;;
  let request_data :=
    [ ("jsonrpc", JStr "2.0"); ("id", JStr (id req)); ("method", JStr (method req));
      ("params", JObj p) ] in
  res <- with_manager (route_request target_server request_data user_token) ;;
  (if truthy uid then add_task (audit_of req (Some target_server) ui uid None)
   else ret tt) ;;;
  if optional_dict (dict_get_none "result" res) && optional_dict (dict_get_none "error" res)
  then ret (mkResponse (dict_get_none "result" res) (dict_get_none "error" res)
              (id req) (Some target_server))
  else raise ValidationError.

(** [POST /mcp] *)
Definition proxy_mcp_request (req : MCPRequest) (hdrs : headers)
    (ui : option user_info) : M app MCPResponse :=
  a <- get_state ;;
  match mcp_manager a with
  | None => raise (HTTPException 503 "MCP Manager not initialized")
  | Some _ =>
      target <- with_manager (resolve_target req) ;;
      match target with
      | None =>
          raise (HTTPException 400
                   ("Server not specified for tool '"
                    ++ py_str (match params req with
                               | [] => JStr "unknown"
                               | p => dict_get_none "name" p
                               end)
                    ++ "'. The API must include server information in tool metadata."))
      | Some target_server =>
          if existsb (String.eqb target_server) admin_servers
             && negb (truthy (admin_flag ui))
          then raise (forbidden target_server)
          else
            let uid := match ui with Some u => user_id u | None => JNull end in
            try_except
              (routed req target_server ui uid hdrs)
              (fun e =>
                 (if truthy uid
                  then add_task (audit_of req (Some target_server) ui uid
                                   (Some (exn_str e)))
                  else ret tt) ;;;
                 ret (mkResponse JNull
                        (JObj [("code", JInt 500); ("message", JStr (exn_str e))])
                        (id req) (Some target_server)))
      end
  end.
End Facade.

(** [POST /mcp/tool] *)
Record MCPToolCall : Type := mkToolCall {
  tc_server : option string;
  tc_tool : string;
  tc_arguments : pydict;
  tc_id : string
}.

Module McpTool.
Definition call_mcp_tool (E : environment) (tool_call : MCPToolCall) (hdrs : headers)
    (ui : option user_info) : M app MCPResponse :=
  proxy_mcp_request E
    (mkRequest "tools/call"
       [ ("name", JStr (tc_tool tool_call)); ("arguments", JObj (tc_arguments tool_call)) ]
       (tc_id tool_call) (tc_server tool_call))
    hdrs ui.
End McpTool.

(** [POST /call] *)
Record MCPCallRequest : Type := mkCall {
  call_server : string;
  call_tool : string;
  call_arguments : pydict
}.

Module Call.
(** The handler has no [background_tasks] parameter. *)
Definition call_mcp_tool (call_request : MCPCallRequest) (hdrs : headers)
    (ui : option user_info) : M app pydict :=
  try_except
    (a <- get_state ;;
     match mcp_manager a with
     | None => raise (HTTPException 503 "MCP Manager not initialized")
     | Some _ =>
         let srv := call_server call_request in
         if existsb (String.eqb srv) admin_servers && negb (truthy (admin_flag ui))
         then raise (forbidden srv)
         else
           let request_data :=
             [ ("jsonrpc", JStr "2.0"); ("id", JInt 1); ("method", JStr "tools/call");
               ("params", JObj [ ("name", JStr (call_tool call_request));
                                 ("arguments", JObj (call_arguments call_request)) ]) ] in
           let user_token :=
             match ui with
             | Some u =>
                 match usable (token u) with
                 | Some tok =>
                     if String.eqb tok SYSTEM_SP_AUTH then None
                     else if contains (lower srv) "aws" || contains (lower srv) "azure"
                     then match usable (x_azure_id_token hdrs) with
                          | Some id_token => Some id_token
                          | None => Some tok
                          end
                     else Some tok
                 | None => None
                 end
             | None => None
             end in
           res <- with_manager (route_request srv request_data user_token) ;;
           ret [ ("server", JStr srv); ("tool", JStr (call_tool call_request));
                 ("result", JObj res) ]
     end)
    (fun e =>
       if is_http_exception e then raise e
       else raise (HTTPException 500 (exn_str e))).
End Call.

(** The management endpoints.  [POST /servers], [POST /servers/{id}/start]
    and [PATCH /servers/{id}/enabled]. *)
Module Endpoint.
Definition add_server (E : environment) (config : pydict) : M app pydict :=
  a <- get_state ;;
  match mcp_manager a with
  | None => raise (HTTPException 503 "MCP Manager not initialized")
  | Some _ =>
      try_except
        (res <- with_manager (add_server E config) ;;
         ret [ ("success", JBool true); ("server", JObj res) ])
        (fun e =>
           if is_value_error e then raise (HTTPException 400 (exn_str e))
           else raise (HTTPException 500 (exn_str e)))
  end.

Definition start_server (E : environment) (server_id : string) : M app pydict :=
  a <- get_state ;;
  match mcp_manager a with
  | None => raise (HTTPException 503 "MCP Manager not initialized")
  | Some _ =>
      try_except
        (with_manager (start_server E server_id) ;;;
         ret [ ("success", JBool true);
               ("message", JStr ("Server " ++ server_id ++ " started")) ])
        (fun e => raise (HTTPException 500 (exn_str e)))
  end.

Definition set_server_enabled (E : environment) (server_id : string) (b : bool)
    (ui : option user_info) : M app pydict :=
  a <- get_state ;;
  match mcp_manager a with
  | None => raise (HTTPException 503 "MCP Manager not initialized")
  | Some _ =>
      if negb (truthy (admin_flag ui))
      then raise (HTTPException 403
                    "Admin privileges required to enable/disable MCP servers")
      else
        try_except
          (res <- with_manager (set_server_enabled E server_id b) ;;
           ret (("success", JBool true) :: res))
          (fun e =>
             if is_value_error e then raise (HTTPException 404 (exn_str e))
             else raise (HTTPException 500 (exn_str e)))
  end.
End Endpoint.

(** [GET /tools] *)
Section Catalog.
Variable E : environment.

(** The access filter of [_list_all_tools_impl]. *)
Definition filter_tools (all_tools : pydict) (user_groups : json)
    (access_policies : pydict) (adm : json) : pydict :=
  List.filter
    (fun entry => check_server_access (fst entry) user_groups access_policies adm)
    all_tools.

(** [{"server": server_name, **tool}] for each tool of one provider. *)
Fixpoint attribute (server_name : string) (tools : list json) : exn + list json :=
  match tools with
  | [] => inr []
  | JObj tool :: rest =>
      match attribute server_name rest with
      | inl e => inl e
      | inr l =>
          inr (JObj (fold_left (fun acc kv => PyDict.set (fst kv) (snd kv) acc) tool
                       [("server", JStr server_name)]) :: l)
      end
  | _ :: _ => inl (TypeError "object is not a mapping")
  end.

Fixpoint flatten (filtered_tools : pydict) : exn + list json :=
  match filtered_tools with
  | [] => inr []
  | (server_name, tools) :: rest =>
      match py_iter tools with
      | inl e => inl e
      | inr items =>
          match attribute server_name items with
          | inl e => inl e
          | inr here =>
              match flatten rest with
              | inl e => inl e
              | inr more => inr (here ++ more)%list
              end
          end
      end
  end.

(** [_list_all_tools_impl]: the flat list and the per-provider grouping
    of the reply. *)
Definition _list_all_tools_impl (ui : option user_info) : M app (list json * pydict) :=
  a <- get_state ;;
  match mcp_manager a with
  | None => raise (HTTPException 503 "MCP Manager not initialized")
  | Some _ =>
      let adm := admin_flag ui in
      let user_groups := match ui with Some u => groups u | None => JArr [] end in
      all_tools <- with_manager (list_all_tools E) ;;
      let access_policies := fetch_user_mcp_access_policies E user_groups in
      let filtered_tools := filter_tools all_tools user_groups access_policies adm in
      tools_list <- lift_sum (flatten filtered_tools) ;;
      ret (tools_list, filtered_tools)
  end.
End Catalog.

(** Process start ([lifespan]): the store must answer [ping]; then a
    manager is built on it and [start_all] runs. *)
Definition lifespan (E : environment) (r : redis) (spawns uuids : nat)
  : outcome unit * app :=
  if reachable r then
    let '(o, mgr) := start_all E (new_manager E (Some r) spawns uuids) in
    (o, mkApp (Some mgr) [])
  else (Raise (OSError "Error connecting to Redis"), mkApp None []).

(** ** Predicates used by the statements *)

(** A line that [send_request] skips while waiting for [request_id]: a JSON
    object whose normalised id differs. *)
Definition stale (request_id : json) (l : line) : Prop :=
  exists d, l = Json (JObj d) /\ same_id request_id (dict_get_none "id" d) = false.

(** The lines a provider's child has still to deliver. *)
Definition pending (self : MCPServer) : list line :=
  match proc self with Some p => stdout p | None => [] end.

(** The requests written to a provider's child so far. *)
Definition written (self : MCPServer) : list pydict :=
  match proc self with Some p => stdin p | None => [] end.

(** The provider is [RUNNING] and its child answers [poll()] with [None]. *)
Definition live (self : MCPServer) : Prop :=
  status self = RUNNING /\ exists p, proc self = Some p /\ alive p = true.

(** The name under which [add_server] would register a configuration,
    after unwrapping the [mcpServers] container. *)
Definition requested_name (config : pydict) : option string :=
  match normalize_config config with
  | inr cfg =>
      match dict_get_none "name" cfg with
      | JStr n => Some n
      | _ => None
      end
  | inl _ => None
  end.

(** Two registry entries that differ at most in the enabled flag. *)
Definition same_but_flag (o o' : option MCPServer) : Prop :=
  match o, o' with
  | None, None => True
  | Some s, Some s' => exists b, s' = set_config (set_enabled b (config s)) s
  | _, _ => False
  end.

(** The operations of the manager, as the endpoints and the start-up code
    call them. *)
Inductive operation : Type :=
| OpStartAll
| OpStopAll
| OpStartServer (server_id : string)
| OpStopServer (server_id : string)
| OpRestartServer (server_id : string)
| OpRemoveServer (server_id : string)
| OpAddServer (config : pydict)
| OpSetServerEnabled (server_id : string) (b : bool)
| OpRouteRequest (server_name : string) (request : pydict) (user_token : option string)
| OpListAllTools.

(** The manager after an operation, however the operation ended. *)
Definition run (E : environment) (op : operation) (mgr : MCPManager) : MCPManager :=
  match op with
  | OpStartAll => snd (start_all E mgr)
  | OpStopAll => snd (stop_all mgr)
  | OpStartServer i => snd (start_server E i mgr)
  | OpStopServer i => snd (stop_server i mgr)
  | OpRestartServer i => snd (restart_server E i mgr)
  | OpRemoveServer i => snd (remove_server i mgr)
  | OpAddServer c => snd (add_server E c mgr)
  | OpSetServerEnabled i b => snd (set_server_enabled E i b mgr)
  | OpRouteRequest n q t => snd (route_request n q t mgr)
  | OpListAllTools => snd (list_all_tools E mgr)
  end.







(** A computation keeps the property [Q] of the state, however it ends. *)
Definition preserves {S A} (Q : S -> Prop) (m : M S A) : Prop :=
  forall s r s', m s = (r, s') -> Q s -> Q s'.




(** [v[k1][k2]...] through nested dictionaries. *)
Fixpoint json_path (path : list string) (v : json) : option json :=
  match path with
  | [] => Some v
  | k :: rest =>
      match v with
      | JObj d =>
          match PyDict.get k d with
          | Some x => json_path rest x
          | None => None
          end
      | _ => None
      end
  end.

Definition token_path : list string := ["params"; "arguments"; "meta"; "userAccessToken"].

(** The keys of [request["params"]["arguments"]["meta"]], if it is a
    dictionary. *)
Definition meta_keys (request : pydict) : list string :=
  match json_path ["params"; "arguments"; "meta"] (JObj request) with
  | Some (JObj m) => PyDict.keys m
  | _ => []
  end.

(** The requests for which the injection of [route_request] raises no
    [TypeError]: [params] is missing or a dictionary, its [arguments] and
    their [meta] are missing, [None] or dictionaries. *)
Definition injectable (request : pydict) : Prop :=
  match PyDict.get "params" request with
  | None => True
  | Some (JObj p) =>
      match PyDict.get "arguments" p with
      | None | Some JNull => True
      | Some (JObj a) =>
          match PyDict.get "meta" a with
          | None | Some JNull | Some (JObj _) => True
          | Some _ => False
          end
      | Some _ => False
      end
  | Some _ => False
  end.

(** The request written last to the child of the provider [n]. *)
Definition last_written (mgr : MCPManager) (n : string) : option pydict :=
  match PyDict.get n (servers mgr) with
  | Some srv => last (written srv)
  | None => None
  end.








(** The admin gate of [proxy_mcp_request]. *)
Definition gated (target_server : string) (ui : option user_info) : bool :=
  existsb (String.eqb target_server) admin_servers && negb (truthy (admin_flag ui)).

(** ** Sample providers, children and requests *)

Definition sample_config (n : string) (on obo : bool) : MCPServerConfig :=
  mkConfig n [JStr n] (JObj []) (JStr "stdio") on obo.

(** A disabled, stopped provider. *)
Definition sample_disabled (n : string) : MCPServer :=
  new_server (sample_config n false false).

(** A live child that will write [lines] and then stay silent. *)
Definition sample_child (lines : list line) : process :=
  mkProcess 4242 true false lines [] "".

Definition sample_running (n : string) (obo : bool) (lines : list line) : MCPServer :=
  mkServer (sample_config n true obo) (Some (sample_child lines)) RUNNING None.

(** A response with integer id [k] and an empty result. *)
Definition reply (k : Z) : line := Json (JObj [("id", JInt k); ("result", JObj [])]).

Definition ten_replies : list line :=
  [reply 20; reply 21; reply 22; reply 23; reply 24;
   reply 25; reply 26; reply 27; reply 28; reply 29].

(** A request whose id is the string ["1"]. *)
Definition sample_request : pydict :=
  [("jsonrpc", JStr "2.0"); ("id", JStr "1"); ("method", JStr "tools/list")].

(** An environment given by its variables and the replies of the platform
    API: every spawned child is alive, answers the handshake and then stays
    silent; the identity provider exchanges a token [t] for ["obo:" ++ t];
    no bearer value parses as a signed token. *)
Definition sample_env (vars : list (string * string))
    (auth_me access_summary : string -> http_reply) : environment :=
  mkEnv (fun k => PyDict.get k vars)
    (fun n _ => inr (mkProcess (1000 + n) true false [reply 0] [] ""))
    (fun n => "0000000" ++ pretty n)
    auth_me access_summary
    (fun assertion _ => HttpResponse 200 (JObj [("access_token", JStr ("obo:" ++ assertion))]))
    (fun _ => inl "Not enough segments")
    (fun _ _ => inl (InvalidTokenError "Not enough segments"))
    (fun _ _ => inl (InvalidTokenError "Not enough segments")).

Definition no_reply : string -> http_reply := fun _ => HttpError (OSError "connection refused").

Definition default_env : environment := sample_env [] no_reply no_reply.


(** Registries used in the examples. *)
Definition alpha_manager : MCPManager :=
  mkManager [("alpha", sample_running "alpha" false [])] None 0 0.


Definition disabled_manager : MCPManager :=
  mkManager [("alpha", sample_disabled "alpha")] None 0 0.

(** A platform API that grants the group ["g1"] an explicit [allow] on
    ["awp_admin"]. *)
Definition allow_admin_summary : string -> http_reply :=
  fun group_id =>
    if String.eqb group_id "g1" then
      HttpResponse 200
        (JObj [("access_summary",
                JArr [JObj [("server", JObj [("id", JStr "srv-1"); ("name", JStr "awp_admin")]);
                            ("access", JStr "allow")]])])
    else HttpResponse 404 (JObj []).

Definition policy_env : environment := sample_env [] no_reply allow_admin_summary.

(** A principal of group ["g1"] who is no administrator, authenticated by
    the token ["user-jwt"]. *)
Definition plain_user : user_info :=
  mkUser (Some "user-jwt") [] (JStr "u-17") (JStr "Pat") (JStr "pat@example.org")
    JNull (JArr [JStr "g1"]) (JBool false).

(** A [tools/list] reply with the given id, advertising the given tools. *)
Definition tools_reply (i : string) (tools : list string) : line :=
  Json (JObj [("jsonrpc", JStr "2.0"); ("id", JStr i);
              ("result", JObj [("tools", JArr (map (fun t => JObj [("name", JStr t)]) tools))])]).

(** A registry whose only provider is a running ["awp_admin"] that answers
    the first catalog query. *)
Definition admin_manager : MCPManager :=
  mkManager
    [("awp_admin",
      sample_running "awp_admin" false
        [tools_reply "list-tools-awp_admin-00000000" ["delete_user"]])]
    None 0 0.

(** A deployment whose Flowise service key is ["awc_flowise_key"], and
    whose platform API rejects every key with 401. *)
Definition rejecting_api : string -> http_reply :=
  fun _ => HttpResponse 401 (JObj [("error", JStr "Invalid API key")]).

Definition flowise_env : environment :=
  sample_env [("FLOWISE_INTERNAL_API_KEY", "awc_flowise_key")] rejecting_api no_reply.

(** The same platform API in a deployment with the default service keys. *)
Definition rejecting_env : environment := sample_env [] rejecting_api no_reply.

(** A bearer value is a user API key: prefix [awc_], not [awc_system_]. *)
Definition user_api_key (tok : string) : Prop :=
  startswith tok "awc_" = true /\ startswith tok "awc_system_" = false.

Definition no_headers : headers := mkHeaders None None None.

(** The scenario of the specification: ["alpha"] offers [sum] and [diff],
    ["beta"] offers [upper]; both answer the detection probes with the ids
    drawn first and second, and then one call each. *)
Definition alpha_beta_manager (alpha_lines beta_lines : list line) : MCPManager :=
  mkManager
    [("alpha", sample_running "alpha" false
                 (tools_reply "auto-detect-00000000" ["sum"; "diff"] :: alpha_lines));
     ("beta", sample_running "beta" false
                (tools_reply "auto-detect-00000001" ["upper"] :: beta_lines))]
    None 0 0.

(** A successful [tools/call] reply with the given id. *)
Definition call_reply (i : json) : line :=
  Json (JObj [("jsonrpc", JStr "2.0"); ("id", i);
              ("result", JObj [("content", JArr [JObj [("type", JStr "text");
                                                       ("text", JStr "HI")]])])]).


(** A registry whose ["awp_azure"], flagged [supports_obo], answers one
    call with id ["1"]. *)
Definition obo_manager : MCPManager :=
  mkManager [("awp_azure", sample_running "awp_azure" true [call_reply (JStr "1")])]
    None 0 0.

Definition management_scope : string := "https://management.azure.com/.default".

(** The requests of the auto-detection scenario: a call of [tool] with
    id ["7"] that names no server. *)
Definition unrouted_call (tool : string) : MCPRequest :=
  mkRequest "tools/call"
    [("name", JStr tool); ("arguments", JObj [("s", JStr "hi")])] "7" None.

Definition scenario_manager : MCPManager :=
  alpha_beta_manager [] [call_reply (JStr "7")].

(** ** More of the manager and of the facade, and what the later statements use *)

(** [MCPManager.delete_server]: another name of [remove_server]. *)
Definition delete_server (server_id : string) : M MCPManager unit :=
  remove_server server_id.

(** A blank configuration for the provider [n]: the flat format of
    [add_server] with a command and, optionally, an [enabled] member. *)
Definition flat_config (n : string) (en : option bool) : pydict :=
  [("name", JStr n); ("command", JStr "npx")]
  ++ match en with Some b => [("enabled", JBool b)] | None => [] end.

(** The providers [start_all] has to start: enabled and not [RUNNING]. *)
Definition to_start (s : MCPServer) : bool :=
  enabled (config s) && negb (is_running (status s)).

(** A store that holds the text ["yes"] for the provider ["awp_web"]. *)
Definition yes_store : redis :=
  mkRedis (<[REDIS_MCP_ENABLED_PREFIX ++ "awp_web" := "yes"]> ∅) true.

(** The provider ["awp_web"] of a manager built on that store. *)
Definition web_after_restart : MCPServer :=
  match PyDict.get "awp_web" (servers (new_manager default_env (Some yes_store) 0 0)) with
  | Some s => s
  | None => sample_disabled "awp_web"
  end.

(** A registry with an enabled provider that is not started yet and a
    disabled one. *)
Definition mixed_manager : MCPManager :=
  mkManager [("alpha", new_server (sample_config "alpha" true false));
             ("beta", sample_disabled "beta")] None 0 0.

(** What [add_server] answers and leaves when the disabled provider
    ["beta"] is added to [alpha_manager]. *)
Definition beta_reply : pydict :=
  [ ("name", JStr "beta"); ("status", JStr "stopped"); ("command", JArr [JStr "npx"]);
    ("enabled", JBool false); ("transport", JStr "stdio") ].

Definition beta_added : MCPManager :=
  mkManager
    [("alpha", sample_running "alpha" false []);
     ("beta", new_server (mkConfig "beta" [JStr "npx"] (JObj []) (JStr "stdio") false false))]
    None 0 0.

(** The manager after [_save_enabled_state_to_redis]: the store holds the
    text of the flag when it is reachable, and is untouched otherwise. *)
Definition saved (i : string) (b : bool) (mgr : MCPManager) : MCPManager :=
  match redis_client mgr with
  | Some r =>
      if reachable r
      then set_redis
             (Some (mkRedis (<[REDIS_MCP_ENABLED_PREFIX ++ i := bool_text b]> (store r)) true))
             mgr
      else mgr
  | None => mgr
  end.

(** The loop of [list_all_tools] from the providers [names] on, with the
    catalog collected so far. *)
Section CatalogLoop.
Variable E : environment.

Fixpoint list_all_tools_from (names : list string) (all_tools : pydict)
  : M MCPManager pydict :=
  match names with
  | [] => ret all_tools
  | name_ :: rest =>
      mgr' <- get_state ;;
      match PyDict.get name_ (servers mgr') with
      | Some server =>
          if is_running (status server)
          then tools <- list_tools_of E name_ ;;
               list_all_tools_from rest (PyDict.set name_ tools all_tools)
          else list_all_tools_from rest all_tools
      | None => list_all_tools_from rest all_tools
      end
  end.
End CatalogLoop.

(** A registry with a running provider that answers the catalog query, and
    a disabled one. *)
Definition catalog_manager : MCPManager :=
  mkManager
    [("alpha", sample_running "alpha" false
                 [tools_reply "list-tools-alpha-00000000" ["sum"; "diff"]]);
     ("beta", sample_disabled "beta")]
    None 0 0.

(** Both registries hold the same keys in the same order and, under every
    key, providers with one and the same configuration. *)
Definition same_configs (mgr mgr' : MCPManager) : Prop :=
  PyDict.keys (servers mgr') = PyDict.keys (servers mgr)
  /\ forall k,
       match PyDict.get k (servers mgr), PyDict.get k (servers mgr') with
       | Some s, Some s' => config s' = config s
       | None, None => True
       | _, _ => False
       end.

(** A computation that registers and unregisters nothing and changes no
    configuration, however it ends. *)
Definition keeps_configs {A} (m : M MCPManager A) : Prop :=
  forall mgr r mgr', m mgr = (r, mgr') -> same_configs mgr mgr'.

(** What one [access_summary] item asks for, whatever the map built so
    far: nothing when reading it raises, no entry when its server name is
    not a string, and otherwise an access type for a server name. *)
Definition item_request (item : json) : option (option (string * json)) :=
  match policy_item item [] with
  | inl _ => None
  | inr [] => Some None
  | inr (entry :: _) => Some (Some entry)
  end.

(** The platform API answers no group of [user_groups] with a policy
    summary. *)
Definition no_policy_summary (E : environment) (user_groups : list json) : Prop :=
  forall g, In g user_groups ->
            match api_access_summary E (py_str g) with
            | HttpResponse 200 (JObj _) => False
            | _ => True
            end.

(** An environment whose token library accepts every bearer value as an
    identity-provider token of a member of the group ["staff"]. *)
Definition sso_env (vars : list (string * string)) : environment :=
  mkEnv (fun k => PyDict.get k vars)
    (fun n _ => inr (mkProcess (1000 + n) true false [reply 0] [] ""))
    (fun n => "0000000" ++ pretty n)
    no_reply no_reply
    (fun _ _ => HttpError (OSError "connection refused"))
    (fun _ => inr [("alg", JStr "RS256"); ("kid", JStr "key-1")])
    (fun _ _ => inl (InvalidTokenError "Signature verification failed"))
    (fun _ _ => inr [("oid", JStr "u-17"); ("name", JStr "Pat");
                     ("groups", JArr [JStr "staff"])]).

(** ** Status and monitoring ([mcp_manager.py], [main.py]) *)

(** One entry of [get_server_status].  The flag is reported by its truth
    value, which is what the configuration of the model keeps. *)
Definition status_entry (server : MCPServer) : pydict :=
  [ ("status", JStr (status_value (status server)));
    ("enabled", JBool (enabled (config server)));
    ("last_error", match last_error server with Some e => JStr e | None => JNull end);
    ("transport", JStr "stdio");
    ("pid", match proc server with Some p => JInt (Z.of_nat (pid p)) | None => JNull end) ].

(** [MCPManager.get_server_status] *)
Definition get_server_status (mgr : MCPManager) : list (string * pydict) :=
  fold_left (fun status e => PyDict.set (fst e) (status_entry (snd e)) status)
    (servers mgr) [].

(** [MCPManager.get_server_enabled] *)
Definition get_server_enabled (server_id : string) (mgr : MCPManager) : exn + bool :=
  match PyDict.get server_id (servers mgr) with
  | None => inl (unknown_server server_id)
  | Some server => inr (enabled (config server))
  end.

(** [MCPManager.list_server_enabled_states] *)
Definition list_server_enabled_states (mgr : MCPManager) : list (string * bool) :=
  fold_left (fun states e => PyDict.set (fst e) (enabled (config (snd e))) states)
    (servers mgr) [].

(** [GET /health] *)
Definition health_check (E : environment) (a : app) : pydict :=
  match mcp_manager a with
  | None =>
      [ ("status", JStr "unhealthy"); ("error", JStr "MCP Manager not initialized") ]
  | Some mgr =>
      let server_statuses := get_server_status mgr in
      let healthy_servers :=
        List.filter (fun e => eq_str (dict_get_none "status" (snd e)) "running")
          server_statuses in
      [ ("status", JStr (match healthy_servers with [] => "degraded" | _ => "healthy" end));
        ("service", JStr "mcp-proxy");
        ("version", JStr "2.0.0");
        ("servers",
         JObj [ ("total", JInt (Z.of_nat (length server_statuses)));
                ("running", JInt (Z.of_nat (length healthy_servers)));
                ("statuses", JObj (map (fun e => (fst e, JObj (snd e))) server_statuses)) ]);
        ("auth_enabled", JBool (ENABLE_AUTH E));
        ("tenant_id", match getenv E "AZURE_TENANT_ID" with
                      | Some t => JStr t
                      | None => JNull
                      end) ]
  end.

(** The other endpoints under [/servers]. *)
Module Servers.
(** [GET /servers] *)
Definition list_servers : M app (list (string * pydict)) :=
  a <- get_state ;;
  match mcp_manager a with
  | None => raise (HTTPException 503 "MCP Manager not initialized")
  | Some mgr => ret (get_server_status mgr)
  end.

(** [POST /servers/{server_id}/stop] *)
Definition stop_server (server_id : string) : M app pydict :=
  a <- get_state ;;
  match mcp_manager a with
  | None => raise (HTTPException 503 "MCP Manager not initialized")
  | Some _ =>
      try_except
        (with_manager (stop_server server_id) ;;;
         ret [ ("success", JBool true);
               ("message", JStr ("Server " ++ server_id ++ " stopped")) ])
        (fun e => raise (HTTPException 500 (exn_str e)))
  end.

(** [POST /servers/{server_id}/restart] *)
Definition restart_server (E : environment) (server_id : string) : M app pydict :=
  a <- get_state ;;
  match mcp_manager a with
  | None => raise (HTTPException 503 "MCP Manager not initialized")
  | Some _ =>
      try_except
        (with_manager (restart_server E server_id) ;;;
         ret [ ("success", JBool true);
               ("message", JStr ("Server " ++ server_id ++ " restarted")) ])
        (fun e => raise (HTTPException 500 (exn_str e)))
  end.

(** [DELETE /servers/{server_id}] *)
Definition delete_server (server_id : string) : M app pydict :=
  a <- get_state ;;
  match mcp_manager a with
  | None => raise (HTTPException 503 "MCP Manager not initialized")
  | Some _ =>
      try_except
        (with_manager (delete_server server_id) ;;;
         ret [ ("success", JBool true);
               ("message", JStr ("Server " ++ server_id ++ " deleted")) ])
        (fun e => raise (HTTPException 500 (exn_str e)))
  end.

(** [GET /servers/{server_id}/enabled] *)
Definition get_server_enabled (server_id : string) : M app pydict :=
  a <- get_state ;;
  match mcp_manager a with
  | None => raise (HTTPException 503 "MCP Manager not initialized")
  | Some mgr =>
      match get_server_enabled server_id mgr with
      | inr b => ret [ ("server_id", JStr server_id); ("enabled", JBool b) ]
      | inl e =>
          if is_value_error e then raise (HTTPException 404 (exn_str e)) else raise e
      end
  end.

(** [GET /servers/enabled] *)
Definition list_servers_enabled : M app pydict :=
  a <- get_state ;;
  match mcp_manager a with
  | None => raise (HTTPException 503 "MCP Manager not initialized")
  | Some mgr =>
      ret [ ("servers",
             JObj (map (fun e => (fst e, JBool (snd e))) (list_server_enabled_states mgr))) ]
  end.

(** [GET /servers/{server_name}/tools] *)
Definition list_server_tools (server_name : string) : M app pydict :=
  a <- get_state ;;
  match mcp_manager a with
  | None => raise (HTTPException 503 "MCP Manager not initialized")
  | Some mgr =>
      if negb (PyDict.mem server_name (servers mgr))
      then raise (HTTPException 404 ("Server " ++ server_name ++ " not found"))
      else
        try_except
          (let request_data :=
             [ ("jsonrpc", JStr "2.0"); ("id", JInt 1); ("method", JStr "tools/list");
               ("params", JObj []) ] in
           res <- with_manager (route_request server_name request_data None) ;;
           tools <-
             match PyDict.get "result" res with
             | None => ret (JArr [])
             | Some (JObj r) => ret (PyDict.get_default "tools" (JArr []) r)
             | Some _ => raise (AttributeError "object has no attribute 'get'")
             end ;;
           ret [ ("server", JStr server_name); ("tools", tools) ])
          (fun e => raise (HTTPException 500 (exn_str e)))
  end.
End Servers.

(** A provider marked [RUNNING] whose child is gone. *)
Definition stale_running (s : MCPServer) : bool :=
  is_running (status s)
  && negb (match proc s with Some c => alive c | None => false end).

(** A registry whose ["alpha"] is [RUNNING] although its child has
    exited. *)
Definition stale_manager : MCPManager :=
  mkManager
    [("alpha", mkServer (sample_config "alpha" true false)
                 (Some (mkProcess 4242 false true [] [] "killed")) RUNNING None)]
    None 0 0.

(** A registry as a Python dictionary of providers has it: no key twice,
    and every provider under the name of its configuration. *)
Definition well_formed (mgr : MCPManager) : Prop :=
  List.NoDup (PyDict.keys (servers mgr))
  /\ forall k s, PyDict.get k (servers mgr) = Some s -> name (config s) = k.

(** ** The sign-in flow ([azure_oauth.py]) *)

(** The store as the sign-in flow uses it: every value is written with a
    time to live.  An entry holds the value and the instant, in seconds, at
    which it expires; [answers] tells whether commands reach the store. *)
Record expiring_store : Type := mkExpiring {
  stored : gmap string (string * Z);
  answers : bool
}.

(** [redis.setex(key, ttl, value)] at the instant [now] *)
Definition setex (key : string) (ttl : Z) (value : string) (now : Z)
  : M expiring_store unit :=
  fun s =>
    if answers s
    then (Ret tt, mkExpiring (<[key := (value, now + ttl)]> (stored s)) (answers s))
    else (Raise (OSError "Error connecting to Redis"), s).

(** [redis.get(key)] at the instant [now] *)
Definition store_get (key : string) (now : Z) : M expiring_store (option string) :=
  fun s =>
    if answers s
    then (Ret (match stored s !! key with
               | Some (value, deadline) => if now <? deadline then Some value else None
               | None => None
               end), s)
    else (Raise (OSError "Error connecting to Redis"), s).

(** [redis.delete(key)] *)
Definition store_delete (key : string) : M expiring_store unit :=
  fun s =>
    if answers s
    then (Ret tt, mkExpiring (delete key (stored s)) (answers s))
    else (Raise (OSError "Error connecting to Redis"), s).

(** What the flow takes from outside: the random draws of [secrets], the
    digest, and the MSAL application. *)
Record msal_environment : Type := mkMsal {
  (** [base64.urlsafe_b64encode(secrets.token_bytes(32)).decode().rstrip('=')],
      for the n-th draw *)
  secrets_verifier : nat -> string;
  (** [secrets.token_urlsafe(32)], for the n-th draw *)
  secrets_token_urlsafe : nat -> string;
  (** the URL-safe base64 text, without padding, of the SHA-256 digest *)
  sha256_challenge : string -> string;
  (** [msal_app.get_authorization_request_url], for a state and a challenge *)
  get_authorization_request_url : string -> string -> string;
  (** [msal_app.acquire_token_by_authorization_code], for a code and a
      verifier *)
  acquire_token_by_authorization_code : string -> string -> exn + pydict
}.

(** [AzureOAuthService]: its store, and the number of random draws made so
    far, which indexes the environment. *)
Record AzureOAuthService : Type := mkOAuth {
  oauth_redis : expiring_store;
  draws : nat
}.

Definition on_redis {A} (m : M expiring_store A) : M AzureOAuthService A :=
  fun self =>
    let '(r, s') := m (oauth_redis self) in (r, mkOAuth s' (draws self)).

Definition draw {A} (f : nat -> A) : M AzureOAuthService A :=
  fun self => (Ret (f (draws self)), mkOAuth (oauth_redis self) (S (draws self))).

Section SignIn.
Variable I : msal_environment.

(** [generate_pkce_challenge] *)
Definition generate_pkce_challenge : M AzureOAuthService (string * string) :=
  code_verifier <- draw (secrets_verifier I) ;;
  ret (code_verifier, sha256_challenge I code_verifier).

(** [generate_auth_url] at the instant [now] *)
Definition generate_auth_url (now : Z) : M AzureOAuthService pydict :=
  pair_ <- generate_pkce_challenge ;;
  let '(code_verifier, code_challenge) := pair_ in
  state <- draw (secrets_token_urlsafe I) ;;
  on_redis (setex ("pkce:" ++ state) 600 code_verifier now) ;;;
  let auth_url := get_authorization_request_url I state code_challenge in
  ret [ ("auth_url", JStr auth_url); ("state", JStr state) ].

(** [exchange_code_for_token] at the instant [now] *)
Definition exchange_code_for_token (code state : string) (now : Z)
  : M AzureOAuthService pydict :=
  code_verifier <- on_redis (store_get ("pkce:" ++ state) now) ;;
  match code_verifier with
  | None => raise (ValueError "Invalid or expired state parameter")
  | Some v =>
      if String.eqb v "" then raise (ValueError "Invalid or expired state parameter")
      else
        result <- lift_sum (acquire_token_by_authorization_code I code v) ;;
        on_redis (store_delete ("pkce:" ++ state)) ;;;
        if PyDict.mem "error" result then
          raise (RuntimeError
                   ("Failed to acquire token: "
                    ++ py_str (PyDict.get_default "error_description"
                                 (dict_get_none "error" result) result)))
        else
          match PyDict.get "access_token" result with
          | None => raise (KeyError "access_token")
          | Some access_token =>
              ret [ ("access_token", access_token);
                    ("refresh_token", dict_get_none "refresh_token" result);
                    ("id_token", dict_get_none "id_token" result);
                    ("expires_in", PyDict.get_default "expires_in" (JInt 3600) result);
                    ("token_type", PyDict.get_default "token_type" (JStr "Bearer") result) ]
          end
  end.
End SignIn.

(** An MSAL application that answers every code with an access token that
    names the code and the verifier it was given. *)
Definition sample_msal : msal_environment :=
  mkMsal (fun n => "verifier-" ++ pretty n) (fun n => "state-" ++ pretty n)
    (fun v => "sha256:" ++ v)
    (fun state challenge => "https://login/authorize?state=" ++ state ++ "&c=" ++ challenge)
    (fun code v => inr [("access_token", JStr (code ++ "/" ++ v))]).

(** A service on an empty store that answers. *)
Definition sample_service : AzureOAuthService := mkOAuth (mkExpiring ∅ true) 0.

(** * Properties *)

(** ** Response correlation in [send_request] *)

Lemma same_id_normalize (a b : json) :
  same_id a b = true <-> normalize_id a = normalize_id b.
Proof.
  unfold same_id.
  destruct (normalize_id a) as [x|], (normalize_id b) as [y|]; split; intros H;
    try discriminate; try reflexivity.
  - apply String.eqb_eq in H. now subst.
  - inversion H. apply String.eqb_refl.
Qed.

(** What the read loop has done when it stops, whatever the outcome: it has
    consumed a prefix of the stream no longer than its budget, and left the
    written requests alone. *)
Lemma read_response_consumes (request_id : json) (n : nat) :
  forall (p : process) r p',
    read_response request_id n p = (r, p') ->
    exists consumed,
      stdout p = (consumed ++ stdout p')%list /\ (length consumed <= n)%nat
      /\ stdin p' = stdin p.
Proof.
  induction n as [|n IH]; intros p r p' H; simpl in H.
  - inversion H; subst. exists []. repeat split; auto.
  - unfold bind, readline in H.
    destruct (stdout p) as [|l rest] eqn:Hout.
    + destruct (alive p && negb (exits p)); inversion H; subst;
        exists []; simpl; rewrite ?Hout; repeat split; auto with arith.
    + destruct l as [| |[| | | | |d]];
        try solve [ inversion H; subst; simpl;
                    match goal with
                    | |- exists c, ?l :: ?r = _ /\ _ => exists [l]
                    end; simpl; repeat split; auto with arith ].
      destruct (same_id request_id (dict_get_none "id" d)).
      * inversion H; subst. exists [Json (JObj d)]. simpl.
        repeat split; auto with arith.
      * apply IH in H. destruct H as (c & Hc & Hl & Hi). simpl in *.
        exists (Json (JObj d) :: c). simpl. rewrite Hc. repeat split; auto with arith.
Qed.

(** When the read loop returns a response, every line before it was stale
    and the response carries the awaited id. *)
Lemma read_response_returns (request_id : json) (n : nat) :
  forall (p : process) response p',
    read_response request_id n p = (Ret response, p') ->
    exists skipped,
      stdout p = (skipped ++ Json (JObj response) :: stdout p')%list
      /\ (length skipped < n)%nat
      /\ Forall (stale request_id) skipped
      /\ same_id request_id (dict_get_none "id" response) = true.
Proof.
  induction n as [|n IH]; intros p response p' H; simpl in H.
  - discriminate.
  - unfold bind, readline in H.
    destruct (stdout p) as [|l rest] eqn:Hout.
    + destruct (alive p && negb (exits p)); discriminate.
    + destruct l as [| |v]; try discriminate.
      destruct v as [| | | | |d]; try discriminate.
      destruct (same_id request_id (dict_get_none "id" d)) eqn:Hid.
      * inversion H; subst. exists []. simpl. repeat split; auto with arith.
      * apply IH in H. destruct H as (sk & Hs & Hl & Hf & Hm). simpl in Hs.
        exists (Json (JObj d) :: sk). simpl. rewrite Hs. repeat split; auto with arith.
        constructor; auto. exists d. auto.
Qed.

(** The read loop on a stream that starts with [k] stale lines. *)
Lemma read_response_skips (request_id : json) :
  forall (skipped : list line) (n : nat) (p : process) rest,
    Forall (stale request_id) skipped ->
    stdout p = (skipped ++ rest)%list ->
    (length skipped <= n)%nat ->
    read_response request_id n p
    = read_response request_id (n - length skipped) (set_stdout rest p).
Proof.
  induction skipped as [|l sk IH]; intros n p rest Hf Hout Hlen; simpl in *.
  - rewrite Nat.sub_0_r. destruct p; simpl in *; subst; reflexivity.
  - destruct n as [|n]; [lia|]. simpl.
    inversion Hf as [|? ? (d & -> & Hd) Hf']; subst.
    unfold bind at 1. unfold readline at 1. rewrite Hout.
    rewrite Hd. rewrite (IH n _ rest); auto with arith.
Qed.

(** [send_request] on a provider that is [RUNNING] and owns a child: the
    write, the read loop, and the handler that marks a dead child. *)
Lemma send_request_running (request : pydict) (self : MCPServer) (p : process) :
  status self = RUNNING ->
  proc self = Some p ->
  send_request request self =
    match (write_stdin request ;;; read_response (dict_get_none "id" request) max_attempts) p with
    | (Raise e, p') =>
        if alive p' then (Raise e, set_proc (Some p') self)
        else (Raise e,
              set_last_error (Some ("Process died: " ++ stderr p'))
                (set_status FAILED (set_proc (Some p') self)))
    | (r, p') => (r, set_proc (Some p') self)
    end.
Proof.
  intros Hst Hp. unfold send_request, has_process. rewrite Hst, Hp.
  cbn [is_running negb orb]. unfold try_except, with_process. rewrite Hp.
  destruct ((write_stdin request ;;; read_response (dict_get_none "id" request) max_attempts) p)
    as [[a|e|] p']; reflexivity.
Qed.

Lemma send_request_not_running (request : pydict) (self : MCPServer) :
  status self <> RUNNING \/ proc self = None ->
  send_request request self
  = (Raise (RuntimeError ("MCP server " ++ name (config self) ++ " is not running")), self).
Proof.
  intros H. unfold send_request, has_process.
  destruct H as [H|H].
  - destruct (status self); try congruence; reflexivity.
  - rewrite H. rewrite orb_true_r. reflexivity.
Qed.

(** The write followed by the read loop, on a live child. *)
Lemma write_then_read_live (request : pydict) (p : process) :
  alive p = true ->
  (write_stdin request ;;; read_response (dict_get_none "id" request) max_attempts) p
  = read_response (dict_get_none "id" request) max_attempts
      (set_stdin (stdin p ++ [request]) p).
Proof. intros Ha. unfold bind, write_stdin. rewrite Ha. reflexivity. Qed.

Lemma write_then_read_dead (request : pydict) (p : process) :
  alive p = false ->
  (write_stdin request ;;; read_response (dict_get_none "id" request) max_attempts) p
  = (Raise BrokenPipeError, p).
Proof. intros Ha. unfold bind, write_stdin. rewrite Ha. reflexivity. Qed.

(** Whatever [send_request] does, it takes at most [max_attempts] lines off
    the provider's stream. *)
Lemma send_request_consumes (request : pydict) (self : MCPServer) r self' :
  send_request request self = (r, self') ->
  exists consumed,
    pending self = (consumed ++ pending self')%list
    /\ (length consumed <= max_attempts)%nat.
Proof.
  intros H.
  destruct (status self) eqn:Hst;
    try (rewrite send_request_not_running in H by (left; congruence);
         inversion H; subst; exists []; split; [reflexivity | simpl; lia]).
  destruct (proc self) as [p|] eqn:Hp;
    [| rewrite send_request_not_running in H by (now right);
       inversion H; subst; exists []; split; [reflexivity | simpl; lia] ].
  rewrite (send_request_running request self p Hst Hp) in H.
  unfold pending at 1. rewrite Hp.
  destruct (alive p) eqn:Ha.
  - rewrite write_then_read_live in H by assumption.
    destruct (read_response _ _ _) as [r0 p1] eqn:Hr.
    apply read_response_consumes in Hr. destruct Hr as (c & Hc & Hl & _).
    simpl in Hc. exists c. split; [|assumption].
    destruct r0 as [a|e|]; [ | destruct (alive p1) | ];
      inversion H; subst; unfold pending; cbn; assumption.
  - rewrite write_then_read_dead in H by assumption. rewrite Ha in H.
    inversion H; subst. exists []. split; [reflexivity | simpl; lia].
Qed.

(** C6.  A response that [send_request] returns carries the id of the
    request, both ids normalised with [str]; every line read before it was a
    response with another id, and was skipped, not returned. *)
Theorem C6_returned_response_matches_request_id
    (request : pydict) (self : MCPServer) (response : pydict) (self' : MCPServer) :
  send_request request self = (Ret response, self') ->
  normalize_id (dict_get_none "id" response) = normalize_id (dict_get_none "id" request)
  /\ exists skipped,
       pending self = (skipped ++ Json (JObj response) :: pending self')%list
       /\ Forall (stale (dict_get_none "id" request)) skipped.
Proof.
  intros H.
  destruct (status self) eqn:Hst;
    try (rewrite send_request_not_running in H by (left; congruence); discriminate).
  destruct (proc self) as [p|] eqn:Hp;
    [| rewrite send_request_not_running in H by (now right); discriminate ].
  rewrite (send_request_running request self p Hst Hp) in H.
  destruct (alive p) eqn:Ha.
  - rewrite write_then_read_live in H by assumption.
    destruct (read_response _ _ _) as [r0 p1] eqn:Hr.
    destruct r0 as [a|e|]; [ | destruct (alive p1); discriminate | discriminate ].
    inversion H; subst. apply read_response_returns in Hr.
    destruct Hr as (sk & Hs & _ & Hf & Hm). simpl in Hs.
    split.
    + symmetry. now apply same_id_normalize.
    + exists sk. unfold pending. rewrite Hp. cbn [proc set_proc]. auto.
  - rewrite write_then_read_dead in H by assumption. rewrite Ha in H. discriminate.
Qed.

(** ** The read loop of [send_request] is bounded *)

Lemma read_response_blank (request_id : json) (n : nat) (p : process) rest :
  stdout p = Blank :: rest ->
  read_response request_id (S n) p
  = (Raise (RuntimeError "Empty response from MCP server"), set_stdout rest p).
Proof. intros H. simpl. unfold bind, readline. rewrite H. reflexivity. Qed.

Lemma read_response_eof (request_id : json) (n : nat) (p : process) :
  stdout p = [] -> exits p = true ->
  read_response request_id (S n) p
  = (Raise (RuntimeError "Empty response from MCP server"), set_alive false p).
Proof.
  intros H He. simpl. unfold bind, readline. rewrite H, He.
  rewrite andb_false_r. reflexivity.
Qed.

(** C10.  One call of [send_request] takes at most ten lines off the child's
    stream.  On a live provider it raises [RuntimeError] as soon as it reads
    a blank line (or reaches the end of the stream of an exiting child), and
    after ten responses with other ids in a row, having consumed exactly
    those ten. *)
Theorem C10_send_request_read_loop_is_bounded (request : pydict) (self : MCPServer) :
  let request_id := dict_get_none "id" request in
  let r := fst (send_request request self) in
  let self' := snd (send_request request self) in
  (exists consumed,
      pending self = (consumed ++ pending self')%list /\ (length consumed <= 10)%nat)
  /\ (forall skipped rest,
         live self ->
         pending self = (skipped ++ Blank :: rest)%list ->
         Forall (stale request_id) skipped -> (length skipped < 10)%nat ->
         r = Raise (RuntimeError "Empty response from MCP server")
         /\ pending self' = rest)
  /\ (forall skipped p,
         live self -> proc self = Some p -> exits p = true ->
         pending self = skipped ->
         Forall (stale request_id) skipped -> (length skipped < 10)%nat ->
         r = Raise (RuntimeError "Empty response from MCP server")
         /\ pending self' = [] /\ status self' = FAILED)
  /\ (forall skipped rest,
         live self ->
         pending self = (skipped ++ rest)%list ->
         Forall (stale request_id) skipped -> length skipped = 10%nat ->
         r = Raise (RuntimeError "Failed to get matching response after 10 attempts")
         /\ pending self' = rest).
Proof.
  cbv zeta. split; [| split; [| split]].
  - destruct (send_request request self) as [r self'] eqn:H.
    apply send_request_consumes in H. exact H.
  - intros skipped rest (Hst & p & Hp & Ha) Hpend Hf Hlen.
    unfold pending in Hpend. rewrite Hp in Hpend.
    rewrite (send_request_running request self p Hst Hp).
    rewrite write_then_read_live by assumption.
    rewrite (read_response_skips _ skipped max_attempts _ (Blank :: rest));
      [| assumption | exact Hpend | unfold max_attempts; lia ].
    unfold max_attempts.
    destruct (10 - length skipped)%nat as [|m] eqn:Hm; [lia|].
    rewrite (read_response_blank _ m _ rest) by reflexivity.
    cbn [alive set_stdout set_stdin]. rewrite Ha. cbn. auto.
  - intros skipped p (Hst & p0 & Hp0 & Ha) Hp He Hpend Hf Hlen.
    rewrite Hp in Hp0. inversion Hp0; subst p0. clear Hp0.
    unfold pending in Hpend. rewrite Hp in Hpend.
    rewrite (send_request_running request self p Hst Hp).
    rewrite write_then_read_live by assumption.
    rewrite (read_response_skips _ skipped max_attempts _ []);
      [| assumption | now rewrite app_nil_r | unfold max_attempts; lia ].
    unfold max_attempts.
    destruct (10 - length skipped)%nat as [|m] eqn:Hm; [lia|].
    rewrite (read_response_eof _ m) by (cbn; auto).
    cbn. auto.
  - intros skipped rest (Hst & p & Hp & Ha) Hpend Hf Hlen.
    unfold pending in Hpend. rewrite Hp in Hpend.
    rewrite (send_request_running request self p Hst Hp).
    rewrite write_then_read_live by assumption.
    rewrite (read_response_skips _ skipped max_attempts _ rest);
      [| assumption | exact Hpend | unfold max_attempts; lia ].
    unfold max_attempts. rewrite Hlen. cbn [Nat.sub read_response raise].
    cbn [alive set_stdout set_stdin]. rewrite Ha. cbn. auto.
Qed.

Lemma sample_running_live (n : string) (obo : bool) (lines : list line) :
  live (sample_running n obo lines).
Proof. split; [reflexivity | eexists; split; reflexivity]. Qed.

Lemma reply_stale (k : Z) :
  k <> 1 -> stale (JStr "1") (reply k).
Proof.
  intros Hk. eexists. split; [reflexivity|].
  unfold same_id, normalize_id, dict_get_none. cbn [PyDict.get_default PyDict.get String.eqb Ascii.eqb Bool.eqb].
  cbn [py_str py_repr]. apply String.eqb_neq. intros H.
  apply Hk. change "1" with (pretty 1) in H.
  now apply (inj pretty) in H.
Qed.

(** The string id ["1"] of a request matches the integer id [1] of a
    response, after a response with id [7] has been skipped. *)
Lemma C6_witness :
  normalize_id (JInt 1) = normalize_id (JStr "1")
  /\ exists skipped,
       [reply 7; reply 1; reply 8] = (skipped ++ reply 1 :: [reply 8])%list
       /\ Forall (stale (JStr "1")) skipped.
Proof.
  exact (C6_returned_response_matches_request_id sample_request
           (sample_running "alpha" false [reply 7; reply 1; reply 8])
           [("id", JInt 1); ("result", JObj [])]
           (mkServer (sample_config "alpha" true false)
              (Some (mkProcess 4242 true false [reply 8] [sample_request] ""))
              RUNNING None)
           eq_refl).
Defined.

(** A blank line after one stale response, the end of the stream of an
    exiting child, and ten stale responses in a row. *)
Lemma C10_witness :
  (fst (send_request sample_request (sample_running "alpha" false [reply 7; Blank; reply 1]))
   = Raise (RuntimeError "Empty response from MCP server")
   /\ pending (snd (send_request sample_request
                      (sample_running "alpha" false [reply 7; Blank; reply 1])))
      = [reply 1])
  /\ (fst (send_request sample_request
             (mkServer (sample_config "alpha" true false)
                (Some (mkProcess 4242 true true [reply 7] [] "")) RUNNING None))
      = Raise (RuntimeError "Empty response from MCP server"))
  /\ (fst (send_request sample_request
             (sample_running "alpha" false (ten_replies ++ [reply 1])))
      = Raise (RuntimeError "Failed to get matching response after 10 attempts")
      /\ pending (snd (send_request sample_request
                         (sample_running "alpha" false (ten_replies ++ [reply 1]))))
         = [reply 1]).
Proof.
  assert (Hs : forall k, k <> 1 -> stale (dict_get_none "id" sample_request) (reply k))
    by (intros k Hk; apply reply_stale; exact Hk).
  split; [| split].
  - destruct (C10_send_request_read_loop_is_bounded sample_request
                (sample_running "alpha" false [reply 7; Blank; reply 1]))
      as (_ & H & _).
    apply (H [reply 7] [reply 1]).
    + apply sample_running_live.
    + reflexivity.
    + repeat constructor. apply Hs. lia.
    + simpl. lia.
  - destruct (C10_send_request_read_loop_is_bounded sample_request
                (mkServer (sample_config "alpha" true false)
                   (Some (mkProcess 4242 true true [reply 7] [] "")) RUNNING None))
      as (_ & _ & H & _).
    apply (H [reply 7] (mkProcess 4242 true true [reply 7] [] "")).
    + split; [reflexivity | eexists; split; reflexivity].
    + reflexivity.
    + reflexivity.
    + reflexivity.
    + repeat constructor. apply Hs. lia.
    + simpl. lia.
  - destruct (C10_send_request_read_loop_is_bounded sample_request
                (sample_running "alpha" false (ten_replies ++ [reply 1])))
      as (_ & _ & _ & H).
    apply (H ten_replies [reply 1]).
    + apply sample_running_live.
    + reflexivity.
    + unfold ten_replies. repeat constructor; apply Hs; lia.
    + reflexivity.
Defined.

(** ** Dynamic registration *)

(** C9.  [add_server] with the name of a registered provider, given flat or
    inside [mcpServers], raises [ValueError] and leaves the manager as it
    was: registry, configurations, statuses and children; [POST /servers]
    answers 400 and leaves the application as it was. *)
Theorem C9_add_server_duplicate_name_is_rejected
    (E : environment) (config : pydict) (mgr : MCPManager) (n : string)
    (tasks : list audit_record) :
  requested_name config = Some n ->
  PyDict.mem n (servers mgr) = true ->
  exists msg,
    add_server E config mgr = (Raise (ValueError msg), mgr)
    /\ Endpoint.add_server E config (mkApp (Some mgr) tasks)
       = (Raise (HTTPException 400 msg), mkApp (Some mgr) tasks).
Proof.
  intros Hname Hmem. unfold requested_name in Hname.
  destruct (normalize_config config) as [e|cfg] eqn:Hn; [discriminate|].
  destruct (dict_get_none "name" cfg) as [| | |s| |] eqn:Hd; try discriminate.
  inversion Hname; subst s. clear Hname.
  assert (Hcore : exists msg, add_server E config mgr = (Raise (ValueError msg), mgr)).
  { unfold add_server, bind, lift_sum. rewrite Hn. unfold ret at 1. rewrite Hd.
    destruct (negb (truthy (JStr n))); [eexists; reflexivity|].
    destruct (negb (truthy (dict_get_none "command" cfg))); [eexists; reflexivity|].
    unfold get_state. rewrite Hmem. eexists; reflexivity. }
  destruct Hcore as (msg & Hcore). exists msg. split; [exact Hcore|].
  unfold Endpoint.add_server, bind, get_state, try_except, with_manager.
  cbn [mcp_manager background_tasks]. rewrite Hcore. reflexivity.
Qed.

(** In a registry that holds ["alpha"], both submission shapes of a second
    ["alpha"] are rejected. *)
Lemma C9_witness :
  exists msg,
    add_server default_env
      [("mcpServers", JObj [("alpha", JObj [("command", JStr "npx")])])] alpha_manager
    = (Raise (ValueError msg), alpha_manager)
    /\ Endpoint.add_server default_env
         [("mcpServers", JObj [("alpha", JObj [("command", JStr "npx")])])]
         (mkApp (Some alpha_manager) [])
       = (Raise (HTTPException 400 msg), mkApp (Some alpha_manager) []).
Proof.
  apply (C9_add_server_duplicate_name_is_rejected _ _ _ "alpha"); reflexivity.
Defined.

(** ** Dictionaries *)

Lemma get_set_eq {V} (k : string) (v : V) (d : list (string * V)) :
  PyDict.get k (PyDict.set k v d) = Some v.
Proof.
  induction d as [|[k' v'] d IH]; simpl.
  - now rewrite String.eqb_refl.
  - destruct (String.eqb k k') eqn:Hk; simpl; rewrite Hk; auto.
Qed.

Lemma get_set_ne {V} (k k' : string) (v : V) (d : list (string * V)) :
  k <> k' -> PyDict.get k (PyDict.set k' v d) = PyDict.get k d.
Proof.
  intros Hne. induction d as [|[k'' v''] d IH]; simpl.
  - apply String.eqb_neq in Hne. now rewrite Hne.
  - destruct (String.eqb k' k'') eqn:Hk; simpl.
    + apply String.eqb_eq in Hk. subst k''.
      apply String.eqb_neq in Hne. now rewrite Hne.
    + destruct (String.eqb k k''); auto.
Qed.

Lemma get_set (k k' : string) {V} (v : V) (d : list (string * V)) :
  PyDict.get k (PyDict.set k' v d)
  = if String.eqb k k' then Some v else PyDict.get k d.
Proof.
  destruct (String.eqb k k') eqn:Hk.
  - apply String.eqb_eq in Hk. subst. apply get_set_eq.
  - apply String.eqb_neq in Hk. now apply get_set_ne.
Qed.

Lemma mem_get {V} (k : string) (d : list (string * V)) :
  PyDict.mem k d = true <-> exists v, PyDict.get k d = Some v.
Proof.
  unfold PyDict.mem. destruct (PyDict.get k d); split; intros H;
    try discriminate; eauto. destruct H as (v & H). discriminate.
Qed.


Lemma mem_keys {V} (k : string) (d : list (string * V)) :
  PyDict.mem k d = true <-> In k (PyDict.keys d).
Proof.
  unfold PyDict.mem, PyDict.keys.
  induction d as [|[k' v'] d IH]; simpl.
  - split; [discriminate | tauto].
  - destruct (String.eqb k k') eqn:Hk.
    + apply String.eqb_eq in Hk. subst. split; auto.
    + apply String.eqb_neq in Hk. rewrite IH. split; [auto|].
      intros [H|H]; [congruence | exact H].
Qed.

(** ** The enabled flag across a restart *)

Lemma stop_spec (self : MCPServer) :
  exists self',
    stop self = (Ret tt, self')
    /\ config self' = config self
    /\ (match proc self' with Some c => alive c = false | None => True end)
    /\ (status self' = STOPPED \/ self' = self).
Proof.
  unfold stop. destruct (proc self) as [c|] eqn:Hc.
  - destruct (alive c) eqn:Ha.
    + eexists. split; [reflexivity|]. cbn. auto.
    + exists self. rewrite Hc, Ha. auto.
  - exists self. rewrite Hc. auto.
Qed.

Lemma assign_enabled_get (k q : string) (b : bool) (mgr : MCPManager) :
  PyDict.get k (servers (assign_enabled q b mgr))
  = if String.eqb k q
    then option_map (fun s => set_config (set_enabled b (config s)) s)
           (PyDict.get q (servers mgr))
    else PyDict.get k (servers mgr).
Proof.
  unfold assign_enabled.
  destruct (PyDict.get q (servers mgr)) as [srv|] eqn:Hq; cbn [servers set_servers option_map].
  - rewrite get_set. reflexivity.
  - destruct (String.eqb k q) eqn:Hk; [|reflexivity].
    apply String.eqb_eq in Hk. now subst.
Qed.

Lemma assign_enabled_redis (q : string) (b : bool) (mgr : MCPManager) :
  redis_client (assign_enabled q b mgr) = redis_client mgr.
Proof. unfold assign_enabled. destruct (PyDict.get q (servers mgr)); reflexivity. Qed.

Lemma same_but_flag_refl (o : option MCPServer) : same_but_flag o o.
Proof.
  destruct o as [[[] ? ? ?]|]; simpl; auto.
  eexists. unfold set_config, set_enabled. simpl. reflexivity.
Qed.

Lemma same_but_flag_trans (a b c : option MCPServer) :
  same_but_flag a b -> same_but_flag b c -> same_but_flag a c.
Proof.
  destruct a as [sa|], b as [sb|], c as [sc|]; simpl; try tauto.
  intros [x ->] [y ->]. exists y. reflexivity.
Qed.

Lemma assign_enabled_flag_only (k q : string) (b : bool) (mgr : MCPManager) :
  same_but_flag (PyDict.get k (servers mgr))
    (PyDict.get k (servers (assign_enabled q b mgr))).
Proof.
  rewrite assign_enabled_get. destruct (String.eqb k q) eqn:Hk.
  - apply String.eqb_eq in Hk. subst.
    destruct (PyDict.get q (servers mgr)); simpl; eauto.
  - apply same_but_flag_refl.
Qed.

(** Loading the flags changes nothing but flags. *)
Lemma load_enabled_states_flag_only (r : redis) (k : string) (names : list string) :
  forall mgr,
    same_but_flag (PyDict.get k (servers mgr))
      (PyDict.get k (servers (load_enabled_states r names mgr))).
Proof.
  induction names as [|q names IH]; intros mgr; simpl.
  - apply same_but_flag_refl.
  - destruct (redis_get r (REDIS_MCP_ENABLED_PREFIX ++ q)) as [e|[v|]].
    + apply same_but_flag_refl.
    + eapply same_but_flag_trans; [apply (assign_enabled_flag_only k q) | apply IH].
    + apply IH.
Qed.


Lemma get_In {V} (k : string) (v : V) (d : list (string * V)) :
  PyDict.get k d = Some v -> In (k, v) d.
Proof.
  induction d as [|[k' v'] d IH]; simpl; [discriminate|].
  destruct (String.eqb k k') eqn:Hk.
  - apply String.eqb_eq in Hk. intros H. inversion H; subst. now left.
  - intros H. right. now apply IH.
Qed.

(** Every provider of the built-in registry starts [STOPPED], without a
    child. *)
Lemma initialize_servers_fresh (E : environment) (k : string) (s : MCPServer) :
  PyDict.get k (initialize_servers E) = Some s ->
  status s = STOPPED /\ proc s = None.
Proof.
  intros H. apply get_In in H. unfold initialize_servers in H.
  apply in_map_iff in H. destruct H as ([b e] & Heq & Hin). simpl in Heq. subst e.
  apply filter_In in Hin. destruct Hin as [Hin _].
  assert (Hall : Forall (fun e : bool * (string * MCPServer) =>
                           status (snd (snd e)) = STOPPED /\ proc (snd (snd e)) = None)
                   (builtin_table E)).
  { unfold builtin_table. repeat constructor. }
  rewrite List.Forall_forall in Hall. exact (Hall _ Hin).
Qed.






(** After that restart in the default environment, ["awp_web"] is in the
    registry, stopped, while its neighbour ["awp_admin"] runs. *)
Example restart_leaves_awp_web_stopped :
  match mcp_manager
          (snd (lifespan default_env
                  (mkRedis (<[REDIS_MCP_ENABLED_PREFIX ++ "awp_web" := "false"]> ∅) true)
                  0 0)) with
  | Some mgr2 =>
      option_map status (PyDict.get "awp_web" (servers mgr2)) = Some STOPPED
      /\ option_map status (PyDict.get "awp_admin" (servers mgr2)) = Some RUNNING
  | None => False
  end.
Proof. vm_compute. split; reflexivity. Qed.

(** ** The enabled flag and the provider state *)


Lemma preserves_ret {S A} (Q : S -> Prop) (a : A) : preserves Q (ret a).
Proof. intros s r s' H HQ. inversion H; now subst. Qed.

Lemma preserves_raise {S A} (Q : S -> Prop) (e : exn) : preserves Q (@raise S A e).
Proof. intros s r s' H HQ. inversion H; now subst. Qed.




Lemma preserves_bind {S A B} (Q : S -> Prop) (m : M S A) (k : A -> M S B) :
  preserves Q m -> (forall a, preserves Q (k a)) -> preserves Q (bind m k).
Proof.
  intros Hm Hk s r s' H HQ. unfold bind in H.
  destruct (m s) as [[a|e|] s1] eqn:Hms.
  - eapply Hk; eauto.
  - inversion H; subst. eauto.
  - inversion H; subst. eauto.
Qed.

Lemma preserves_try_except {S A} (Q : S -> Prop) (m : M S A) (h : exn -> M S A) :
  preserves Q m -> (forall e, preserves Q (h e)) -> preserves Q (try_except m h).
Proof.
  intros Hm Hh s r s' H HQ. unfold try_except in H.
  destruct (m s) as [[a|e|] s1] eqn:Hms.
  - inversion H; subst. eauto.
  - eapply Hh; eauto.
  - inversion H; subst. eauto.
Qed.


(** *** Providers *)

Lemma send_request_config (request : pydict) (self : MCPServer) r self' :
  send_request request self = (r, self') -> config self' = config self.
Proof.
  intros H.
  destruct (status self) eqn:Hst;
    try (rewrite send_request_not_running in H by (left; congruence);
         inversion H; now subst).
  destruct (proc self) as [p|] eqn:Hp;
    [| rewrite send_request_not_running in H by (now right); inversion H; now subst ].
  rewrite (send_request_running request self p Hst Hp) in H.
  destruct ((write_stdin request ;;;
             read_response (dict_get_none "id" request) max_attempts) p)
    as [[a|e|] p']; [ | destruct (alive p') | ];
    inversion H; subst; reflexivity.
Qed.

Lemma send_request_status (request : pydict) (self : MCPServer) r self' :
  send_request request self = (r, self') ->
  status self' = status self \/ status self' = FAILED.
Proof.
  intros H.
  destruct (status self) eqn:Hst;
    try (rewrite send_request_not_running in H by (left; congruence);
         inversion H; subst; now left).
  destruct (proc self) as [p|] eqn:Hp;
    [| rewrite send_request_not_running in H by (now right); inversion H; subst; now left ].
  rewrite (send_request_running request self p Hst Hp) in H.
  destruct ((write_stdin request ;;;
             read_response (dict_get_none "id" request) max_attempts) p)
    as [[a|e|] p']; [ | destruct (alive p') | ];
    inversion H; subst; cbn; auto.
Qed.



(** [start] keeps the configuration and ends in [RUNNING] or [FAILED],
    unless the provider was [RUNNING] already. *)
Lemma start_spec (spawn : exn + process) (self : MCPServer) r self' :
  start spawn self = (r, self') ->
  config self' = config self
  /\ (status self' = RUNNING \/ status self' = FAILED).
Proof.
  unfold start. destruct (is_running (status self)) eqn:Hrun.
  - intros H. inversion H; subst. split; [reflexivity|].
    left. destruct (status self'); simpl in Hrun; congruence.
  - unfold try_except, bind, modify, lift_sum.
    destruct spawn as [e|p]; cbn [raise ret].
    + intros H. inversion H; subst. cbn. auto.
    + destruct (alive p) eqn:Ha.
      * destruct (send_request init_request
                    (set_status RUNNING (set_proc (Some p) (set_status STARTING self))))
          as [r0 s1] eqn:Hsend.
        pose proof (send_request_config _ _ _ _ Hsend) as Hc.
        pose proof (send_request_status _ _ _ _ Hsend) as Hs.
        cbn in Hc, Hs.
        destruct r0 as [a|e|]; intros H; inversion H; subst; cbn; auto.
      * intros H. inversion H; subst. cbn. auto.
Qed.

(** *** The registry *)














Lemma set_set {V} (k : string) (v1 v2 : V) (d : list (string * V)) :
  PyDict.set k v2 (PyDict.set k v1 d) = PyDict.set k v2 d.
Proof.
  induction d as [|[k' v'] d IH]; simpl.
  - now rewrite String.eqb_refl.
  - destruct (String.eqb k k') eqn:Hk; simpl; rewrite Hk; [reflexivity|].
    now rewrite IH.
Qed.












(** ** Access policy *)

(** A principal who is no administrator, whose group has an explicit
    [allow] for the admin-only ["awp_admin"], is granted access, and the
    catalog lists the provider's tools. *)
Lemma C1_counterexample :
  truthy (is_admin plain_user) = false
  /\ In "awp_admin" admin_servers_policy
  /\ fetch_user_mcp_access_policies policy_env (groups plain_user)
     = [("awp_admin", JStr "allow")]
  /\ check_server_access "awp_admin" (groups plain_user)
       (fetch_user_mcp_access_policies policy_env (groups plain_user))
       (is_admin plain_user) = true
  /\ fst (_list_all_tools_impl policy_env (Some plain_user) (mkApp (Some admin_manager) []))
     = Ret ([JObj [("server", JStr "awp_admin"); ("name", JStr "delete_user")]],
            [("awp_admin", JArr [JObj [("name", JStr "delete_user")]])]).
Proof.
  split; [reflexivity|]. split; [simpl; auto|].
  split; [vm_compute; reflexivity|]. split; vm_compute; reflexivity.
Qed.

(** C1, as the code has it.  For a principal who is no administrator and a
    provider of the admin-only set, the decision is the explicit policy of
    the provider when the fetched map has one ([allow] grants, anything else
    denies), and Deny when it has none; without an explicit entry the
    catalog filter drops the provider. *)
Theorem C1_admin_only_rule_applies_after_explicit_policy
    (server_name : string) (user_groups : json) (access_policies : pydict)
    (adm : json) :
  truthy adm = false ->
  In server_name admin_servers_policy ->
  check_server_access server_name user_groups access_policies adm
  = match PyDict.get server_name access_policies with
    | Some access => eq_str access "allow"
    | None => false
    end
  /\ (PyDict.get server_name access_policies = None ->
      forall all_tools tools,
        ~ In (server_name, tools) (filter_tools all_tools user_groups access_policies adm)).
Proof.
  intros Hadm Hin.
  assert (Hmem : existsb (String.eqb server_name) admin_servers_policy = true).
  { apply existsb_exists. exists server_name. split; [exact Hin | apply String.eqb_refl]. }
  assert (Heq : check_server_access server_name user_groups access_policies adm
                = match PyDict.get server_name access_policies with
                  | Some access => eq_str access "allow"
                  | None => false
                  end).
  { unfold check_server_access. rewrite Hadm.
    destruct (PyDict.get server_name access_policies); [reflexivity|].
    now rewrite Hmem. }
  split; [exact Heq|].
  intros Hnone all_tools tools Hf. unfold filter_tools in Hf.
  apply filter_In in Hf. destruct Hf as [_ Hf]. cbn [fst] in Hf.
  rewrite Heq, Hnone in Hf. discriminate.
Qed.

(** Without a fetched policy the non-administrator is denied ["awp_admin"];
    with the explicit [allow] of [policy_env] the decision is the policy. *)
Lemma C1_witness :
  check_server_access "awp_admin" (groups plain_user) [] (is_admin plain_user) = false
  /\ (forall all_tools tools,
        ~ In ("awp_admin", tools)
            (filter_tools all_tools (groups plain_user) [] (is_admin plain_user))).
Proof.
  destruct (C1_admin_only_rule_applies_after_explicit_policy "awp_admin"
              (groups plain_user) [] (is_admin plain_user)) as [H1 H2].
  - reflexivity.
  - simpl. auto.
  - split; [exact H1 | apply H2; reflexivity].
Defined.

(** ** Credential classification *)

(** A user API key that the platform API rejects, and that equals the
    configured Flowise service key, is classified as the Flowise service
    principal, an administrator. *)
Lemma C2_counterexample :
  user_api_key "awc_flowise_key"
  /\ validate_api_key flowise_env "awc_flowise_key" = None
  /\ get_user_info flowise_env (Some "awc_flowise_key") = inr flowise_service
  /\ truthy (is_admin flowise_service) = true.
Proof. repeat split; vm_compute; reflexivity. Qed.

Lemma startswith_nonempty (tok : string) :
  startswith tok "awc_" = true -> String.eqb tok "" = false.
Proof. destruct tok; [discriminate | reflexivity]. Qed.

(** Every failure of the token block is an HTTP error. *)
Lemma jwt_identity_error (E : environment) (tok : string) (e : exn) :
  jwt_identity E tok = inl e -> exists c d, e = HTTPException c d.
Proof.
  assert (Hf : forall x, exists c d, token_failure x = HTTPException c d).
  { intros x. unfold token_failure. destruct x; simpl; eauto. }
  unfold jwt_identity.
  destruct (jwt_get_unverified_header E tok) as [msg|header];
    [intros H; inversion H; apply Hf|].
  destruct (eq_str _ _ && negb _).
  - destruct (jwt_decode_hs256 E tok (internal_jwt_secret E)) as [x|p].
    + destruct x; intros H; inversion H;
        try apply Hf; unfold unauthorized; eauto.
    + destruct (internal_user tok p); intros H; inversion H. apply Hf.
  - destruct (azure_jwt_validate E tok _) as [x|p];
      [intros H; inversion H; apply Hf|].
    destruct (azure_user E tok p); intros H; inversion H. apply Hf.
Qed.

(** C2, as the code has it.  When the platform API does not validate a user
    API key, [get_user_info] goes on with the later branches: the value is
    compared with the two configured service keys, and is the Flowise or the
    API service principal when it equals one; otherwise it is handed to the
    token block, where an undecodable header gives 401 and every failure is
    an HTTP error. *)
Theorem C2_failed_api_key_falls_through_to_later_branches
    (E : environment) (tok : string) :
  user_api_key tok ->
  validate_api_key E tok = None ->
  get_user_info E (Some tok) = service_or_jwt E tok
  /\ (tok = getenv_default E "FLOWISE_INTERNAL_API_KEY" "flowise-internal" ->
      get_user_info E (Some tok) = inr flowise_service)
  /\ (tok <> getenv_default E "FLOWISE_INTERNAL_API_KEY" "flowise-internal" ->
      tok = getenv_default E "API_INTERNAL_KEY" "" ->
      get_user_info E (Some tok) = inr api_service)
  /\ (tok <> getenv_default E "FLOWISE_INTERNAL_API_KEY" "flowise-internal" ->
      tok <> getenv_default E "API_INTERNAL_KEY" "" ->
      get_user_info E (Some tok) = jwt_identity E tok
      /\ (forall msg, jwt_get_unverified_header E tok = inl msg ->
                      get_user_info E (Some tok)
                      = inl (HTTPException 401 ("Token validation failed: " ++ msg)))
      /\ (forall e, get_user_info E (Some tok) = inl e ->
                    exists c d, e = HTTPException c d)).
Proof.
  intros [Hp Hs] Hv.
  pose proof (startswith_nonempty tok Hp) as Hne.
  assert (H0 : get_user_info E (Some tok) = service_or_jwt E tok).
  { unfold get_user_info. rewrite Hp, Hs, Hne, Hv. reflexivity. }
  split; [exact H0|]. rewrite H0. unfold service_or_jwt. rewrite Hne. cbn [negb andb].
  split; [| split].
  - intros <-. now rewrite String.eqb_refl.
  - intros Hf <-. apply String.eqb_neq in Hf. rewrite Hf.
    now rewrite String.eqb_refl.
  - intros Hf Ha. apply String.eqb_neq in Hf, Ha. rewrite Hf, Ha.
    split; [reflexivity|]. split.
    + intros msg He. unfold jwt_identity. rewrite He. reflexivity.
    + intros e He. eapply jwt_identity_error; eauto.
Qed.

(** The rejected key ["awc_live_123"] under the default service keys ends in
    401; under a Flowise key equal to the bearer value it is the Flowise
    service principal. *)
Lemma C2_witness :
  get_user_info rejecting_env (Some "awc_live_123")
  = inl (HTTPException 401 "Token validation failed: Not enough segments")
  /\ get_user_info flowise_env (Some "awc_flowise_key") = inr flowise_service.
Proof.
  split.
  - destruct (C2_failed_api_key_falls_through_to_later_branches rejecting_env "awc_live_123")
      as (_ & _ & _ & H).
    + split; reflexivity.
    + reflexivity.
    + destruct H as (_ & H & _).
      * vm_compute. discriminate.
      * vm_compute. discriminate.
      * apply (H "Not enough segments"). reflexivity.
  - destruct (C2_failed_api_key_falls_through_to_later_branches flowise_env "awc_flowise_key")
      as (_ & H & _).
    + split; reflexivity.
    + reflexivity.
    + apply H. reflexivity.
Defined.

(** ** Audit records *)











(** ** The token that travels with a call *)

(** A principal's call to the [supports_obo] provider ["awp_azure"]: the
    identity provider would exchange the bearer token ["user-jwt"] for
    ["obo:user-jwt"], and the child is sent ["user-jwt"] itself.  A request
    whose [params] is [None] is not completed: the injection raises
    [TypeError] and nothing is written. *)
Lemma C4_counterexample :
  supports_obo (config (sample_running "awp_azure" true [])) = true
  /\ exchange_token_for_azure default_env "user-jwt" management_scope
     = inr (JStr "obo:user-jwt")
  /\ option_map (fun q => json_path token_path (JObj q))
       (last_written
          (match mcp_manager
                   (snd (McpTool.call_mcp_tool default_env
                           (mkToolCall (Some "awp_azure") "list_subscriptions" [] "1")
                           no_headers (Some plain_user) (mkApp (Some obo_manager) [])))
           with Some mgr => mgr | None => obo_manager end)
          "awp_azure")
     = Some (Some (JStr "user-jwt"))
  /\ (exists msg,
        route_request "awp_azure"
          [("jsonrpc", JStr "2.0"); ("id", JStr "1"); ("method", JStr "tools/call");
           ("params", JNull)]
          (Some "user-jwt") obo_manager
        = (Raise (TypeError msg), obo_manager)).
Proof.
  split; [reflexivity|]. split; [vm_compute; reflexivity|].
  split; [vm_compute; reflexivity|]. eexists. vm_compute. reflexivity.
Qed.

Lemma keys_set_In {V} (k k' : string) (v : V) (d : list (string * V)) :
  In k (PyDict.keys (PyDict.set k' v d)) -> k = k' \/ In k (PyDict.keys d).
Proof.
  unfold PyDict.keys. induction d as [|[k'' v''] d IH]; simpl.
  - intros [H|[]]. now left.
  - destruct (String.eqb k' k''); simpl; intros [H|H]; auto.
    destruct (IH H); auto.
Qed.

(** The injection on a well-shaped request. *)
Lemma inject_user_token_spec (request : pydict) (tok : string) :
  injectable request ->
  exists request',
    inject_user_token request tok = inr request'
    /\ json_path token_path (JObj request') = Some (JStr tok)
    /\ (forall k, In k (meta_keys request') ->
                  k = "userAccessToken" \/ In k (meta_keys request))
    /\ (forall k, k <> "params" -> PyDict.get k request' = PyDict.get k request).
Proof.
  intros Hshape. unfold injectable in Hshape.
  unfold inject_user_token, PyDict.mem, dict_get_none, PyDict.get_default.
  assert (Hfinish : forall (r1 p1 a1 m : pydict),
             (forall k, k <> "params" -> PyDict.get k r1 = PyDict.get k request) ->
             (forall k, In k (PyDict.keys m) -> In k (meta_keys request)) ->
             let request' :=
               PyDict.set "params"
                 (JObj (PyDict.set "arguments"
                          (JObj (PyDict.set "meta"
                                   (JObj (PyDict.set "userAccessToken" (JStr tok) m)) a1))
                          p1)) r1 in
             json_path token_path (JObj request') = Some (JStr tok)
             /\ (forall k, In k (meta_keys request') ->
                           k = "userAccessToken" \/ In k (meta_keys request))
             /\ (forall k, k <> "params" -> PyDict.get k request' = PyDict.get k request)).
  { intros r1 p1 a1 m Hr Hm request'. subst request'. split; [| split].
    - unfold token_path, json_path. now rewrite !get_set_eq.
    - intros k. unfold meta_keys at 1. unfold json_path. rewrite !get_set_eq.
      intros Hk. apply keys_set_In in Hk. destruct Hk; auto.
    - intros k Hk. rewrite get_set_ne by exact Hk. auto. }
  destruct (PyDict.get "params" request) as [[| | | | |p]|] eqn:Hp; try contradiction.
  - (* params is a dictionary *)
    rewrite Hp.
    destruct (PyDict.get "arguments" p) as [[| | | | |a]|] eqn:Ha; try contradiction.
    + (* arguments is None *)
      rewrite get_set_eq. cbn [PyDict.get String.eqb]. eexists. split; [reflexivity|].
      apply Hfinish; [auto | intros k []].
    + (* arguments is a dictionary *)
      rewrite Ha.
      destruct (PyDict.get "meta" a) as [[| | | | |m]|] eqn:Hm; try contradiction.
      * rewrite get_set_eq. eexists. split; [reflexivity|].
        apply Hfinish; [auto | intros k []].
      * rewrite Hm. eexists. split; [reflexivity|].
        apply Hfinish; [auto|]. intros k Hk. unfold meta_keys, json_path.
        now rewrite Hp, Ha, Hm.
      * rewrite get_set_eq. eexists. split; [reflexivity|].
        apply Hfinish; [auto | intros k []].
    + (* arguments is missing *)
      rewrite get_set_eq. cbn [PyDict.get String.eqb]. eexists. split; [reflexivity|].
      apply Hfinish; [auto | intros k []].
  - (* params is missing *)
    rewrite get_set_eq. cbn [PyDict.get]. rewrite get_set_eq.
    cbn [PyDict.get]. rewrite get_set_eq.
    eexists. split; [reflexivity|].
    apply Hfinish; [| intros k []].
    intros k Hk. now apply get_set_ne.
Qed.

(** A request sent to a live provider is the last one on its child's
    stdin, however the call ends. *)
Lemma send_request_written (request : pydict) (self : MCPServer) :
  live self ->
  last (written (snd (send_request request self))) = Some request.
Proof.
  intros (Hst & c & Hc & Ha).
  rewrite (send_request_running request self c Hst Hc).
  rewrite write_then_read_live by exact Ha.
  destruct (read_response _ _ _) as [r0 p1] eqn:Hr.
  apply read_response_consumes in Hr. destruct Hr as (_ & _ & _ & Hin).
  cbn [stdin set_stdin] in Hin.
  assert (Hl : last (stdin p1) = Some request) by (rewrite Hin; apply last_snoc).
  destruct r0 as [a|e|]; [ | destruct (alive p1) | ]; cbn; exact Hl.
Qed.

Lemma route_request_written (target : string) (request request' : pydict) (tok : string)
    (mgr : MCPManager) (srv : MCPServer) :
  PyDict.get target (servers mgr) = Some srv ->
  live srv ->
  tok <> "" ->
  dict_get_none "method" request = JStr "tools/call" ->
  inject_user_token request tok = inr request' ->
  last_written (snd (route_request target request (Some tok) mgr)) target = Some request'.
Proof.
  intros Hg Hlive Htok Hm Hinj. unfold route_request. rewrite Hg.
  destruct Hlive as (Hst & Hrest). rewrite Hst. cbn [is_running negb].
  unfold usable. apply String.eqb_neq in Htok. rewrite Htok.
  rewrite Hm. cbn [eq_str]. rewrite String.eqb_refl. rewrite Hinj.
  unfold on_server. rewrite Hg.
  pose proof (send_request_written request' srv (conj Hst Hrest)) as Hw.
  destruct (send_request request' srv) as [r srv']. cbn [snd] in *.
  unfold last_written. cbn [servers set_servers]. rewrite get_set_eq. exact Hw.
Qed.

(** C4, as the code has it.  For a provider flagged [supports_obo], with
    authentication enabled, outside shared-credential mode, and a principal
    whose token is neither empty nor the service sentinel, the token passed
    on is the caller's own: the [X-Azure-ID-Token] header when it is
    present, the bearer token otherwise; no exchange takes place.  On a
    [tools/call] whose [params] is missing or a dictionary and whose
    [arguments] and [meta] are missing, [None] or dictionaries, the
    injection succeeds, puts that token at
    [params.arguments.meta.userAccessToken], adds no other [meta] key and
    changes no other member of the request; the request so changed is what
    a live provider's child is sent. *)
Theorem C4_caller_token_is_injected_unexchanged (E : environment) :
  (forall (mgr : MCPManager) (target : string) (srv : MCPServer) (u : user_info)
          (hdrs : headers) (tok : string),
      PyDict.get target (servers mgr) = Some srv ->
      supports_obo (config srv) = true ->
      ENABLE_AUTH E = true ->
      env_is_true E "AZURE_MCP_USE_SHARED_SP" "false" = false ->
      usable (token u) = Some tok ->
      tok <> SYSTEM_SP_AUTH ->
      select_user_token E mgr target (Some u) hdrs
      = Some (match usable (x_azure_id_token hdrs) with
              | Some id_token => id_token
              | None => tok
              end))
  /\ (forall (request : pydict) (tok : string),
         injectable request ->
         exists request',
           inject_user_token request tok = inr request'
           /\ json_path token_path (JObj request') = Some (JStr tok)
           /\ (forall k, In k (meta_keys request') ->
                         k = "userAccessToken" \/ In k (meta_keys request))
           /\ (forall k, k <> "params" -> PyDict.get k request' = PyDict.get k request))
  /\ (forall (mgr : MCPManager) (target : string) (srv : MCPServer)
             (request request' : pydict) (tok : string),
         PyDict.get target (servers mgr) = Some srv ->
         live srv ->
         tok <> "" ->
         dict_get_none "method" request = JStr "tools/call" ->
         inject_user_token request tok = inr request' ->
         last_written (snd (route_request target request (Some tok) mgr)) target
         = Some request').
Proof.
  split; [| split].
  - intros mgr target srv u hdrs tok Hg Hobo Hauth Hsp Htok Hne.
    unfold select_user_token. rewrite Hg, Hobo, Hauth, Hsp, Htok. cbn [andb negb].
    apply String.eqb_neq in Hne. rewrite Hne. cbn [negb].
    destruct (usable (x_azure_id_token hdrs)); reflexivity.
  - apply inject_user_token_spec.
  - intros mgr target srv request request' tok. apply route_request_written.
Qed.

(** The call of ["awp_azure"] by the principal of token ["user-jwt"], with
    and without an identity-token header. *)
Lemma C4_witness :
  select_user_token default_env obo_manager "awp_azure" (Some plain_user)
    (mkHeaders (Some "Bearer user-jwt") (Some "id-jwt") None) = Some "id-jwt"
  /\ select_user_token default_env obo_manager "awp_azure" (Some plain_user) no_headers
     = Some "user-jwt"
  /\ (exists request',
        inject_user_token
          [("jsonrpc", JStr "2.0"); ("id", JStr "1"); ("method", JStr "tools/call");
           ("params", JObj [("name", JStr "list_subscriptions"); ("arguments", JNull)])]
          "id-jwt" = inr request'
        /\ json_path token_path (JObj request') = Some (JStr "id-jwt")
        /\ last_written
             (snd (route_request "awp_azure"
                     [("jsonrpc", JStr "2.0"); ("id", JStr "1"); ("method", JStr "tools/call");
                      ("params", JObj [("name", JStr "list_subscriptions");
                                       ("arguments", JNull)])]
                     (Some "id-jwt") obo_manager))
             "awp_azure"
           = Some request').
Proof.
  destruct (C4_caller_token_is_injected_unexchanged default_env) as (H1 & H2 & H3).
  split; [| split].
  - apply (H1 obo_manager "awp_azure"
             (sample_running "awp_azure" true [call_reply (JStr "1")])
             plain_user (mkHeaders (Some "Bearer user-jwt") (Some "id-jwt") None) "user-jwt");
      try reflexivity. discriminate.
  - apply (H1 obo_manager "awp_azure"
             (sample_running "awp_azure" true [call_reply (JStr "1")])
             plain_user no_headers "user-jwt");
      try reflexivity. discriminate.
  - destruct (H2 [("jsonrpc", JStr "2.0"); ("id", JStr "1"); ("method", JStr "tools/call");
                  ("params", JObj [("name", JStr "list_subscriptions");
                                   ("arguments", JNull)])]
                 "id-jwt") as (request' & Hi & Hp & _).
    + exact I.
    + exists request'. split; [exact Hi|]. split; [exact Hp|].
      apply (H3 obo_manager "awp_azure"
               (sample_running "awp_azure" true [call_reply (JStr "1")])).
      * reflexivity.
      * apply sample_running_live.
      * discriminate.
      * reflexivity.
      * exact Hi.
Defined.

(** ** Auto-detection of the provider of a tool *)

Lemma NoDup_In_get {V} (k : string) (v : V) (d : list (string * V)) :
  List.NoDup (PyDict.keys d) -> In (k, v) d -> PyDict.get k d = Some v.
Proof.
  unfold PyDict.keys. induction d as [|[k' v'] d IH]; simpl; intros Hnd Hin; [tauto|].
  apply List.NoDup_cons_iff in Hnd. destruct Hnd as [Hnotin Hnd].
  destruct Hin as [Heq|Hin].
  - inversion Heq; subst. now rewrite String.eqb_refl.
  - destruct (String.eqb k k') eqn:Hk; [| now apply IH].
    apply String.eqb_eq in Hk. subst k'. exfalso. apply Hnotin.
    apply in_map_iff. exists (k, v). auto.
Qed.












(** The scenario run to its end: the response of ["beta"], attributed to
    it, and one audit record. *)
Example auto_detected_call_is_answered_by_beta :
  match proxy_mcp_request default_env (unrouted_call "upper") no_headers
          (Some plain_user) (mkApp (Some scenario_manager) []) with
  | (Ret resp, a') =>
      response_server resp = Some "beta"
      /\ response_id resp = "7"
      /\ error resp = JNull
      /\ length (background_tasks a') = 1%nat
      /\ option_map uuids (mcp_manager a') = Some 2%nat
  | _ => False
  end.
Proof. vm_compute. repeat split; reflexivity. Qed.

(** A provider reply whose [result] is no dictionary: the success record is
    queued, the response model then rejects the reply, and the handler
    queues a failure record as well. *)
Example rejected_reply_is_audited_twice :
  map audit_success
    (background_tasks
       (snd (proxy_mcp_request default_env
               (mkRequest "tools/call" [("name", JStr "upper"); ("arguments", JObj [])]
                  "1" (Some "alpha"))
               no_headers (Some plain_user)
               (mkApp (Some (mkManager
                               [("alpha", sample_running "alpha" false
                                            [Json (JObj [("id", JInt 1);
                                                         ("result", JStr "HI")])])]
                               None 0 0)) []))))
  = [true; false].
Proof. vm_compute. reflexivity. Qed.

(** [stop] sets [STOPPED] only when it finds a live child: disabling a
    [RUNNING] provider whose child has already exited leaves it [RUNNING]
    with its flag off. *)
Example disabling_after_child_exit_leaves_running :
  option_map (fun s => (enabled (config s), status s))
    (PyDict.get "alpha"
       (servers (run default_env (OpSetServerEnabled "alpha" false)
                   (mkManager
                      [("alpha", mkServer (sample_config "alpha" true false)
                                   (Some (mkProcess 4242 false true [] [] ""))
                                   RUNNING None)]
                      None 0 0))))
  = Some (false, RUNNING).
Proof. vm_compute. reflexivity. Qed.

(** ** What one call of [send_request] delivers and what it may change *)

(** X1.  The matching response is delivered: on a live provider whose stream
    holds fewer than ten responses with other ids and then a response with
    the id of the request, [send_request] writes the request once, returns
    that response, and leaves the rest of the stream, the status and the
    last error as they were. *)
Theorem X1_send_request_delivers_matching_response
    (request response : pydict) (self : MCPServer) (skipped rest : list line) :
  live self ->
  pending self = (skipped ++ Json (JObj response) :: rest)%list ->
  Forall (stale (dict_get_none "id" request)) skipped ->
  (length skipped < 10)%nat ->
  same_id (dict_get_none "id" request) (dict_get_none "id" response) = true ->
  exists self',
    send_request request self = (Ret response, self')
    /\ pending self' = rest
    /\ written self' = (written self ++ [request])%list
    /\ status self' = RUNNING
    /\ config self' = config self
    /\ last_error self' = last_error self.
Proof.
  intros (Hst & p & Hp & Ha) Hpend Hf Hlen Hid.
  unfold pending in Hpend. rewrite Hp in Hpend.
  rewrite (send_request_running request self p Hst Hp).
  rewrite write_then_read_live by assumption.
  rewrite (read_response_skips _ skipped max_attempts _ (Json (JObj response) :: rest));
    [| assumption | exact Hpend | unfold max_attempts; lia ].
  unfold max_attempts.
  destruct (10 - length skipped)%nat as [|m] eqn:Hm; [lia|].
  cbn [read_response]. unfold bind at 1. unfold readline at 1.
  cbn [stdout set_stdout set_stdin]. rewrite Hid. unfold ret.
  eexists. split; [reflexivity|].
  unfold pending, written. cbn [proc set_proc stdout stdin set_stdout set_stdin status config last_error].
  rewrite Hp. auto.
Qed.

Lemma X1_witness :
  exists self',
    send_request sample_request (sample_running "alpha" false [reply 7; reply 1; reply 8])
    = (Ret [("id", JInt 1); ("result", JObj [])], self')
    /\ pending self' = [reply 8]
    /\ written self' = ([] ++ [sample_request])%list
    /\ status self' = RUNNING
    /\ config self' = sample_config "alpha" true false
    /\ last_error self' = None.
Proof.
  apply (X1_send_request_delivers_matching_response sample_request
           [("id", JInt 1); ("result", JObj [])]
           (sample_running "alpha" false [reply 7; reply 1; reply 8])
           [reply 7] [reply 8]).
  - apply sample_running_live.
  - reflexivity.
  - constructor; [| constructor]. apply reply_stale. lia.
  - simpl. lia.
  - reflexivity.
Defined.

(** X2.  The frame of [send_request]: whatever happens, the configuration is
    kept and at most the request itself is written to the child; the status
    and the last error change only when the call raises and the child is
    found dead, and then to [FAILED] with the child's error output; a
    response is returned by a provider that is still [RUNNING] only. *)
Theorem X2_send_request_effects (request : pydict) (self : MCPServer) :
  let r := fst (send_request request self) in
  let self' := snd (send_request request self) in
  config self' = config self
  /\ (written self' = written self \/ written self' = (written self ++ [request])%list)
  /\ ((status self' = status self /\ last_error self' = last_error self)
      \/ ((exists e, r = Raise e)
          /\ status self' = FAILED
          /\ exists c, proc self' = Some c /\ alive c = false
                       /\ last_error self' = Some ("Process died: " ++ stderr c)))
  /\ (forall response, r = Ret response -> status self' = RUNNING)
  /\ (status self <> RUNNING ->
      r = Raise (RuntimeError ("MCP server " ++ name (config self) ++ " is not running"))
      /\ self' = self).
Proof.
  cbv zeta.
  destruct (status self) eqn:Hst;
    try (rewrite send_request_not_running by (left; congruence); cbn [fst snd];
         repeat split; auto; intros; discriminate).
  destruct (proc self) as [p|] eqn:Hp;
    [| rewrite send_request_not_running by (now right); cbn [fst snd];
       repeat split; auto; intros; try discriminate; congruence ].
  rewrite (send_request_running request self p Hst Hp).
  assert (Hw : forall p1 r1,
             (write_stdin request ;;;
              read_response (dict_get_none "id" request) max_attempts) p = (r1, p1) ->
             stdin p1 = stdin p \/ stdin p1 = (stdin p ++ [request])%list).
  { intros p1 r1 H. destruct (alive p) eqn:Ha.
    - rewrite write_then_read_live in H by assumption.
      apply read_response_consumes in H. destruct H as (c & _ & _ & Hin).
      right. exact Hin.
    - rewrite write_then_read_dead in H by assumption. inversion H; subst. now left. }
  destruct ((write_stdin request ;;;
             read_response (dict_get_none "id" request) max_attempts) p)
    as [r1 p1] eqn:Hrun.
  specialize (Hw p1 r1 eq_refl).
  unfold written. rewrite Hp.
  destruct r1 as [a|e|]; [ | destruct (alive p1) eqn:Ha1 | ];
    cbn [fst snd config status last_error proc set_proc set_status set_last_error];
    rewrite ?Hst;
    (split; [reflexivity|]); (split; [exact Hw|]).
  - split; [left; auto|]. split; [reflexivity|]. congruence.
  - split; [left; auto|]. split; [intros; discriminate|]. congruence.
  - split.
    + right. split; [eauto|]. split; [reflexivity|]. exists p1. auto.
    + split; [intros; discriminate|]. congruence.
  - split; [left; auto|]. split; [intros; discriminate|]. congruence.
Qed.

(** ** Starting and stopping one provider *)

(** X3.  [start] never raises and keeps the configuration.  On a [RUNNING]
    provider it does nothing.  Otherwise: when [Popen] raises, the provider
    is [FAILED] with the text of the exception and keeps its old process
    handle; when the child has exited after the one-second wait, it is
    [FAILED] with the child's error output; when the child is alive, the
    handshake is the only request written to it and the provider is
    [RUNNING], unless the child was found dead during the handshake. *)
Theorem X3_start_outcomes (spawn : exn + process) (self : MCPServer) :
  let r := fst (start spawn self) in
  let self' := snd (start spawn self) in
  (forall e, r <> Raise e)
  /\ config self' = config self
  /\ (status self = RUNNING -> r = Ret tt /\ self' = self)
  /\ (status self <> RUNNING ->
      match spawn with
      | inl e =>
          r = Ret tt /\ status self' = FAILED
          /\ last_error self' = Some (exn_str e) /\ proc self' = proc self
      | inr p =>
          if alive p then
            written self' = (stdin p ++ [init_request])%list
            /\ (status self' = RUNNING
                \/ (status self' = FAILED
                    /\ exists c, proc self' = Some c /\ alive c = false))
          else
            r = Ret tt /\ status self' = FAILED
            /\ last_error self' = Some ("Process exited immediately: " ++ stderr p)
            /\ proc self' = Some p
      end).
Proof.
  cbv zeta. unfold start.
  destruct (is_running (status self)) eqn:Hrun.
  - cbn [fst snd]. split; [intros e; discriminate|]. split; [reflexivity|].
    split; [auto|]. intros Hne. destruct (status self); simpl in Hrun; congruence.
  - assert (Hnr : status self <> RUNNING)
      by (intros Heq; rewrite Heq in Hrun; discriminate).
    unfold try_except, bind, modify, lift_sum.
    destruct spawn as [e|p]; cbn [raise ret].
    + cbn. split; [intros e'; discriminate|]. split; [reflexivity|].
      split; [intros; congruence|]. auto.
    + destruct (alive p) eqn:Ha.
      * set (s1 := set_status RUNNING (set_proc (Some p) (set_status STARTING self))).
        rewrite (send_request_running init_request s1 p eq_refl eq_refl) in *.
        rewrite write_then_read_live in * by assumption.
        destruct (read_response (dict_get_none "id" init_request) max_attempts
                    (set_stdin (stdin p ++ [init_request]) p)) as [r0 p1] eqn:Hr.
        apply read_response_consumes in Hr. destruct Hr as (c & _ & _ & Hin).
        cbn [stdin set_stdin] in Hin.
        destruct r0 as [a|e|]; [ | destruct (alive p1) eqn:Ha1 | ];
          cbn [fst snd config status proc set_proc set_status set_last_error written];
          (split; [intros e'; discriminate|]); (split; [reflexivity|]);
          (split; [intros; congruence|]); intros _;
          unfold written; cbn [proc set_proc set_status set_last_error];
          (split; [exact Hin|]); auto.
        right. split; [reflexivity|]. exists p1. auto.
      * cbn. split; [intros e'; discriminate|]. split; [reflexivity|].
        split; [intros; congruence|]. auto.
Qed.

(** [stop] twice is [stop] once, and [stop] never raises. *)
Lemma stop_idempotent (self : MCPServer) :
  stop (snd (stop self)) = (Ret tt, snd (stop self)).
Proof.
  unfold stop. destruct (proc self) as [c|] eqn:Hc.
  - destruct (alive c) eqn:Ha; cbn [snd proc set_proc set_status alive set_alive].
    + reflexivity.
    + rewrite Hc, Ha. reflexivity.
  - cbn [snd]. rewrite Hc. reflexivity.
Qed.

Lemma on_server_stop_get (key k : string) (mgr : MCPManager) :
  PyDict.get k (servers (snd (on_server key stop mgr)))
  = if String.eqb k key
    then option_map (fun s => snd (stop s)) (PyDict.get key (servers mgr))
    else PyDict.get k (servers mgr).
Proof.
  unfold on_server.
  destruct (PyDict.get key (servers mgr)) as [srv|] eqn:Hg.
  - destruct (stop srv) as [r srv'] eqn:Hs. cbn [snd servers set_servers option_map].
    rewrite get_set. destruct (String.eqb k key); [|reflexivity].
    now rewrite Hs.
  - cbn [snd option_map]. destruct (String.eqb k key) eqn:Hk; [|reflexivity].
    apply String.eqb_eq in Hk. subst. exact Hg.
Qed.

Lemma on_server_stop_returns (key : string) (mgr : MCPManager) :
  PyDict.mem key (servers mgr) = true ->
  fst (on_server key stop mgr) = Ret tt.
Proof.
  intros Hm. apply mem_get in Hm. destruct Hm as (srv & Hg).
  unfold on_server. rewrite Hg.
  destruct (stop_spec srv) as (s' & Hs & _). rewrite Hs. reflexivity.
Qed.

Lemma keys_set_mem {V} (k : string) (v : V) (d : list (string * V)) :
  PyDict.mem k d = true -> PyDict.keys (PyDict.set k v d) = PyDict.keys d.
Proof.
  unfold PyDict.mem, PyDict.keys.
  induction d as [|[k' v'] d IH]; simpl; [discriminate|].
  destruct (String.eqb k k') eqn:Hk; simpl; [reflexivity|].
  intros H. now rewrite IH.
Qed.

Lemma on_server_keys {A} (key : string) (m : M MCPServer A) (mgr : MCPManager) :
  PyDict.keys (servers (snd (on_server key m mgr))) = PyDict.keys (servers mgr).
Proof.
  unfold on_server. destruct (PyDict.get key (servers mgr)) as [srv|] eqn:Hg; [|reflexivity].
  destruct (m srv) as [r srv']. cbn [snd servers set_servers].
  apply keys_set_mem. apply mem_get. eauto.
Qed.

Lemma stop_all_loop (names : list string) :
  forall mgr,
    (forall k, In k names -> PyDict.mem k (servers mgr) = true) ->
    fst (for_each names (fun key => on_server key stop) mgr) = Ret tt
    /\ PyDict.keys (servers (snd (for_each names (fun key => on_server key stop) mgr)))
       = PyDict.keys (servers mgr)
    /\ spawns (snd (for_each names (fun key => on_server key stop) mgr)) = spawns mgr
    /\ redis_client (snd (for_each names (fun key => on_server key stop) mgr))
       = redis_client mgr
    /\ forall k,
         PyDict.get k (servers (snd (for_each names (fun key => on_server key stop) mgr)))
         = if existsb (String.eqb k) names
           then option_map (fun s => snd (stop s)) (PyDict.get k (servers mgr))
           else PyDict.get k (servers mgr).
Proof.
  induction names as [|n names IH]; intros mgr Hin.
  - cbn. auto.
  - cbn [for_each]. unfold bind at 1 2 3 4 5.
    pose proof (on_server_stop_returns n mgr (Hin n (or_introl eq_refl))) as Hret.
    pose proof (fun k => on_server_stop_get n k mgr) as Hget.
    pose proof (on_server_keys n stop mgr) as Hkeys.
    assert (Hsp : spawns (snd (on_server n stop mgr)) = spawns mgr
                  /\ redis_client (snd (on_server n stop mgr)) = redis_client mgr).
    { unfold on_server. destruct (PyDict.get n (servers mgr)); [|auto].
      destruct (stop m); auto. }
    destruct (on_server n stop mgr) as [r1 m1] eqn:H1. cbn [fst snd] in *. subst r1.
    assert (Hin1 : forall k, In k names -> PyDict.mem k (servers m1) = true).
    { intros k Hk. apply mem_keys. rewrite Hkeys. apply mem_keys. apply Hin. now right. }
    destruct (IH m1 Hin1) as (Hr & Hk & Hs & Hrc & Hg).
    split; [exact Hr|]. split; [congruence|].
    split; [destruct Hsp; congruence|]. split; [destruct Hsp; congruence|].
    intros k. rewrite Hg. cbn [existsb]. rewrite (Hget k).
    destruct (String.eqb k n) eqn:Hkn; cbn [orb].
    + apply String.eqb_eq in Hkn. subst k.
      destruct (existsb (String.eqb n) names); [|reflexivity].
      destruct (PyDict.get n (servers mgr)) as [s|]; [|reflexivity].
      cbn [option_map]. f_equal. pose proof (stop_idempotent s) as Hi.
      now rewrite Hi.
    + reflexivity.
Qed.

Lemma set_same {V} (k : string) (v : V) (d : list (string * V)) :
  PyDict.get k d = Some v -> PyDict.set k v d = d.
Proof.
  induction d as [|[k' v'] d IH]; simpl; [discriminate|].
  destruct (String.eqb k k') eqn:Hk.
  - intros H. inversion H; subst. reflexivity.
  - intros H. now rewrite IH.
Qed.

Lemma set_servers_same (mgr : MCPManager) : set_servers (servers mgr) mgr = mgr.
Proof. destruct mgr; reflexivity. Qed.

Lemma for_each_stop_fixed (names : list string) (mgr : MCPManager) :
  (forall k, In k names ->
             exists s, PyDict.get k (servers mgr) = Some s /\ stop s = (Ret tt, s)) ->
  for_each names (fun key => on_server key stop) mgr = (Ret tt, mgr).
Proof.
  induction names as [|n names IH]; intros H; [reflexivity|].
  cbn [for_each]. unfold bind.
  destruct (H n (or_introl eq_refl)) as (s & Hg & Hs).
  unfold on_server at 1. rewrite Hg, Hs.
  rewrite (set_same _ _ _ Hg), set_servers_same.
  apply IH. intros k Hk. apply H. now right.
Qed.

(** X4.  [stop_all] never raises.  It keeps the registry keys, the spawn counter
    and the store; every provider is afterwards what [stop] makes of it, so
    none owns a live child and every configuration is kept; and a second
    [stop_all] changes nothing. *)
Theorem X4_stop_all_stops_every_child (mgr : MCPManager) :
  let mgr' := snd (stop_all mgr) in
  fst (stop_all mgr) = Ret tt
  /\ PyDict.keys (servers mgr') = PyDict.keys (servers mgr)
  /\ spawns mgr' = spawns mgr
  /\ redis_client mgr' = redis_client mgr
  /\ (forall k, PyDict.get k (servers mgr')
                = option_map (fun s => snd (stop s)) (PyDict.get k (servers mgr)))
  /\ (forall k s', PyDict.get k (servers mgr') = Some s' ->
                   match proc s' with Some c => alive c = false | None => True end)
  /\ stop_all mgr' = (Ret tt, mgr').
Proof.
  cbv zeta. unfold stop_all. cbv beta.
  assert (Hin : forall k, In k (PyDict.keys (servers mgr)) ->
                          PyDict.mem k (servers mgr) = true)
    by (intros k; apply mem_keys).
  destruct (stop_all_loop (PyDict.keys (servers mgr)) mgr Hin) as (Hr & Hk & Hs & Hrc & Hg).
  set (mgr' := snd (for_each (PyDict.keys (servers mgr))
                      (fun key => on_server key stop) mgr)) in *.
  assert (Hget : forall k, PyDict.get k (servers mgr')
                           = option_map (fun s => snd (stop s)) (PyDict.get k (servers mgr))).
  { intros k. rewrite Hg.
    destruct (existsb (String.eqb k) (PyDict.keys (servers mgr))) eqn:He; [reflexivity|].
    destruct (PyDict.get k (servers mgr)) as [s|] eqn:Hgk; [|reflexivity].
    assert (Hm : In k (PyDict.keys (servers mgr))) by (apply mem_keys, mem_get; eauto).
    assert (He' : existsb (String.eqb k) (PyDict.keys (servers mgr)) = true).
    { apply existsb_exists. exists k. split; [exact Hm | apply String.eqb_refl]. }
    congruence. }
  split; [exact Hr|]. split; [exact Hk|]. split; [exact Hs|]. split; [exact Hrc|].
  split; [exact Hget|]. split.
  - intros k s' H. rewrite Hget in H.
    destruct (PyDict.get k (servers mgr)) as [s|]; [|discriminate].
    cbn in H. inversion H; subst.
    destruct (stop_spec s) as (s2 & Hst & _ & Hdead & _). rewrite Hst. exact Hdead.
  - apply for_each_stop_fixed.
    intros k Hkin. rewrite Hk in Hkin. apply mem_keys, mem_get in Hkin.
    destruct Hkin as (s & Hgs). rewrite Hget, Hgs. cbn [option_map].
    eexists. split; [reflexivity|]. apply stop_idempotent.
Qed.

(** ** Removing and adding providers *)

Lemma get_del_ne {V} (k i : string) (d : list (string * V)) :
  k <> i -> PyDict.get k (PyDict.del i d) = PyDict.get k d.
Proof.
  intros Hne. induction d as [|[k' v'] d IH]; simpl; [reflexivity|].
  destruct (String.eqb i k') eqn:Hi.
  - apply String.eqb_eq in Hi. subst k'.
    apply String.eqb_neq in Hne. now rewrite Hne.
  - simpl. destruct (String.eqb k k'); auto.
Qed.

Lemma get_none_keys {V} (k : string) (d : list (string * V)) :
  ~ In k (PyDict.keys d) -> PyDict.get k d = None.
Proof.
  intros H. destruct (PyDict.get k d) as [v|] eqn:Hg; [|reflexivity].
  exfalso. apply H. apply mem_keys, mem_get. eauto.
Qed.

Lemma get_del_eq {V} (i : string) (d : list (string * V)) :
  List.NoDup (PyDict.keys d) -> PyDict.get i (PyDict.del i d) = None.
Proof.
  induction d as [|[k' v'] d IH]; simpl; [reflexivity|].
  intros Hnd. apply List.NoDup_cons_iff in Hnd. destruct Hnd as [Hni Hnd].
  destruct (String.eqb i k') eqn:Hi.
  - apply String.eqb_eq in Hi. subst k'. now apply get_none_keys.
  - simpl. rewrite Hi. auto.
Qed.

Lemma del_set_fresh {V} (k : string) (v : V) (d : list (string * V)) :
  PyDict.mem k d = false -> PyDict.del k (PyDict.set k v d) = d.
Proof.
  unfold PyDict.mem.
  induction d as [|[k' v'] d IH]; simpl.
  - now rewrite String.eqb_refl.
  - destruct (String.eqb k k') eqn:Hk; [discriminate|].
    intros H. simpl. rewrite Hk. now rewrite IH.
Qed.

Lemma keys_del_In {V} (k i : string) (d : list (string * V)) :
  In k (PyDict.keys (PyDict.del i d)) -> In k (PyDict.keys d).
Proof.
  induction d as [|[k' v'] d IH]; simpl; [tauto|].
  destruct (String.eqb i k'); simpl; [tauto|]. intros [H|H]; auto.
Qed.

Lemma keys_del_NoDup {V} (i : string) (d : list (string * V)) :
  List.NoDup (PyDict.keys d) -> List.NoDup (PyDict.keys (PyDict.del i d)).
Proof.
  induction d as [|[k' v'] d IH]; simpl; intros Hnd; [constructor|].
  apply List.NoDup_cons_iff in Hnd. destruct Hnd as [Hni Hnd].
  destruct (String.eqb i k'); simpl; [exact Hnd|].
  constructor; [| now apply IH].
  intros Hin. apply Hni. eapply keys_del_In; eauto.
Qed.

Lemma keys_set_NoDup {V} (k : string) (v : V) (d : list (string * V)) :
  List.NoDup (PyDict.keys d) -> List.NoDup (PyDict.keys (PyDict.set k v d)).
Proof.
  induction d as [|[k' v'] d IH]; simpl; intros Hnd.
  - constructor; [intros [] | constructor].
  - apply List.NoDup_cons_iff in Hnd. destruct Hnd as [Hni Hnd].
    destruct (String.eqb k k') eqn:Hk; simpl.
    + constructor; assumption.
    + constructor; [| now apply IH].
      intros Hin. apply keys_set_In in Hin. destruct Hin as [Heq|Hin]; [|contradiction].
      subst k'. rewrite String.eqb_refl in Hk. discriminate.
Qed.

(** What [remove_server] does to a registered provider and to the rest of
    the manager. *)
Lemma remove_server_registered (i : string) (mgr : MCPManager) (srv : MCPServer) :
  List.NoDup (PyDict.keys (servers mgr)) ->
  PyDict.get i (servers mgr) = Some srv ->
  exists mgr',
    remove_server i mgr = (Ret tt, mgr')
    /\ PyDict.get i (servers mgr') = None
    /\ (forall k, k <> i -> PyDict.get k (servers mgr') = PyDict.get k (servers mgr))
    /\ List.NoDup (PyDict.keys (servers mgr'))
    /\ spawns mgr' = spawns mgr
    /\ redis_client mgr' = redis_client mgr.
Proof.
  intros Hnd Hg. unfold remove_server. rewrite Hg.
  unfold bind, modify.
  assert (Hstep : exists m1,
             (if is_running (status srv) then on_server i stop else ret tt) mgr = (Ret tt, m1)
             /\ PyDict.keys (servers m1) = PyDict.keys (servers mgr)
             /\ (forall k, k <> i -> PyDict.get k (servers m1) = PyDict.get k (servers mgr))
             /\ spawns m1 = spawns mgr /\ redis_client m1 = redis_client mgr).
  { destruct (is_running (status srv)).
    - unfold on_server. rewrite Hg.
      destruct (stop_spec srv) as (s' & Hs & _). rewrite Hs.
      eexists. split; [reflexivity|]. cbn [servers set_servers spawns redis_client].
      split; [apply keys_set_mem, mem_get; eauto|].
      split; [intros k Hk; now apply get_set_ne | auto].
    - exists mgr. cbn. auto. }
  destruct Hstep as (m1 & H1 & Hk & Hother & Hsp & Hrc). rewrite H1.
  assert (Hnd1 : List.NoDup (PyDict.keys (servers m1))) by (rewrite Hk; exact Hnd).
  eexists. split; [reflexivity|].
  cbn [servers set_servers spawns redis_client].
  split; [now apply get_del_eq|].
  split; [intros k Hne; rewrite get_del_ne by assumption; now apply Hother|].
  split; [now apply keys_del_NoDup|]. auto.
Qed.

(** X5.  [remove_server] of a registered provider returns, and so does its other
    name [delete_server]; the provider is then unknown to the registry and
    to [route_request]; the other providers, the spawn counter and the
    store, with the flag persisted for the removed provider, are as
    before. *)
Theorem X5_remove_server_unregisters (i : string) (mgr : MCPManager) (srv : MCPServer) :
  List.NoDup (PyDict.keys (servers mgr)) ->
  PyDict.get i (servers mgr) = Some srv ->
  exists mgr',
    remove_server i mgr = (Ret tt, mgr')
    /\ delete_server i mgr = (Ret tt, mgr')
    /\ PyDict.get i (servers mgr') = None
    /\ (forall k, k <> i -> PyDict.get k (servers mgr') = PyDict.get k (servers mgr))
    /\ spawns mgr' = spawns mgr
    /\ redis_client mgr' = redis_client mgr
    /\ (forall request user_token,
          route_request i request user_token mgr'
          = (Raise (ValueError ("Unknown MCP server: " ++ i)), mgr')).
Proof.
  intros Hnd Hg.
  destruct (remove_server_registered i mgr srv Hnd Hg)
    as (mgr' & Hrm & Hnone & Hother & _ & Hsp & Hrc).
  exists mgr'. split; [exact Hrm|]. split; [exact Hrm|].
  split; [exact Hnone|]. split; [exact Hother|]. split; [exact Hsp|]. split; [exact Hrc|].
  intros request user_token. unfold route_request. rewrite Hnone. reflexivity.
Qed.

Lemma X5_witness :
  exists mgr',
    remove_server "alpha" alpha_manager = (Ret tt, mgr')
    /\ delete_server "alpha" alpha_manager = (Ret tt, mgr')
    /\ PyDict.get "alpha" (servers mgr') = None
    /\ (forall k, k <> "alpha" ->
                  PyDict.get k (servers mgr') = PyDict.get k (servers alpha_manager))
    /\ spawns mgr' = spawns alpha_manager
    /\ redis_client mgr' = redis_client alpha_manager
    /\ (forall request user_token,
          route_request "alpha" request user_token mgr'
          = (Raise (ValueError ("Unknown MCP server: " ++ "alpha")), mgr')).
Proof.
  apply (X5_remove_server_unregisters "alpha" alpha_manager (sample_running "alpha" false [])).
  - simpl. constructor; [intros [] | constructor].
  - reflexivity.
Defined.

(** [start_registered] on a registered provider never raises. *)
Lemma start_registered_spec (E : environment) (key : string) (mgr : MCPManager)
    (srv : MCPServer) :
  PyDict.get key (servers mgr) = Some srv ->
  exists r srv',
    start_registered E key mgr
    = (r, if is_running (status srv) then mgr
          else set_spawns (S (spawns mgr))
                 (set_servers (PyDict.set key srv' (servers mgr)) mgr))
    /\ (forall e, r <> Raise e)
    /\ config srv' = config srv
    /\ (status srv' = RUNNING \/ status srv' = FAILED).
Proof.
  intros Hg. unfold start_registered. rewrite Hg.
  destruct (is_running (status srv)) eqn:Hrun.
  - exists (Ret tt), srv. split; [reflexivity|]. split; [intros e; discriminate|].
    split; [reflexivity|]. left. destruct (status srv); simpl in Hrun; congruence.
  - destruct (start (popen E (spawns mgr) (config srv)) srv) as [r srv'] eqn:Hs.
    exists r, srv'. split; [reflexivity|].
    pose proof (start_spec _ _ _ _ Hs) as [Hc Hst].
    split; [|auto].
    intros e He. subst r.
    unfold start in Hs. rewrite Hrun in Hs.
    unfold try_except, bind, modify, lift_sum in Hs.
    destruct (popen E (spawns mgr) (config srv)) as [e0|p]; cbn [raise ret] in Hs;
      [discriminate|].
    destruct (alive p); [|discriminate].
    destruct (send_request init_request _) as [[a|e1|] s1]; discriminate.
Qed.

(** The two ways [add_server] can end: rejected before anything is
    registered, or with the new provider registered under a name that was
    free. *)
Lemma add_server_inv (E : environment) (c : pydict) (mgr : MCPManager) r mgr1 :
  add_server E c mgr = (r, mgr1) ->
  (exists e, r = Raise e /\ mgr1 = mgr)
  \/ exists n srv,
       PyDict.mem n (servers mgr) = false
       /\ servers mgr1 = PyDict.set n srv (servers mgr)
       /\ redis_client mgr1 = redis_client mgr
       /\ name (config srv) = n
       /\ spawns mgr1 = (if enabled (config srv) then S (spawns mgr) else spawns mgr)
       /\ (enabled (config srv) = false -> srv = new_server (config srv))
       /\ (enabled (config srv) = true -> status srv = RUNNING \/ status srv = FAILED)
       /\ (r = Block
           \/ exists res, r = Ret res
                /\ dict_get_none "name" res = JStr n
                /\ dict_get_none "status" res = JStr (status_value (status srv))).
Proof.
  unfold add_server. unfold bind at 1.
  destruct (normalize_config c) as [e|cfg]; cbn [lift_sum raise ret].
  { intros H. inversion H; subst. left. eauto. }
  destruct (negb (truthy (dict_get_none "name" cfg)));
    [intros H; inversion H; subst; left; eauto|].
  destruct (negb (truthy (dict_get_none "command" cfg)));
    [intros H; inversion H; subst; left; eauto|].
  destruct (dict_get_none "name" cfg) as [| | |n| |];
    try (intros H; inversion H; subst; left; eauto; fail).
  unfold bind at 1. unfold get_state at 1.
  destruct (PyDict.mem n (servers mgr)) eqn:Hmem;
    [intros H; inversion H; subst; left; eauto|].
  unfold bind at 1.
  destruct ((match dict_get_none "command" cfg with
             | JStr _ =>
                 match PyDict.get_default "args" (JArr []) cfg with
                 | JArr l => ret (dict_get_none "command" cfg :: l)
                 | _ => raise (TypeError "can only concatenate list to list")
                 end
             | JArr l => ret l
             | _ => raise (ValueError "'command' must be a string or list")
             end) mgr) as [[command_list|e|] m0] eqn:Hcmd.
  2: { intros H. inversion H; subst. left. exists e. split; [reflexivity|].
       destruct (dict_get_none "command" cfg); try (inversion Hcmd; reflexivity).
       destruct (PyDict.get_default "args" (JArr []) cfg); inversion Hcmd; reflexivity. }
  2: { exfalso.
       destruct (dict_get_none "command" cfg); try discriminate.
       destruct (PyDict.get_default "args" (JArr []) cfg); discriminate. }
  assert (m0 = mgr).
  { destruct (dict_get_none "command" cfg); try (inversion Hcmd; reflexivity).
    destruct (PyDict.get_default "args" (JArr []) cfg); inversion Hcmd; reflexivity. }
  subst m0. clear Hcmd.
  unfold bind at 1. unfold modify at 1.
  set (cfg1 := mkConfig n command_list _ _ _ _).
  set (m1 := set_servers _ mgr).
  assert (Hg1 : PyDict.get n (servers m1) = Some (new_server cfg1))
    by (subst m1; cbn [servers set_servers]; apply get_set_eq).
  unfold bind at 1.
  destruct (truthy (PyDict.get_default "enabled" (JBool true) cfg)) eqn:Hen.
  - destruct (start_registered_spec E n m1 _ Hg1) as (r1 & srv' & Hs & Hnr & Hc & Hst).
    cbn [is_running status new_server] in Hs. rewrite Hs.
    intros H. right. exists n, srv'.
    assert (Hen' : enabled (config srv') = true) by (rewrite Hc; reflexivity).
    rewrite Hen'.
    remember (set_spawns (S (spawns m1))
                (set_servers (PyDict.set n srv' (servers m1)) m1)) as m2 eqn:Hm2.
    assert (Hshape : servers m2 = PyDict.set n srv' (servers mgr)).
    { subst m2 m1. cbn [servers set_servers set_spawns]. apply set_set. }
    assert (Hrc2 : redis_client m2 = redis_client mgr) by (subst m2 m1; reflexivity).
    assert (Hsp2 : spawns m2 = S (spawns mgr)) by (subst m2 m1; reflexivity).
    clear Hm2.
    destruct r1 as [u|e|]; [| exfalso; eapply Hnr; reflexivity |].
    + unfold bind, get_state, ret in H. inversion H; subst r mgr1. clear H.
      split; [exact Hmem|]. split; [exact Hshape|].
      split; [exact Hrc2|]. split; [rewrite Hc; reflexivity|].
      split; [exact Hsp2|]. split; [congruence|]. split; [auto|].
      right. eexists. split; [reflexivity|].
      unfold dict_get_none, PyDict.get_default. cbn [PyDict.get String.eqb Ascii.eqb Bool.eqb].
      rewrite Hshape, get_set_eq. split; reflexivity.
    + inversion H; subst r mgr1. clear H.
      split; [exact Hmem|]. split; [exact Hshape|].
      split; [exact Hrc2|]. split; [rewrite Hc; reflexivity|].
      split; [exact Hsp2|]. split; [congruence|]. split; [auto|]. now left.
  - intros H. unfold bind, get_state, ret in H. rewrite Hg1 in H.
    inversion H; subst r mgr1. clear H.
    right. exists n, (new_server cfg1).
    cbn [config new_server enabled cfg1].
    split; [exact Hmem|]. split; [reflexivity|]. split; [reflexivity|].
    split; [reflexivity|]. split; [reflexivity|]. split; [reflexivity|].
    split; [discriminate|].
    right. eexists. split; [reflexivity|]. split; reflexivity.
Qed.

(** X6.  A rejected [add_server] changes nothing: when it raises, the registry,
    the counters and the store are as before, and the endpoint answers 400
    for a [ValueError] and 500 otherwise, with the same state. *)
Theorem X6_add_server_rejection_changes_nothing
    (E : environment) (c : pydict) (mgr : MCPManager) (tasks : list audit_record) (e : exn) :
  fst (add_server E c mgr) = Raise e ->
  snd (add_server E c mgr) = mgr
  /\ Endpoint.add_server E c (mkApp (Some mgr) tasks)
     = (Raise (HTTPException (if is_value_error e then 400 else 500) (exn_str e)),
        mkApp (Some mgr) tasks).
Proof.
  intros H. destruct (add_server E c mgr) as [r mgr1] eqn:Hadd. cbn [fst snd] in *. subst r.
  assert (Hm : mgr1 = mgr).
  { destruct (add_server_inv _ _ _ _ _ Hadd) as [(e' & _ & Hm)|(n & srv & Hrest)];
      [exact Hm|].
    destruct Hrest as (_ & _ & _ & _ & _ & _ & _ & [Hb|(res & Hr & _)]); discriminate. }
  subst mgr1. split; [reflexivity|].
  unfold Endpoint.add_server, bind, get_state, try_except, with_manager.
  cbn [mcp_manager background_tasks]. rewrite Hadd.
  destruct (is_value_error e); reflexivity.
Qed.

Lemma X6_witness :
  snd (add_server default_env [("name", JStr "beta")] alpha_manager) = alpha_manager
  /\ Endpoint.add_server default_env [("name", JStr "beta")] (mkApp (Some alpha_manager) [])
     = (Raise (HTTPException 400 "Server configuration must include 'command'"),
        mkApp (Some alpha_manager) []).
Proof.
  apply (X6_add_server_rejection_changes_nothing default_env [("name", JStr "beta")]
           alpha_manager [] (ValueError "Server configuration must include 'command'")).
  reflexivity.
Defined.

(** X7.  What a successful [add_server] leaves: the provider is registered under
    the name it reports, which was free; its configuration carries that
    name; the reported status is the provider's; the other providers and the
    store are untouched; one child was spawned when the provider is enabled
    and none when it is not, in which case the provider is [STOPPED] without
    a child. *)
Theorem X7_add_server_registers
    (E : environment) (c : pydict) (mgr mgr1 : MCPManager) (res : pydict) :
  add_server E c mgr = (Ret res, mgr1) ->
  exists n srv,
    dict_get_none "name" res = JStr n
    /\ PyDict.mem n (servers mgr) = false
    /\ PyDict.get n (servers mgr1) = Some srv
    /\ name (config srv) = n
    /\ dict_get_none "status" res = JStr (status_value (status srv))
    /\ (forall k, k <> n -> PyDict.get k (servers mgr1) = PyDict.get k (servers mgr))
    /\ redis_client mgr1 = redis_client mgr
    /\ spawns mgr1 = (if enabled (config srv) then S (spawns mgr) else spawns mgr)
    /\ (enabled (config srv) = false -> status srv = STOPPED /\ proc srv = None)
    /\ (enabled (config srv) = true -> status srv = RUNNING \/ status srv = FAILED).
Proof.
  intros H.
  destruct (add_server_inv _ _ _ _ _ H) as [(e & He & _)|(n & srv & Hrest)]; [discriminate|].
  destruct Hrest as (Hmem & Hsrv & Hrc & Hname & Hsp & Hoff & Hon & [Hb|(res' & Hr & Hn & Hs)]);
    [discriminate|].
  inversion Hr; subst res'. exists n, srv.
  split; [exact Hn|]. split; [exact Hmem|].
  split; [rewrite Hsrv; apply get_set_eq|]. split; [exact Hname|].
  split; [exact Hs|].
  split; [intros k Hk; rewrite Hsrv; now apply get_set_ne|].
  split; [exact Hrc|]. split; [exact Hsp|].
  split; [| exact Hon].
  intros Hf. rewrite (Hoff Hf). split; reflexivity.
Qed.

(** X8.  Removing a provider right after adding it restores the registry. *)
Theorem X8_add_then_remove_restores_registry
    (E : environment) (c : pydict) (mgr mgr1 : MCPManager) (res : pydict) :
  add_server E c mgr = (Ret res, mgr1) ->
  exists n mgr2,
    dict_get_none "name" res = JStr n
    /\ remove_server n mgr1 = (Ret tt, mgr2)
    /\ servers mgr2 = servers mgr
    /\ redis_client mgr2 = redis_client mgr.
Proof.
  intros H.
  destruct (add_server_inv _ _ _ _ _ H) as [(e & He & _)|(n & srv & Hrest)]; [discriminate|].
  destruct Hrest as (Hmem & Hsrv & Hrc & _ & _ & _ & _ & [Hb|(res' & Hr & Hn & _)]);
    [discriminate|].
  inversion Hr; subst res'. exists n.
  assert (Hg : PyDict.get n (servers mgr1) = Some srv) by (rewrite Hsrv; apply get_set_eq).
  unfold remove_server. rewrite Hg. unfold bind, modify.
  destruct (is_running (status srv)).
  - unfold on_server. rewrite Hg.
    destruct (stop_spec srv) as (s' & Hs & _). rewrite Hs.
    eexists. split; [exact Hn|]. split; [reflexivity|].
    cbn [servers set_servers redis_client]. rewrite Hsrv, set_set.
    split; [now apply del_set_fresh | exact Hrc].
  - eexists. split; [exact Hn|]. split; [reflexivity|].
    cbn [servers set_servers redis_client ret]. rewrite Hsrv.
    split; [now apply del_set_fresh | exact Hrc].
Qed.

(** ** The enabled flag *)

Lemma set_enabled_same (s : MCPServer) (b : bool) :
  enabled (config s) = b -> set_config (set_enabled b (config s)) s = s.
Proof. destruct s as [[] ? ? ?]. cbn. intros <-. reflexivity. Qed.

Lemma assign_enabled_same (i : string) (b : bool) (mgr : MCPManager) (s : MCPServer) :
  PyDict.get i (servers mgr) = Some s -> enabled (config s) = b ->
  assign_enabled i b mgr = mgr.
Proof.
  intros Hg He. unfold assign_enabled. rewrite Hg, (set_enabled_same s b He).
  rewrite (set_same _ _ _ Hg). apply set_servers_same.
Qed.


Lemma save_enabled_state_saved (i : string) (b : bool) (mgr : MCPManager) :
  exists x, _save_enabled_state_to_redis i b mgr = (Ret x, saved i b mgr).
Proof.
  unfold _save_enabled_state_to_redis, saved, redis_set.
  destruct (redis_client mgr) as [r|]; [|eauto].
  destruct (reachable r) eqn:Hr; eauto.
Qed.

Lemma saved_servers (i : string) (b : bool) (mgr : MCPManager) :
  servers (saved i b mgr) = servers mgr.
Proof.
  unfold saved. destruct (redis_client mgr) as [r|]; [|reflexivity].
  destruct (reachable r); reflexivity.
Qed.

Lemma saved_saved (i : string) (b : bool) (mgr : MCPManager) :
  saved i b (saved i b mgr) = saved i b mgr.
Proof.
  unfold saved. destruct (redis_client mgr) as [r|] eqn:Hrc; [| rewrite Hrc; reflexivity].
  destruct (reachable r) eqn:Hr.
  - cbn [redis_client set_redis reachable store]. rewrite insert_insert_eq.
    destruct mgr; reflexivity.
  - rewrite Hrc, Hr. reflexivity.
Qed.

(** The state in which [set_server_enabled] leaves the manager. *)
Lemma set_server_enabled_state (E : environment) (i : string) (b : bool)
    (mgr : MCPManager) (srv : MCPServer) :
  PyDict.get i (servers mgr) = Some srv ->
  snd (set_server_enabled E i b mgr)
  = if b && negb (is_running (status srv))
    then snd (start_registered E i (saved i b (assign_enabled i b mgr)))
    else if negb b && is_running (status srv)
    then snd (on_server i stop (saved i b (assign_enabled i b mgr)))
    else saved i b (assign_enabled i b mgr).
Proof.
  intros Hg. unfold set_server_enabled. rewrite Hg.
  unfold bind at 1. unfold modify at 1. unfold bind at 1.
  destruct (save_enabled_state_saved i b (assign_enabled i b mgr)) as (x & Hsave).
  rewrite Hsave. unfold bind at 1.
  destruct (b && negb (is_running (status srv))).
  - unfold bind at 1.
    destruct (start_registered E i _) as [[u|e|] m2]; reflexivity.
  - destruct (negb b && is_running (status srv)).
    + unfold bind at 1.
      destruct (on_server i stop _) as [[u|e|] m2]; reflexivity.
    + reflexivity.
Qed.

(** X9.  [set_server_enabled] twice with the same flag leaves the state of one
    call: always when disabling, and when enabling provided the provider is
    [RUNNING] after the first call (a start that failed is tried again). *)
Theorem X9_set_server_enabled_twice (E : environment) (i : string) (b : bool)
    (mgr : MCPManager) :
  (b = true ->
   forall s, PyDict.get i (servers (snd (set_server_enabled E i b mgr))) = Some s ->
             status s = RUNNING) ->
  snd (set_server_enabled E i b (snd (set_server_enabled E i b mgr)))
  = snd (set_server_enabled E i b mgr).
Proof.
  intros Hrun.
  destruct (PyDict.get i (servers mgr)) as [srv|] eqn:Hg.
  2: { unfold set_server_enabled at 2 3. rewrite Hg. cbn [snd].
       unfold set_server_enabled. rewrite Hg. reflexivity. }
  set (srv1 := set_config (set_enabled b (config srv)) srv).
  set (m1 := saved i b (assign_enabled i b mgr)).
  assert (Hg1 : PyDict.get i (servers m1) = Some srv1).
  { subst m1. rewrite saved_servers, assign_enabled_get, String.eqb_refl, Hg. reflexivity. }
  assert (Hfix : forall m2 s2,
             PyDict.get i (servers m2) = Some s2 ->
             enabled (config s2) = b ->
             saved i b m2 = m2 ->
             (if b then status s2 = RUNNING
              else is_running (status s2) = true -> stop s2 = (Ret tt, s2)) ->
             snd (set_server_enabled E i b m2) = m2).
  { intros m2 s2 Hg2 He2 Hs2 Hst2.
    rewrite (set_server_enabled_state E i b m2 s2 Hg2).
    rewrite (assign_enabled_same i b m2 s2 Hg2 He2), Hs2.
    destruct b; cbn [andb negb].
    - rewrite Hst2. reflexivity.
    - destruct (is_running (status s2)); [|reflexivity].
      unfold on_server. rewrite Hg2, (Hst2 eq_refl). cbn [snd].
      rewrite (set_same _ _ _ Hg2). apply set_servers_same. }
  assert (Hsaved1 : saved i b m1 = m1) by (subst m1; apply saved_saved).
  pose proof (set_server_enabled_state E i b mgr srv Hg) as Hstate.
  fold m1 in Hstate.
  destruct b; cbn [andb negb] in Hstate.
  - (* enabling *)
    specialize (Hrun eq_refl).
    destruct (is_running (status srv)) eqn:Hr; cbn [negb] in Hstate.
    + rewrite Hstate. apply (Hfix m1 srv1 Hg1); [reflexivity | exact Hsaved1 |].
      destruct (status srv) eqn:Hst; simpl in Hr; try discriminate. exact Hst.
    + destruct (start_registered_spec E i m1 srv1 Hg1) as (r1 & srv' & Hs & _ & Hc & _).
      unfold srv1 in Hs at 1. cbn [status set_config] in Hs. rewrite Hr in Hs.
      rewrite Hs in Hstate. cbn [snd] in Hstate.
      rewrite Hstate in Hrun |- *.
      apply (Hfix _ srv').
      * cbn [servers set_spawns set_servers]. apply get_set_eq.
      * rewrite Hc. reflexivity.
      * unfold saved in Hsaved1 |- *. cbn [redis_client set_spawns set_servers].
        destruct (redis_client m1) as [r|] eqn:Hrc; [|reflexivity].
        destruct (reachable r); [|reflexivity].
        destruct m1 as [sv rc sp uu]. cbn in Hrc. subst rc.
        cbn in Hsaved1 |- *. inversion Hsaved1 as [Heq]. rewrite !Heq. reflexivity.
      * apply Hrun. cbn [servers set_spawns set_servers]. apply get_set_eq.
  - (* disabling *)
    clear Hrun.
    destruct (is_running (status srv)) eqn:Hr.
    + rewrite Hstate. unfold on_server. rewrite Hg1.
      destruct (stop srv1) as [r2 s2] eqn:Hstop. cbn [snd].
      assert (Hs2 : s2 = snd (stop srv1)) by (rewrite Hstop; reflexivity).
      apply (Hfix _ s2).
      * cbn [servers set_servers]. apply get_set_eq.
      * destruct (stop_spec srv1) as (s' & Hs' & Hc & _). rewrite Hs' in Hs2.
        cbn in Hs2. subst s2. rewrite Hc. reflexivity.
      * unfold saved in Hsaved1 |- *. cbn [redis_client set_servers].
        destruct (redis_client m1) as [r|] eqn:Hrc; [|reflexivity].
        destruct (reachable r); [|reflexivity].
        destruct m1 as [sv rc sp uu]. cbn in Hrc. subst rc.
        cbn in Hsaved1 |- *. inversion Hsaved1 as [Heq]. rewrite !Heq. reflexivity.
      * intros _. subst s2. apply stop_idempotent.
    + rewrite Hstate. apply (Hfix m1 srv1 Hg1); [reflexivity | exact Hsaved1 |].
      cbn [status srv1 set_config]. rewrite Hr. discriminate.
Qed.

Lemma X9_witness :
  snd (set_server_enabled default_env "alpha" true
         (snd (set_server_enabled default_env "alpha" true disabled_manager)))
  = snd (set_server_enabled default_env "alpha" true disabled_manager).
Proof.
  apply (X9_set_server_enabled_twice default_env "alpha" true disabled_manager).
  intros _ s H. vm_compute in H. inversion H. reflexivity.
Defined.

(** Every provider of the built-in registry is enabled and registered under
    the name of its configuration. *)
Lemma initialize_servers_defaults (E : environment) (k : string) (s : MCPServer) :
  PyDict.get k (initialize_servers E) = Some s ->
  enabled (config s) = true /\ name (config s) = k.
Proof.
  intros H. apply get_In in H. unfold initialize_servers in H.
  apply in_map_iff in H. destruct H as ([b e] & Heq & Hin). simpl in Heq. subst e.
  apply filter_In in Hin. destruct Hin as [Hin _].
  assert (Hall : Forall (fun e : bool * (string * MCPServer) =>
                           enabled (config (snd (snd e))) = true
                           /\ name (config (snd (snd e))) = fst (snd e))
                   (builtin_table E)).
  { unfold builtin_table. repeat constructor. }
  rewrite List.Forall_forall in Hall. exact (Hall _ Hin).
Qed.

(** What the loop of [_load_enabled_states_from_redis] makes of the
    provider [p] when the store answers. *)
Lemma load_enabled_states_get (r : redis) (p : string) (names : list string) :
  reachable r = true ->
  forall mgr,
    PyDict.get p (servers (load_enabled_states r names mgr))
    = match store r !! (REDIS_MCP_ENABLED_PREFIX ++ p) with
      | Some v =>
          if existsb (String.eqb p) names
          then option_map
                 (fun s => set_config (set_enabled (String.eqb (lower v) "true") (config s)) s)
                 (PyDict.get p (servers mgr))
          else PyDict.get p (servers mgr)
      | None => PyDict.get p (servers mgr)
      end.
Proof.
  intros Hr. induction names as [|q names IH]; intros mgr.
  - cbn. destruct (store r !! _); reflexivity.
  - cbn [load_enabled_states existsb]. unfold redis_get. rewrite Hr.
    destruct (String.eqb p q) eqn:Hpq; cbn [orb].
    + apply String.eqb_eq in Hpq. subst q.
      destruct (store r !! (REDIS_MCP_ENABLED_PREFIX ++ p)) as [v|] eqn:Hv.
      * rewrite IH, assign_enabled_get, String.eqb_refl.
        destruct (PyDict.get p (servers mgr)) as [s|]; cbn [option_map];
          [| destruct (existsb _ names); reflexivity].
        destruct (existsb _ names); reflexivity.
      * rewrite IH. reflexivity.
    + destruct (store r !! (REDIS_MCP_ENABLED_PREFIX ++ q)) as [w|].
      * rewrite IH, assign_enabled_get, Hpq. reflexivity.
      * rewrite IH. reflexivity.
Qed.

Lemma lower_bool_text (b : bool) : String.eqb (lower (bool_text b)) "true" = b.
Proof. destruct b; reflexivity. Qed.

(** The registry of a new manager is the built-in one after the loop of
    [_load_enabled_states_from_redis]. *)
Lemma new_manager_servers (E : environment) (r0 : redis) (spawns uuids : nat) :
  servers (new_manager E (Some r0) spawns uuids)
  = servers (load_enabled_states r0 (PyDict.keys (initialize_servers E))
               (mkManager (initialize_servers E) (Some r0) spawns uuids)).
Proof. reflexivity. Qed.

Lemma servers_mkManager d (rc : option redis) (spawns uuids : nat) :
  servers (mkManager d rc spawns uuids) = d.
Proof. reflexivity. Qed.

Lemma loaded_get (r0 : redis) d (spawns uuids : nat) (p : string) (s : MCPServer) :
  reachable r0 = true ->
  PyDict.get p (servers (load_enabled_states r0 (PyDict.keys d)
                           (mkManager d (Some r0) spawns uuids))) = Some s ->
  exists s0,
    PyDict.get p d = Some s0
    /\ s = match store r0 !! (REDIS_MCP_ENABLED_PREFIX ++ p) with
           | Some v => set_config (set_enabled (String.eqb (lower v) "true") (config s0)) s0
           | None => s0
           end.
Proof.
  intros Hr0 Hs.
  rewrite (load_enabled_states_get r0 p _ Hr0), servers_mkManager in Hs.
  destruct (PyDict.get p d) as [s0|] eqn:H0.
  2: { destruct (store r0 !! _); [destruct (existsb _ _)|]; discriminate. }
  assert (Hin : existsb (String.eqb p) (PyDict.keys d) = true).
  { apply existsb_exists. exists p. split; [| apply String.eqb_refl].
    apply mem_keys, mem_get. eauto. }
  rewrite Hin in Hs. exists s0. split; [reflexivity|].
  destruct (store r0 !! (REDIS_MCP_ENABLED_PREFIX ++ p)) as [v|];
    injection Hs as Hs; now rewrite <- Hs.
Qed.

Lemma new_manager_get (E : environment) (r0 : redis) (spawns uuids : nat)
    (p : string) (s : MCPServer) :
  reachable r0 = true ->
  PyDict.get p (servers (new_manager E (Some r0) spawns uuids)) = Some s ->
  enabled (config s)
  = match store r0 !! (REDIS_MCP_ENABLED_PREFIX ++ p) with
    | Some v => String.eqb (lower v) "true"
    | None => true
    end
  /\ status s = STOPPED /\ proc s = None.
Proof.
  intros Hr0 Hs. rewrite new_manager_servers in Hs.
  destruct (loaded_get r0 _ spawns uuids p s Hr0 Hs) as (s0 & H0 & Heq).
  destruct (initialize_servers_defaults E p s0 H0) as [Hen _].
  destruct (initialize_servers_fresh E p s0 H0) as [Hst Hp].
  rewrite Heq. destruct (store r0 !! (REDIS_MCP_ENABLED_PREFIX ++ p)) as [v|]; [| auto].
  destruct s0 as [c pr st le]. unfold set_config, set_enabled.
  cbn [config enabled status proc] in *. auto.
Qed.

(** X10.  How the stored flag is read at start-up.  With the store reachable, a
    provider of the new manager is the built-in one, [STOPPED] and without
    a child, with its flag set from the text stored under
    [mcp:server:enabled:<name>]: on exactly when that text is [true] in any
    letter case, and the build-time default, on, when nothing is stored.
    So the flag written by [set_server_enabled], on or off, is the flag the
    next process starts with. *)
Theorem X10_stored_flag_overrides_default
    (E : environment) (r : redis) (spawns uuids : nat) (p : string) (srv : MCPServer) :
  reachable r = true ->
  PyDict.get p (servers (new_manager E (Some r) spawns uuids)) = Some srv ->
  enabled (config srv)
  = match store r !! (REDIS_MCP_ENABLED_PREFIX ++ p) with
    | Some v => String.eqb (lower v) "true"
    | None => true
    end
  /\ status srv = STOPPED /\ proc srv = None
  /\ (forall (E0 : environment) (mgr0 : MCPManager) (b : bool),
        PyDict.mem p (servers mgr0) = true ->
        redis_client mgr0 = Some r ->
        forall srv',
          PyDict.get p
            (servers (new_manager E
                        (redis_client (snd (set_server_enabled E0 p b mgr0))) spawns uuids))
          = Some srv' ->
          enabled (config srv') = b).
Proof.
  intros Hr Hg.
  pose proof (new_manager_get E) as Hnew.
  destruct (Hnew r spawns uuids p srv Hr Hg) as (H1 & H2 & H3).
  split; [exact H1|]. split; [exact H2|]. split; [exact H3|].
  intros E0 mgr0 b Hmem Hrc srv' Hg'.
  apply mem_get in Hmem. destruct Hmem as (s0 & Hs0).
  assert (Hrc' : redis_client (snd (set_server_enabled E0 p b mgr0))
                 = Some (mkRedis (<[REDIS_MCP_ENABLED_PREFIX ++ p := bool_text b]> (store r))
                           true)).
  { rewrite (set_server_enabled_state E0 p b mgr0 s0 Hs0).
    assert (Hsv : redis_client (saved p b (assign_enabled p b mgr0))
                  = Some (mkRedis (<[REDIS_MCP_ENABLED_PREFIX ++ p := bool_text b]> (store r))
                            true)).
    { unfold saved. rewrite assign_enabled_redis, Hrc, Hr. reflexivity. }
    destruct (b && negb (is_running (status s0))).
    - unfold start_registered.
      destruct (PyDict.get p (servers (saved p b (assign_enabled p b mgr0)))) as [s1|];
        [| exact Hsv].
      destruct (is_running (status s1)); [exact Hsv|].
      destruct (start _ s1). exact Hsv.
    - destruct (negb b && is_running (status s0)); [| exact Hsv].
      unfold on_server.
      destruct (PyDict.get p (servers (saved p b (assign_enabled p b mgr0)))) as [s1|];
        [| exact Hsv].
      destruct (stop s1). exact Hsv. }
  rewrite Hrc' in Hg'.
  destruct (Hnew (mkRedis (<[REDIS_MCP_ENABLED_PREFIX ++ p := bool_text b]> (store r)) true)
              spawns uuids p srv' eq_refl Hg') as (He & _).
  cbn [store] in He. rewrite lookup_insert_eq in He.
  rewrite He. apply lower_bool_text.
Qed.

Lemma X10_witness :
  enabled (config web_after_restart)
  = match store yes_store !! (REDIS_MCP_ENABLED_PREFIX ++ "awp_web") with
    | Some v => String.eqb (lower v) "true"
    | None => true
    end
  /\ enabled (config web_after_restart) = false.
Proof.
  split.
  - refine (proj1 (X10_stored_flag_overrides_default default_env yes_store 0 0 "awp_web"
                     web_after_restart _ _)).
    + reflexivity.
    + vm_compute. reflexivity.
  - vm_compute. reflexivity.
Defined.

Lemma X7_witness :
  exists n srv,
    dict_get_none "name" beta_reply = JStr n
    /\ PyDict.mem n (servers alpha_manager) = false
    /\ PyDict.get n (servers beta_added) = Some srv
    /\ name (config srv) = n
    /\ dict_get_none "status" beta_reply = JStr (status_value (status srv))
    /\ (forall k, k <> n ->
                  PyDict.get k (servers beta_added) = PyDict.get k (servers alpha_manager))
    /\ redis_client beta_added = redis_client alpha_manager
    /\ spawns beta_added
       = (if enabled (config srv) then S (spawns alpha_manager) else spawns alpha_manager)
    /\ (enabled (config srv) = false -> status srv = STOPPED /\ proc srv = None)
    /\ (enabled (config srv) = true -> status srv = RUNNING \/ status srv = FAILED).
Proof.
  apply (X7_add_server_registers default_env (flat_config "beta" (Some false))
           alpha_manager beta_added beta_reply).
  reflexivity.
Defined.

Lemma X8_witness :
  exists n mgr2,
    dict_get_none "name" beta_reply = JStr n
    /\ remove_server n beta_added = (Ret tt, mgr2)
    /\ servers mgr2 = servers alpha_manager
    /\ redis_client mgr2 = redis_client alpha_manager.
Proof.
  apply (X8_add_then_remove_restores_registry default_env (flat_config "beta" (Some false))
           alpha_manager beta_added beta_reply).
  reflexivity.
Defined.

(** ** Starting every enabled provider *)

Lemma NoDup_keys_get {V} (d : list (string * V)) :
  List.NoDup (PyDict.keys d) ->
  forall k v, In (k, v) d -> PyDict.get k d = Some v.
Proof. intros Hnd k v. now apply NoDup_In_get. Qed.

Lemma in_keys {V} (k : string) (v : V) (d : list (string * V)) :
  In (k, v) d -> In k (PyDict.keys d).
Proof. intros H. unfold PyDict.keys. apply in_map_iff. exists (k, v). auto. Qed.

(** The body of the loop of [start_all]. *)
Lemma start_all_loop (E : environment) :
  forall (entries : list (string * MCPServer)) (m : MCPManager),
    List.NoDup (PyDict.keys entries) ->
    (forall k srv, In (k, srv) entries -> PyDict.get k (servers m) = Some srv) ->
    forall r m',
      for_each (PyDict.keys entries)
        (fun key mgr' =>
           match PyDict.get key (servers mgr') with
           | Some srv =>
               if enabled (config srv) then start_registered E key mgr'
               else (Ret tt, mgr')
           | None => (Ret tt, mgr')
           end) m = (r, m') ->
      (forall e, r <> Raise e)
      /\ (forall k, ~ In k (PyDict.keys entries) ->
                    PyDict.get k (servers m') = PyDict.get k (servers m))
      /\ PyDict.keys (servers m') = PyDict.keys (servers m)
      /\ redis_client m' = redis_client m
      /\ (r = Ret tt ->
          spawns m' = (spawns m + length (List.filter (fun e => to_start (snd e)) entries))%nat
          /\ forall k srv, In (k, srv) entries ->
               exists srv',
                 PyDict.get k (servers m') = Some srv'
                 /\ config srv' = config srv
                 /\ if enabled (config srv)
                    then status srv' = RUNNING \/ status srv' = FAILED
                    else srv' = srv).
Proof.
  induction entries as [|[k0 s0] rest IH]; intros m Hnd Hin r m' H.
  - cbn in H. inversion H; subst. split; [intros e; discriminate|].
    split; [auto|]. split; [reflexivity|]. split; [reflexivity|].
    intros _. split; [cbn; lia|]. intros k srv [].
  - cbn [PyDict.keys map fst] in Hnd. apply List.NoDup_cons_iff in Hnd.
    destruct Hnd as [Hni Hnd].
    cbn [PyDict.keys map fst for_each] in H. unfold bind at 1 in H.
    pose proof (Hin k0 s0 (or_introl eq_refl)) as Hg0. rewrite Hg0 in H.
    (* the state after the first provider *)
    assert (Hfirst : exists r1 m1 s1,
               (if enabled (config s0) then start_registered E k0 m else (Ret tt, m)) = (r1, m1)
               /\ (forall e, r1 <> Raise e)
               /\ PyDict.get k0 (servers m1) = Some s1
               /\ (forall k, k <> k0 -> PyDict.get k (servers m1) = PyDict.get k (servers m))
               /\ PyDict.keys (servers m1) = PyDict.keys (servers m)
               /\ redis_client m1 = redis_client m
               /\ spawns m1 = (if to_start s0 then S (spawns m) else spawns m)
               /\ config s1 = config s0
               /\ (if enabled (config s0)
                   then status s1 = RUNNING \/ status s1 = FAILED
                   else s1 = s0)).
    { unfold to_start. destruct (enabled (config s0)) eqn:Hen; cbn [andb].
      - destruct (start_registered_spec E k0 m s0 Hg0) as (r1 & srv' & Hs & Hnr & Hc & Hst).
        rewrite Hs. destruct (is_running (status s0)) eqn:Hrun; cbn [negb].
        + exists r1, m, s0. repeat split; auto.
          left. destruct (status s0); simpl in Hrun; congruence.
        + exists r1, (set_spawns (S (spawns m))
                        (set_servers (PyDict.set k0 srv' (servers m)) m)), srv'.
          cbn [servers set_servers set_spawns redis_client spawns].
          split; [reflexivity|]. split; [exact Hnr|]. split; [apply get_set_eq|].
          split; [intros k Hk; now apply get_set_ne|].
          split; [apply keys_set_mem, mem_get; eauto|]. auto.
      - exists (Ret tt), m, s0. repeat split; auto. }
    destruct Hfirst as (r1 & m1 & s1 & H1 & Hnr1 & Hg1 & Hother & Hkeys & Hrc & Hsp & Hc1 & Hst1).
    rewrite H1 in H.
    destruct r1 as [u|e|]; [| exfalso; eapply Hnr1; reflexivity |].
    + assert (Hin1 : forall k srv, In (k, srv) rest -> PyDict.get k (servers m1) = Some srv).
      { intros k srv Hk. rewrite Hother; [apply Hin; now right|].
        intros ->. apply Hni. eapply in_keys; eauto. }
      destruct (IH m1 Hnd Hin1 r m' H) as (Hr & Hout & Hk & Hrc' & Hret).
      split; [exact Hr|].
      split.
      { intros k Hk0. cbn [PyDict.keys map fst In] in Hk0.
        rewrite Hout by tauto. apply Hother. intros ->. tauto. }
      split; [congruence|]. split; [congruence|].
      intros Hrt. destruct (Hret Hrt) as [Hcount Hall]. split.
      * rewrite Hcount, Hsp. cbn [List.filter snd].
        destruct (to_start s0); cbn [length]; lia.
      * intros k srv [Heq|Hkin].
        -- inversion Heq; subst k srv. exists s1.
           rewrite Hout by exact Hni. auto.
        -- apply Hall. exact Hkin.
    + inversion H; subst r m'.
      split; [intros e; discriminate|].
      split.
      { intros k Hk0. cbn [PyDict.keys map fst In] in Hk0.
        apply Hother. intros ->. tauto. }
      split; [exact Hkeys|]. split; [exact Hrc|]. intros Hd. discriminate.
Qed.

(** X11.  [start_all] never raises and keeps the registry keys and the store.
    When it returns, it has spawned one child for each provider that was
    enabled and not [RUNNING]; every enabled provider is then [RUNNING] or
    [FAILED], every disabled one is exactly as before, and every
    configuration is kept. *)
Theorem X11_start_all_starts_enabled_providers
    (E : environment) (mgr : MCPManager) (r : outcome unit) (mgr' : MCPManager) :
  List.NoDup (PyDict.keys (servers mgr)) ->
  start_all E mgr = (r, mgr') ->
  (forall e, r <> Raise e)
  /\ PyDict.keys (servers mgr') = PyDict.keys (servers mgr)
  /\ redis_client mgr' = redis_client mgr
  /\ (r = Ret tt ->
      spawns mgr'
      = (spawns mgr + length (List.filter (fun e => to_start (snd e)) (servers mgr)))%nat
      /\ forall k srv, PyDict.get k (servers mgr) = Some srv ->
           exists srv',
             PyDict.get k (servers mgr') = Some srv'
             /\ config srv' = config srv
             /\ if enabled (config srv)
                then status srv' = RUNNING \/ status srv' = FAILED
                else srv' = srv).
Proof.
  intros Hnd H. unfold start_all in H.
  destruct (start_all_loop E (servers mgr) mgr Hnd (NoDup_keys_get _ Hnd) r mgr' H)
    as (Hr & _ & Hk & Hrc & Hret).
  split; [exact Hr|]. split; [exact Hk|]. split; [exact Hrc|].
  intros Hrt. destruct (Hret Hrt) as [Hc Hall]. split; [exact Hc|].
  intros k srv Hg. apply Hall. now apply get_In.
Qed.

Lemma X11_witness :
  (forall e, Ret tt <> @Raise unit e)
  /\ PyDict.keys (servers (snd (start_all default_env mixed_manager)))
     = PyDict.keys (servers mixed_manager)
  /\ redis_client (snd (start_all default_env mixed_manager)) = redis_client mixed_manager
  /\ (Ret tt = Ret tt ->
      spawns (snd (start_all default_env mixed_manager))
      = (spawns mixed_manager
         + length (List.filter (fun e => to_start (snd e)) (servers mixed_manager)))%nat
      /\ forall k srv, PyDict.get k (servers mixed_manager) = Some srv ->
           exists srv',
             PyDict.get k (servers (snd (start_all default_env mixed_manager))) = Some srv'
             /\ config srv' = config srv
             /\ if enabled (config srv)
                then status srv' = RUNNING \/ status srv' = FAILED
                else srv' = srv).
Proof.
  apply (X11_start_all_starts_enabled_providers default_env mixed_manager (Ret tt)
           (snd (start_all default_env mixed_manager))).
  - cbn. constructor; [| constructor; [| constructor]].
    + intros [H|[]]. discriminate.
    + intros [].
  - vm_compute. reflexivity.
Defined.

(** ** The aggregated catalog *)

(** A property of the manager that [fresh_uuid] and every request sent to
    the provider [n] keep is kept by the catalog query of [n]. *)
Lemma list_tools_of_preserves (E : environment) (n : string) (Q : MCPManager -> Prop) :
  preserves Q (fresh_uuid E) ->
  (forall q, preserves Q (on_server n (send_request q))) ->
  preserves Q (list_tools_of E n).
Proof.
  intros Hu Hsend.
  unfold list_tools_of. apply preserves_try_except; [| intros; apply preserves_ret].
  apply preserves_bind; [exact Hu|]. intros u.
  apply preserves_bind; [apply Hsend|]. intros response.
  apply preserves_bind.
  - destruct (PyDict.get "error" response) as [[| | | | |err]|];
      try apply preserves_raise; try apply preserves_ret.
    destruct (py_eq _ _); [| apply preserves_ret].
    apply preserves_bind; [exact Hu|]. intros u'. apply Hsend.
  - intros response'.
    destruct (PyDict.get "result" response') as [[| | |s|l|res]|];
      try apply preserves_raise; try apply preserves_ret.
    + destruct (contains s "tools"); [apply preserves_raise | apply preserves_ret].
    + destruct (py_in_list _ l); [apply preserves_raise | apply preserves_ret].
    + destruct (PyDict.get "tools" res) as [tools|]; [| apply preserves_ret].
      destruct (sized tools); [apply preserves_ret | apply preserves_raise].
Qed.

Lemma on_server_other {A} (key k : string) (m : M MCPServer A) (mgr : MCPManager) r mgr' :
  on_server key m mgr = (r, mgr') -> k <> key ->
  PyDict.get k (servers mgr') = PyDict.get k (servers mgr).
Proof.
  unfold on_server. intros H Hne.
  destruct (PyDict.get key (servers mgr)) as [srv|]; [| inversion H; now subst].
  destruct (m srv) as [r0 srv']. inversion H; subst. cbn [servers set_servers].
  now apply get_set_ne.
Qed.

(** The catalog query of [n] never raises and touches no other provider. *)
Lemma list_tools_of_frame (E : environment) (n : string) (m : MCPManager) r m' :
  list_tools_of E n m = (r, m') ->
  (forall e, r <> Raise e)
  /\ forall k, k <> n -> PyDict.get k (servers m') = PyDict.get k (servers m).
Proof.
  intros H. split.
  - intros e He. subst r. unfold list_tools_of, try_except in H.
    match type of H with
    | match ?c m with _ => _ end = _ => destruct (c m) as [[a|e0|] s1]
    end; discriminate.
  - intros k Hk.
    refine (list_tools_of_preserves E n
              (fun x => PyDict.get k (servers x) = PyDict.get k (servers m))
              _ _ m r m' H eq_refl).
    + intros s r0 s' H0 HQ. inversion H0; subst. exact HQ.
    + intros q s r0 s' H0 HQ. rewrite <- HQ. eapply on_server_other; eauto.
Qed.

Lemma keys_set_fresh {V} (k : string) (v : V) (d : list (string * V)) :
  ~ In k (PyDict.keys d) -> PyDict.keys (PyDict.set k v d) = (PyDict.keys d ++ [k])%list.
Proof.
  unfold PyDict.keys. induction d as [|[k' v'] d IH]; simpl; [reflexivity|].
  intros Hni. destruct (String.eqb k k') eqn:Hk.
  - apply String.eqb_eq in Hk. subst. tauto.
  - simpl. rewrite IH by tauto. reflexivity.
Qed.

Lemma list_all_tools_unfold (E : environment) (mgr : MCPManager) :
  list_all_tools E mgr = list_all_tools_from E (PyDict.keys (servers mgr)) [] mgr.
Proof. reflexivity. Qed.

Lemma list_all_tools_from_keys (E : environment) :
  forall (entries : list (string * MCPServer)) (acc : pydict) (m : MCPManager),
    List.NoDup (PyDict.keys entries) ->
    (forall k srv, In (k, srv) entries -> PyDict.get k (servers m) = Some srv) ->
    (forall k, In k (PyDict.keys entries) -> ~ In k (PyDict.keys acc)) ->
    (forall e, fst (list_all_tools_from E (PyDict.keys entries) acc m) <> Raise e)
    /\ forall all_tools,
         fst (list_all_tools_from E (PyDict.keys entries) acc m) = Ret all_tools ->
         PyDict.keys all_tools
         = (PyDict.keys acc
            ++ PyDict.keys
                 (List.filter (fun e => is_running (status (snd e))) entries))%list.
Proof.
  induction entries as [|[k0 s0] rest IH]; intros acc m Hn Hin Hacc.
  - cbn. split; [intros e; discriminate|].
    intros all_tools H. inversion H; subst. now rewrite app_nil_r.
  - cbn [PyDict.keys map fst] in Hn. apply List.NoDup_cons_iff in Hn.
    destruct Hn as [Hni Hn].
    cbn [PyDict.keys map fst list_all_tools_from].
    unfold bind at 1 3. unfold get_state at 1 2.
    rewrite (Hin k0 s0 (or_introl eq_refl)).
    assert (Hin' : forall m1,
               (forall k, k <> k0 -> PyDict.get k (servers m1) = PyDict.get k (servers m)) ->
               forall k srv, In (k, srv) rest -> PyDict.get k (servers m1) = Some srv).
    { intros m1 Hother k srv Hk. rewrite Hother; [apply Hin; now right|].
      intros ->. apply Hni. eapply in_keys; eauto. }
    cbn [List.filter snd].
    destruct (is_running (status s0)) eqn:Hrun.
    + unfold bind at 1 2.
      destruct (list_tools_of E k0 m) as [r1 m1] eqn:Hl.
      destruct (list_tools_of_frame E k0 m r1 m1 Hl) as [Hnr Hother].
      destruct r1 as [tools|e|]; [| exfalso; eapply Hnr; reflexivity |].
      * assert (Hk0 : ~ In k0 (PyDict.keys acc))
          by (apply Hacc; now left).
        destruct (IH (PyDict.set k0 tools acc) m1 Hn (Hin' m1 Hother)) as [Hr Hkeys].
        { intros k Hk Hin2. rewrite keys_set_fresh in Hin2 by assumption.
          apply in_app_or in Hin2. destruct Hin2 as [Hin2|[->|[]]].
          - apply (Hacc k); [now right | exact Hin2].
          - contradiction. }
        split; [exact Hr|].
        intros all_tools H. rewrite (Hkeys all_tools H).
        rewrite keys_set_fresh by assumption.
        cbn [PyDict.keys map fst]. now rewrite <- app_assoc.
      * cbn [fst]. split; [intros e; discriminate|]. intros ? H; discriminate.
    + apply IH; [exact Hn | apply Hin'; auto |].
      intros k Hk. apply Hacc. now right.
Qed.

(** X12.  [list_all_tools] never raises, and the catalog it returns has one
    entry for each provider that was [RUNNING] when the call began, in
    registry order, and for no other. *)
Theorem X12_list_all_tools_lists_running_providers (E : environment) (mgr : MCPManager) :
  List.NoDup (PyDict.keys (servers mgr)) ->
  (forall e, fst (list_all_tools E mgr) <> Raise e)
  /\ forall all_tools,
       fst (list_all_tools E mgr) = Ret all_tools ->
       PyDict.keys all_tools
       = PyDict.keys (List.filter (fun e => is_running (status (snd e))) (servers mgr)).
Proof.
  intros Hnd. rewrite list_all_tools_unfold.
  destruct (list_all_tools_from_keys E (servers mgr) [] mgr Hnd (NoDup_keys_get _ Hnd))
    as [Hr Hk].
  { intros k _ []. }
  split; [exact Hr|]. intros all_tools H. exact (Hk all_tools H).
Qed.

Lemma X12_witness :
  (forall e, fst (list_all_tools default_env catalog_manager) <> Raise e)
  /\ forall all_tools,
       fst (list_all_tools default_env catalog_manager) = Ret all_tools ->
       PyDict.keys all_tools
       = PyDict.keys (List.filter (fun e => is_running (status (snd e)))
                        (servers catalog_manager)).
Proof.
  apply (X12_list_all_tools_lists_running_providers default_env catalog_manager).
  cbn. constructor; [| constructor; [| constructor]].
  - intros [H|[]]. discriminate.
  - intros [].
Defined.

(** ** What the operations of the manager do to the registry *)

Lemma same_configs_refl (mgr : MCPManager) : same_configs mgr mgr.
Proof. split; [reflexivity|]. intros k. destruct (PyDict.get k (servers mgr)); auto. Qed.

Lemma same_configs_trans (a b c : MCPManager) :
  same_configs a b -> same_configs b c -> same_configs a c.
Proof.
  intros [Hk1 Hab] [Hk2 Hbc]. split; [congruence|].
  intros k. specialize (Hab k). specialize (Hbc k).
  destruct (PyDict.get k (servers a)), (PyDict.get k (servers b)),
    (PyDict.get k (servers c)); try tauto. congruence.
Qed.

Lemma keeps_ret {A} (a : A) : keeps_configs (ret a).
Proof. intros mgr r mgr' H. inversion H; subst. apply same_configs_refl. Qed.

Lemma keeps_raise {A} (e : exn) : keeps_configs (@raise MCPManager A e).
Proof. intros mgr r mgr' H. inversion H; subst. apply same_configs_refl. Qed.

Lemma keeps_get_state : keeps_configs (@get_state MCPManager).
Proof. intros mgr r mgr' H. inversion H; subst. apply same_configs_refl. Qed.

Lemma keeps_bind {A B} (m : M MCPManager A) (k : A -> M MCPManager B) :
  keeps_configs m -> (forall a, keeps_configs (k a)) -> keeps_configs (bind m k).
Proof.
  intros Hm Hk mgr r mgr' H. unfold bind in H.
  destruct (m mgr) as [[a|e|] m1] eqn:Hms.
  - eapply same_configs_trans; [eapply Hm; eauto | eapply Hk; eauto].
  - inversion H; subst. eapply Hm; eauto.
  - inversion H; subst. eapply Hm; eauto.
Qed.

Lemma keeps_try_except {A} (m : M MCPManager A) (h : exn -> M MCPManager A) :
  keeps_configs m -> (forall e, keeps_configs (h e)) -> keeps_configs (try_except m h).
Proof.
  intros Hm Hh mgr r mgr' H. unfold try_except in H.
  destruct (m mgr) as [[a|e|] m1] eqn:Hms.
  - inversion H; subst. eapply Hm; eauto.
  - eapply same_configs_trans; [eapply Hm; eauto | eapply Hh; eauto].
  - inversion H; subst. eapply Hm; eauto.
Qed.

Lemma keeps_for_each {A} (l : list A) (body : A -> M MCPManager unit) :
  (forall x, keeps_configs (body x)) -> keeps_configs (for_each l body).
Proof.
  intros Hb. induction l as [|x l IH].
  - apply keeps_ret.
  - cbn [for_each]. apply keeps_bind; [apply Hb | intros _; exact IH].
Qed.

Lemma same_configs_set (key : string) (srv srv' : MCPServer) (mgr mgr' : MCPManager) :
  PyDict.get key (servers mgr) = Some srv ->
  config srv' = config srv ->
  servers mgr' = PyDict.set key srv' (servers mgr) ->
  same_configs mgr mgr'.
Proof.
  intros Hg Hc Hs. split.
  - rewrite Hs. apply keys_set_mem, mem_get. eauto.
  - intros k. rewrite Hs, get_set.
    destruct (String.eqb k key) eqn:Hk.
    + apply String.eqb_eq in Hk. subst. rewrite Hg. exact Hc.
    + destruct (PyDict.get k (servers mgr)); auto.
Qed.

Lemma keeps_on_server {A} (key : string) (m : M MCPServer A) :
  (forall s r s', m s = (r, s') -> config s' = config s) ->
  keeps_configs (on_server key m).
Proof.
  intros Hm mgr r mgr' H. unfold on_server in H.
  destruct (PyDict.get key (servers mgr)) as [srv|] eqn:Hg;
    [| inversion H; subst; apply same_configs_refl].
  destruct (m srv) as [r0 srv'] eqn:Hms. inversion H; subst.
  eapply same_configs_set; [exact Hg | eapply Hm; eauto | reflexivity].
Qed.

Lemma stop_config (s : MCPServer) r s' : stop s = (r, s') -> config s' = config s.
Proof.
  intros H. destruct (stop_spec s) as (s2 & Hs & Hc & _). rewrite Hs in H.
  inversion H; subst. exact Hc.
Qed.

Lemma keeps_start_registered (E : environment) (key : string) :
  keeps_configs (start_registered E key).
Proof.
  intros mgr r mgr' H. unfold start_registered in H.
  destruct (PyDict.get key (servers mgr)) as [srv|] eqn:Hg;
    [| inversion H; subst; apply same_configs_refl].
  destruct (is_running (status srv)); [inversion H; subst; apply same_configs_refl|].
  destruct (start _ srv) as [r0 srv'] eqn:Hs. inversion H; subst.
  eapply same_configs_set; [exact Hg | eapply start_spec; eauto | reflexivity].
Qed.

Lemma keeps_fresh_uuid (E : environment) : keeps_configs (fresh_uuid E).
Proof.
  intros mgr r mgr' H. inversion H; subst. split; [reflexivity|].
  intros k. cbn [servers set_uuids].
  destruct (PyDict.get k (servers mgr)); auto.
Qed.

Lemma keeps_send (key : string) (q : pydict) : keeps_configs (on_server key (send_request q)).
Proof. apply keeps_on_server. intros s r s'. apply send_request_config. Qed.

Lemma keeps_start_all (E : environment) : keeps_configs (start_all E).
Proof.
  intros mgr r mgr' H. unfold start_all in H.
  refine (keeps_for_each _ _ _ mgr r mgr' H).
  intros key m r0 m' Hb.
  destruct (PyDict.get key (servers m)) as [srv|]; [| inversion Hb; subst; apply same_configs_refl].
  destruct (enabled (config srv)); [| inversion Hb; subst; apply same_configs_refl].
  eapply keeps_start_registered; eauto.
Qed.

Lemma keeps_stop_all : keeps_configs stop_all.
Proof.
  intros mgr r mgr' H. unfold stop_all in H.
  refine (keeps_for_each _ _ _ mgr r mgr' H).
  intros key. apply keeps_on_server. apply stop_config.
Qed.

Lemma keeps_start_server (E : environment) (i : string) : keeps_configs (start_server E i).
Proof.
  intros mgr r mgr' H. unfold start_server in H.
  destruct (negb (PyDict.mem i (servers mgr))); [inversion H; subst; apply same_configs_refl|].
  eapply keeps_start_registered; eauto.
Qed.

Lemma keeps_stop_server (i : string) : keeps_configs (stop_server i).
Proof.
  intros mgr r mgr' H. unfold stop_server in H.
  destruct (negb (PyDict.mem i (servers mgr))); [inversion H; subst; apply same_configs_refl|].
  eapply keeps_on_server; eauto. apply stop_config.
Qed.

Lemma keeps_restart_server (E : environment) (i : string) :
  keeps_configs (restart_server E i).
Proof.
  intros mgr r mgr' H. unfold restart_server in H.
  destruct (negb (PyDict.mem i (servers mgr))); [inversion H; subst; apply same_configs_refl|].
  revert H. apply keeps_bind.
  - apply keeps_on_server. apply stop_config.
  - intros _. apply keeps_start_registered.
Qed.

Lemma keeps_route_request (n : string) (q : pydict) (t : option string) :
  keeps_configs (route_request n q t).
Proof.
  intros mgr r mgr' H. unfold route_request in H.
  destruct (PyDict.get n (servers mgr)) as [srv|];
    [| inversion H; subst; apply same_configs_refl].
  destruct (negb (is_running (status srv))); [inversion H; subst; apply same_configs_refl|].
  destruct (usable t) as [tok|]; [| eapply keeps_send; eauto].
  destruct (eq_str (dict_get_none "method" q) "tools/call"); [| eapply keeps_send; eauto].
  destruct (inject_user_token q tok);
    [inversion H; subst; apply same_configs_refl | eapply keeps_send; eauto].
Qed.

Lemma keeps_list_tools_of (E : environment) (n : string) : keeps_configs (list_tools_of E n).
Proof.
  intros mgr r mgr' H.
  refine (list_tools_of_preserves E n (fun x => same_configs mgr x) _ _ mgr r mgr' H
            (same_configs_refl mgr)).
  - intros s r0 s' H0 HQ. eapply same_configs_trans; [exact HQ|].
    eapply keeps_fresh_uuid; eauto.
  - intros q s r0 s' H0 HQ. eapply same_configs_trans; [exact HQ|].
    eapply keeps_send; eauto.
Qed.

Lemma keeps_list_all_tools (E : environment) : keeps_configs (list_all_tools E).
Proof.
  intros mgr r mgr'. rewrite list_all_tools_unfold.
  generalize (PyDict.keys (servers mgr)) as names.
  generalize (@nil (string * json)) as acc.
  intros acc names. revert acc mgr.
  induction names as [|n names IH]; intros acc m0 H.
  - inversion H; subst. apply same_configs_refl.
  - cbn [list_all_tools_from] in H. unfold bind at 1 in H. unfold get_state at 1 in H.
    destruct (PyDict.get n (servers m0)) as [srv|]; [| eapply IH; eauto].
    destruct (is_running (status srv)); [| eapply IH; eauto].
    unfold bind at 1 in H.
    destruct (list_tools_of E n m0) as [[tools|e|] m1] eqn:Hl.
    + eapply same_configs_trans; [eapply keeps_list_tools_of; eauto | eapply IH; eauto].
    + inversion H; subst. eapply keeps_list_tools_of; eauto.
    + inversion H; subst. eapply keeps_list_tools_of; eauto.
Qed.

Lemma same_configs_get (mgr mgr' : MCPManager) (k : string) :
  same_configs mgr mgr' ->
  match PyDict.get k (servers mgr), PyDict.get k (servers mgr') with
  | Some s, Some s' => config s' = config s
  | None, None => True
  | _, _ => False
  end.
Proof. intros H. exact (proj2 H k). Qed.

(** The registry before and after one operation, key by key. *)
Lemma registry_evolution
    (E : environment) (op : operation) (mgr : MCPManager) (k : string) :
  List.NoDup (PyDict.keys (servers mgr)) ->
  match PyDict.get k (servers mgr), PyDict.get k (servers (run E op mgr)) with
  | Some s, Some s' =>
      config s'
      = match op with
        | OpSetServerEnabled i b =>
            if String.eqb k i then set_enabled b (config s) else config s
        | _ => config s
        end
  | Some _, None => op = OpRemoveServer k
  | None, Some s' => exists c, op = OpAddServer c /\ name (config s') = k
  | None, None => True
  end.
Proof.
  intros Hnd.
  assert (Hkeep : forall (mgr' : MCPManager),
             same_configs mgr mgr' ->
             match PyDict.get k (servers mgr), PyDict.get k (servers mgr') with
             | Some s, Some s' => config s' = config s
             | Some _, None => False
             | None, Some s' => False
             | None, None => True
             end).
  { intros mgr' [_ H]. specialize (H k).
    destruct (PyDict.get k (servers mgr)), (PyDict.get k (servers mgr')); auto. }
  assert (Hk : forall {A} (m : M MCPManager A),
             keeps_configs m ->
             match PyDict.get k (servers mgr), PyDict.get k (servers (snd (m mgr))) with
             | Some s, Some s' => config s' = config s
             | Some _, None => False
             | None, Some s' => False
             | None, None => True
             end).
  { intros A m Hm. apply Hkeep. destruct (m mgr) as [r mgr'] eqn:H. eapply Hm; eauto. }
  destruct op as [| |i|i|i|i|c|i b|n q t|]; cbn [run].
  - pose proof (Hk _ _ (keeps_start_all E)) as H.
    destruct (PyDict.get k (servers mgr)), (PyDict.get k (servers _)); tauto.
  - pose proof (Hk _ _ keeps_stop_all) as H.
    destruct (PyDict.get k (servers mgr)), (PyDict.get k (servers _)); tauto.
  - pose proof (Hk _ _ (keeps_start_server E i)) as H.
    destruct (PyDict.get k (servers mgr)), (PyDict.get k (servers _)); tauto.
  - pose proof (Hk _ _ (keeps_stop_server i)) as H.
    destruct (PyDict.get k (servers mgr)), (PyDict.get k (servers _)); tauto.
  - pose proof (Hk _ _ (keeps_restart_server E i)) as H.
    destruct (PyDict.get k (servers mgr)), (PyDict.get k (servers _)); tauto.
  - (* remove_server *)
    destruct (PyDict.get i (servers mgr)) as [srv|] eqn:Hg.
    + destruct (remove_server_registered i mgr srv Hnd Hg)
        as (mgr' & Hrm & Hnone & Hother & _).
      rewrite Hrm. cbn [snd].
      destruct (String.eqb k i) eqn:Hki.
      * apply String.eqb_eq in Hki. subst k. rewrite Hg, Hnone. reflexivity.
      * apply String.eqb_neq in Hki. rewrite (Hother k Hki).
        destruct (PyDict.get k (servers mgr)); auto.
    + unfold remove_server. rewrite Hg. cbn [snd].
      destruct (PyDict.get k (servers mgr)); auto.
  - (* add_server *)
    destruct (add_server E c mgr) as [r mgr1] eqn:Hadd. cbn [snd].
    destruct (add_server_inv _ _ _ _ _ Hadd) as [(e & _ & Hm)|(n & srv & Hrest)].
    + subst mgr1. destruct (PyDict.get k (servers mgr)); auto.
    + destruct Hrest as (Hmem & Hsrv & _ & Hname & _).
      rewrite Hsrv, get_set.
      destruct (String.eqb k n) eqn:Hkn.
      * apply String.eqb_eq in Hkn. subst k.
        unfold PyDict.mem in Hmem.
        destruct (PyDict.get n (servers mgr)); [discriminate|]. eauto.
      * destruct (PyDict.get k (servers mgr)); auto.
  - (* set_server_enabled *)
    destruct (PyDict.get i (servers mgr)) as [srv|] eqn:Hg.
    + rewrite (set_server_enabled_state E i b mgr srv Hg).
      set (m1 := saved i b (assign_enabled i b mgr)).
      assert (Hm1 : forall k, PyDict.get k (servers m1)
                              = if String.eqb k i
                                then Some (set_config (set_enabled b (config srv)) srv)
                                else PyDict.get k (servers mgr)).
      { intros k'. subst m1. rewrite saved_servers, assign_enabled_get, Hg. reflexivity. }
      assert (Hfinal : forall (m : M MCPManager unit),
                 keeps_configs m ->
                 match PyDict.get k (servers mgr), PyDict.get k (servers (snd (m m1))) with
                 | Some s, Some s' =>
                     config s' = if String.eqb k i then set_enabled b (config s) else config s
                 | Some _, None => False
                 | None, Some s' => False
                 | None, None => True
                 end).
      { intros m Hm. destruct (m m1) as [r m2] eqn:Hm2. cbn [snd].
        pose proof (proj2 (Hm _ _ _ Hm2) k) as Hs. rewrite (Hm1 k) in Hs.
        destruct (String.eqb k i) eqn:Hki.
        - apply String.eqb_eq in Hki. subst k. rewrite Hg.
          destruct (PyDict.get i (servers m2)); [| tauto]. exact Hs.
        - destruct (PyDict.get k (servers mgr)), (PyDict.get k (servers m2)); auto. }
      destruct (b && negb (is_running (status srv))).
      * pose proof (Hfinal _ (keeps_start_registered E i)) as H.
        destruct (PyDict.get k (servers mgr)), (PyDict.get k (servers _)); tauto.
      * destruct (negb b && is_running (status srv)).
        -- pose proof (Hfinal _ (keeps_on_server i stop stop_config)) as H.
           destruct (PyDict.get k (servers mgr)), (PyDict.get k (servers _)); tauto.
        -- pose proof (Hfinal _ (keeps_ret tt)) as H. cbn [ret snd] in H.
           destruct (PyDict.get k (servers mgr)), (PyDict.get k (servers _)); tauto.
    + unfold set_server_enabled. rewrite Hg. cbn [snd].
      destruct (PyDict.get k (servers mgr)) as [s|] eqn:Hgk; [|exact I].
      destruct (String.eqb k i) eqn:Hki; [|reflexivity].
      apply String.eqb_eq in Hki. subst k. congruence.
  - pose proof (Hk _ _ (keeps_route_request n q t)) as H.
    destruct (PyDict.get k (servers mgr)), (PyDict.get k (servers _)); tauto.
  - pose proof (Hk _ _ (keeps_list_all_tools E)) as H.
    destruct (PyDict.get k (servers mgr)), (PyDict.get k (servers _)); tauto.
Qed.

(** X13.  What one operation of the manager can do to the registry.  A provider
    is unregistered by [remove_server] of its own key only; a provider
    appears through [add_server] only, under the name of its configuration;
    and a provider that stays keeps its configuration, except that
    [set_server_enabled] sets the flag of the provider it names. *)
Theorem X13_operations_keep_configurations
    (E : environment) (op : operation) (mgr : MCPManager) (k : string) :
  List.NoDup (PyDict.keys (servers mgr)) ->
  match PyDict.get k (servers mgr), PyDict.get k (servers (run E op mgr)) with
  | Some s, Some s' =>
      config s'
      = match op with
        | OpSetServerEnabled i b =>
            if String.eqb k i then set_enabled b (config s) else config s
        | _ => config s
        end
  | Some _, None => op = OpRemoveServer k
  | None, Some s' => exists c, op = OpAddServer c /\ name (config s') = k
  | None, None => True
  end.
Proof. apply registry_evolution. Qed.

Lemma X13_witness :
  match PyDict.get "alpha" (servers alpha_manager),
        PyDict.get "alpha"
          (servers (run default_env (OpSetServerEnabled "alpha" false) alpha_manager)) with
  | Some s, Some s' =>
      config s'
      = match OpSetServerEnabled "alpha" false with
        | OpSetServerEnabled i b =>
            if String.eqb "alpha" i then set_enabled b (config s) else config s
        | _ => config s
        end
  | Some _, None => OpSetServerEnabled "alpha" false = OpRemoveServer "alpha"
  | None, Some s' =>
      exists c, OpSetServerEnabled "alpha" false = OpAddServer c /\ name (config s') = "alpha"
  | None, None => True
  end.
Proof.
  apply (X13_operations_keep_configurations default_env (OpSetServerEnabled "alpha" false)
           alpha_manager "alpha").
  cbn. constructor; [intros [] | constructor].
Defined.

(** ** Access policies *)

Lemma policy_item_request (item : json) (access_map : pydict) :
  policy_item item access_map
  = match item_request item with
    | None =>
        match policy_item item [] with inl e => inl e | inr _ => inr access_map end
    | Some None => inr access_map
    | Some (Some (n, a)) =>
        if negb (PyDict.mem n access_map) || eq_str a "allow"
        then inr (PyDict.set n a access_map)
        else inr access_map
    end.
Proof.
  unfold item_request, policy_item.
  destruct (subscript item "server") as [e|server]; [reflexivity|].
  destruct (subscript server "id") as [e|sid]; [reflexivity|].
  destruct (subscript server "name") as [e|server_name]; [reflexivity|].
  destruct (subscript item "access") as [e|access_type]; [reflexivity|].
  destruct server_name as [| | |n| |]; try reflexivity.
Qed.

Lemma policy_item_allow (item : json) (n : string) (acc acc' : pydict) :
  policy_item item acc = inr acc' ->
  forall v, PyDict.get n acc = Some v ->
            PyDict.get n acc' = Some v \/ PyDict.get n acc' = Some (JStr "allow").
Proof.
  rewrite policy_item_request. intros H v Hv.
  destruct (item_request item) as [[[m a]|]|].
  - destruct (negb (PyDict.mem m acc) || eq_str a "allow") eqn:Hc;
      inversion H; subst; [| now left].
    rewrite get_set. destruct (String.eqb n m) eqn:Hnm; [| now left].
    apply String.eqb_eq in Hnm. subst m.
    assert (Hmem : PyDict.mem n acc = true) by (apply mem_get; eauto).
    rewrite Hmem in Hc. cbn in Hc.
    destruct a; try discriminate. cbn in Hc. apply String.eqb_eq in Hc. subst. now right.
  - inversion H; subst. now left.
  - destruct (policy_item item []); inversion H; subst. now left.
Qed.

Lemma policy_items_allow (n : string) (items : list json) :
  forall acc v, PyDict.get n acc = Some v ->
                PyDict.get n (policy_items items acc) = Some v
                \/ PyDict.get n (policy_items items acc) = Some (JStr "allow").
Proof.
  induction items as [|item items IH]; intros acc v Hv; cbn [policy_items]; [now left|].
  destruct (policy_item item acc) as [e|acc'] eqn:Hp; [now left|].
  destruct (policy_item_allow item n acc acc' Hp v Hv) as [H|H].
  - apply IH. exact H.
  - destruct (IH acc' _ H) as [H'|H']; right; exact H'.
Qed.

(** One group contributes the items of a summary answered with 200, or
    nothing. *)
Lemma policy_group_cases (E : environment) (g : json) (acc : pydict) :
  (policy_group E g acc = acc
   /\ match api_access_summary E (py_str g) with
      | HttpResponse 200 (JObj data) =>
          exists e, py_iter (PyDict.get_default "access_summary" (JArr []) data) = inl e
      | _ => True
      end)
  \/ exists data items,
       api_access_summary E (py_str g) = HttpResponse 200 (JObj data)
       /\ py_iter (PyDict.get_default "access_summary" (JArr []) data) = inr items
       /\ policy_group E g acc = policy_items items acc.
Proof.
  unfold policy_group.
  destruct (api_access_summary E (py_str g)) as [e|code body]; [left; auto|].
  destruct (Z.eq_dec code 200) as [->|Hne].
  - destruct body as [| | | | |data]; try (left; split; [reflexivity | exact I]).
    destruct (py_iter _) as [e|items] eqn:Hit.
    + left. split; [reflexivity | eauto].
    + right. eauto.
  - left.
    destruct code as [|p|p]; try (split; [reflexivity | exact I]).
    do 8 (destruct p as [p|p|]; try (split; [reflexivity | exact I])).
    congruence.
Qed.

Lemma policy_group_allow (E : environment) (n : string) (g : json) (acc : pydict) v :
  PyDict.get n acc = Some v ->
  PyDict.get n (policy_group E g acc) = Some v
  \/ PyDict.get n (policy_group E g acc) = Some (JStr "allow").
Proof.
  intros Hv.
  destruct (policy_group_cases E g acc) as [[-> _]|(data & items & _ & _ & ->)];
    [now left|].
  now apply policy_items_allow.
Qed.

Lemma policy_fold_allow (E : environment) (n : string) (gs : list json) :
  forall acc v, PyDict.get n acc = Some v ->
                PyDict.get n (fold_left (fun acc g => policy_group E g acc) gs acc) = Some v
                \/ PyDict.get n (fold_left (fun acc g => policy_group E g acc) gs acc)
                   = Some (JStr "allow").
Proof.
  induction gs as [|g gs IH]; intros acc v Hv; cbn [fold_left]; [now left|].
  destruct (policy_group_allow E n g acc v Hv) as [H|H].
  - now apply IH.
  - destruct (IH _ _ H) as [H'|H']; right; exact H'.
Qed.

Lemma eq_str_allow (a : json) : eq_str a "allow" = true -> a = JStr "allow".
Proof.
  destruct a; try discriminate. cbn. intros H. apply String.eqb_eq in H. now subst.
Qed.

(** The items of one summary give [n] an [allow] on any map whenever they
    do on a map in which [n] having it implies the same. *)
Lemma policy_items_allow_mono (n : string) (items : list json) :
  forall acc1 acc2,
    (PyDict.get n acc1 = Some (JStr "allow") -> PyDict.get n acc2 = Some (JStr "allow")) ->
    PyDict.get n (policy_items items acc1) = Some (JStr "allow") ->
    PyDict.get n (policy_items items acc2) = Some (JStr "allow").
Proof.
  induction items as [|item items IH]; intros acc1 acc2 Himp; cbn [policy_items]; [exact Himp|].
  rewrite (policy_item_request item acc1), (policy_item_request item acc2).
  destruct (item_request item) as [[[m a]|]|].
  - assert (Hstep :
              PyDict.get n (if negb (PyDict.mem m acc1) || eq_str a "allow"
                            then PyDict.set m a acc1 else acc1) = Some (JStr "allow") ->
              PyDict.get n (if negb (PyDict.mem m acc2) || eq_str a "allow"
                            then PyDict.set m a acc2 else acc2) = Some (JStr "allow")).
    { destruct (eq_str a "allow") eqn:Ha.
      - rewrite !orb_true_r, !get_set.
        destruct (String.eqb n m); [auto | exact Himp].
      - rewrite !orb_false_r.
        destruct (PyDict.mem m acc1) eqn:H1; cbn [negb].
        + intros H. specialize (Himp H).
          destruct (PyDict.mem m acc2) eqn:H2; cbn [negb]; [exact Himp|].
          rewrite get_set. destruct (String.eqb n m) eqn:Hnm; [|exact Himp].
          apply String.eqb_eq in Hnm. subst m.
          unfold PyDict.mem in H2. rewrite Himp in H2. discriminate.
        + rewrite get_set. destruct (String.eqb n m) eqn:Hnm.
          * intros H. inversion H; subst a. discriminate.
          * intros H. specialize (Himp H).
            destruct (PyDict.mem m acc2); cbn [negb]; [exact Himp|].
            rewrite get_set, Hnm. exact Himp. }
    destruct (negb (PyDict.mem m acc1) || eq_str a "allow"),
      (negb (PyDict.mem m acc2) || eq_str a "allow"); apply IH; exact Hstep.
  - apply IH. exact Himp.
  - destruct (policy_item item []); [exact Himp | apply IH; exact Himp].
Qed.

(** X14.  An [allow] is never downgraded.  When the summary of one of the
    caller's groups alone yields [allow] for a server, the map fetched for
    all the caller's groups holds [allow] for it, wherever that group
    stands in the list and whatever the other groups say. *)
Theorem X14_allow_from_any_group_wins
    (E : environment) (n : string) (g : json) (user_groups : list json) :
  In g user_groups ->
  PyDict.get n (fetch_user_mcp_access_policies E (JArr [g])) = Some (JStr "allow") ->
  PyDict.get n (fetch_user_mcp_access_policies E (JArr user_groups)) = Some (JStr "allow").
Proof.
  intros Hin Hg. unfold fetch_user_mcp_access_policies in *. cbn [py_iter fold_left] in *.
  apply in_split in Hin. destruct Hin as (l1 & l2 & ->).
  rewrite fold_left_app. cbn [fold_left].
  set (acc := fold_left (fun acc g0 => policy_group E g0 acc) l1 []).
  assert (Hstep : PyDict.get n (policy_group E g acc) = Some (JStr "allow")).
  { destruct (policy_group_cases E g []) as [[Heq _]|(data & items & Hapi & Hit & Heq)].
    - rewrite Heq in Hg. discriminate.
    - rewrite Heq in Hg.
      destruct (policy_group_cases E g acc) as [[_ Hno]|(data' & items' & Hapi' & Hit' & Heq')].
      + rewrite Hapi in Hno. destruct Hno as (e & He). congruence.
      + rewrite Heq'. rewrite Hapi in Hapi'. inversion Hapi'; subst data'.
        rewrite Hit in Hit'. inversion Hit'; subst items'.
        apply (policy_items_allow_mono n items [] acc); [discriminate | exact Hg]. }
  destruct (policy_fold_allow E n l2 _ _ Hstep) as [H|H]; exact H.
Qed.

Lemma X14_witness :
  PyDict.get "awp_admin"
    (fetch_user_mcp_access_policies policy_env (JArr [JStr "g0"; JStr "g1"; JStr "g2"]))
  = Some (JStr "allow").
Proof.
  apply (X14_allow_from_any_group_wins policy_env "awp_admin" (JStr "g1")
           [JStr "g0"; JStr "g1"; JStr "g2"]).
  - right. left. reflexivity.
  - reflexivity.
Defined.

(** X15.  When the platform API answers no group with a policy summary, the map
    is empty and the catalog filter is the hard-coded rule: administrators
    keep every provider, the others lose the providers named [admin],
    [awp_admin] and [awp_kubernetes], and nothing else. *)
Theorem X15_policies_unavailable_fall_back
    (E : environment) (user_groups : list json) (adm : json) (all_tools : pydict) :
  no_policy_summary E user_groups ->
  fetch_user_mcp_access_policies E (JArr user_groups) = []
  /\ filter_tools all_tools (JArr user_groups)
       (fetch_user_mcp_access_policies E (JArr user_groups)) adm
     = List.filter
         (fun entry =>
            truthy adm || negb (existsb (String.eqb (fst entry)) admin_servers_policy))
         all_tools.
Proof.
  intros Hno.
  assert (Hempty : fetch_user_mcp_access_policies E (JArr user_groups) = []).
  { unfold fetch_user_mcp_access_policies. cbn [py_iter].
    induction user_groups as [|g gs IH]; [reflexivity|].
    cbn [fold_left].
    destruct (policy_group_cases E g []) as [[Heq _]|(data & items & Hapi & _)].
    - rewrite Heq. apply IH. intros g' Hg'. apply Hno. now right.
    - specialize (Hno g (or_introl eq_refl)). rewrite Hapi in Hno. contradiction. }
  split; [exact Hempty|]. rewrite Hempty.
  unfold filter_tools. apply filter_ext. intros [k v]. cbn [fst].
  unfold check_server_access. destruct (truthy adm); [reflexivity|].
  cbn [PyDict.get orb]. destruct (existsb _ _); reflexivity.
Qed.

Lemma X15_witness :
  fetch_user_mcp_access_policies default_env (JArr [JStr "g1"]) = []
  /\ filter_tools [("awp_admin", JArr []); ("awp_web", JArr [])] (JArr [JStr "g1"])
       (fetch_user_mcp_access_policies default_env (JArr [JStr "g1"])) (JBool false)
     = List.filter
         (fun entry =>
            truthy (JBool false)
            || negb (existsb (String.eqb (fst entry)) admin_servers_policy))
         [("awp_admin", JArr []); ("awp_web", JArr [])].
Proof.
  apply (X15_policies_unavailable_fall_back default_env [JStr "g1"] (JBool false)
           [("awp_admin", JArr []); ("awp_web", JArr [])]).
  intros g [<-|[]]. exact I.
Defined.

(** ** The catalog reply *)

Lemma filter_tools_admin (all_tools : pydict) (user_groups : json)
    (access_policies : pydict) (adm : json) :
  truthy adm = true ->
  filter_tools all_tools user_groups access_policies adm = all_tools.
Proof.
  intros Ha. unfold filter_tools.
  induction all_tools as [|e l IH]; [reflexivity|].
  cbn [List.filter]. unfold check_server_access at 1. rewrite Ha. now rewrite IH.
Qed.

(** X16.  An administrator is shown the whole catalog: whatever the policies of
    the caller's groups are, a [deny] included, the grouping of the reply is
    the catalog of the manager.  Every other caller is shown a part of it,
    in the same order. *)
Theorem X16_catalog_of_administrators_is_unfiltered
    (E : environment) (ui : option user_info) (a : app) :
  let r := fst (_list_all_tools_impl E ui a) in
  (truthy (admin_flag ui) = true ->
   forall tools_list by_server,
     r = Ret (tools_list, by_server) ->
     fst (with_manager (list_all_tools E) a) = Ret by_server)
  /\ (forall tools_list by_server,
        r = Ret (tools_list, by_server) ->
        exists all_tools,
          fst (with_manager (list_all_tools E) a) = Ret all_tools
          /\ by_server
             = List.filter
                 (fun entry =>
                    check_server_access (fst entry)
                      (match ui with Some u => groups u | None => JArr [] end)
                      (fetch_user_mcp_access_policies E
                         (match ui with Some u => groups u | None => JArr [] end))
                      (admin_flag ui))
                 all_tools
          /\ flatten by_server = inr tools_list).
Proof.
  cbv zeta.
  assert (Hinv : forall tools_list by_server,
             fst (_list_all_tools_impl E ui a) = Ret (tools_list, by_server) ->
             exists all_tools,
               fst (with_manager (list_all_tools E) a) = Ret all_tools
               /\ by_server
                  = filter_tools all_tools
                      (match ui with Some u => groups u | None => JArr [] end)
                      (fetch_user_mcp_access_policies E
                         (match ui with Some u => groups u | None => JArr [] end))
                      (admin_flag ui)
               /\ flatten by_server = inr tools_list).
  { intros tools_list by_server.
    unfold _list_all_tools_impl. unfold bind at 1. unfold get_state at 1.
    destruct (mcp_manager a) as [mgr|] eqn:Hm; [| discriminate].
    unfold bind at 1.
    destruct (with_manager (list_all_tools E) a) as [[all_tools|e|] a1]; try discriminate.
    unfold bind at 1.
    destruct (flatten _) as [e|tl] eqn:Hf; cbn [lift_sum raise ret fst]; [discriminate|].
    intros H. inversion H; subst. exists all_tools. auto. }
  split.
  - intros Hadm tools_list by_server H.
    destruct (Hinv _ _ H) as (all_tools & Hall & Hby & _).
    rewrite Hby, filter_tools_admin by assumption. exact Hall.
  - intros tools_list by_server H.
    destruct (Hinv _ _ H) as (all_tools & Hall & Hby & Hfl).
    exists all_tools. auto.
Qed.

(** [{"server": server_name, **tool}] member by member. *)
Lemma merge_get (k : string) (tool : pydict) :
  forall init,
    List.NoDup (PyDict.keys tool) ->
    PyDict.get k (fold_left (fun acc kv => PyDict.set (fst kv) (snd kv) acc) tool init)
    = match PyDict.get k tool with
      | Some v => Some v
      | None => PyDict.get k init
      end.
Proof.
  induction tool as [|[k' v'] tool IH]; intros init Hnd; [reflexivity|].
  cbn [PyDict.keys map fst] in Hnd. apply List.NoDup_cons_iff in Hnd.
  destruct Hnd as [Hni Hnd].
  cbn [fold_left fst snd PyDict.get]. rewrite IH by assumption.
  destruct (String.eqb k k') eqn:Hk.
  - apply String.eqb_eq in Hk. subst k'.
    rewrite (get_none_keys k tool) by exact Hni. apply get_set_eq.
  - destruct (PyDict.get k tool); [reflexivity|].
    apply get_set_ne. now apply String.eqb_neq.
Qed.

(** X17.  Attribution of the listed tools.  Every tool of the flat list is the
    provider's tool object with all its members; it carries the name of the
    provider under [server] unless the object has a [server] member of its
    own, which is then what the list shows. *)
Theorem X17_tool_attribution (server_name : string) (tools listed : list json) :
  attribute server_name tools = inr listed ->
  Forall2
    (fun tool shown =>
       exists d d',
         tool = JObj d /\ shown = JObj d'
         /\ (List.NoDup (PyDict.keys d) ->
             forall k,
               PyDict.get k d'
               = match PyDict.get k d with
                 | Some v => Some v
                 | None => if String.eqb k "server" then Some (JStr server_name) else None
                 end))
    tools listed.
Proof.
  revert listed. induction tools as [|t tools IH]; intros listed H.
  - cbn in H. inversion H. constructor.
  - cbn [attribute] in H. destruct t as [| | | | |d]; try discriminate.
    destruct (attribute server_name tools) as [e|l]; [discriminate|].
    inversion H; subst. constructor; [| now apply IH].
    exists d. eexists. split; [reflexivity|]. split; [reflexivity|].
    intros Hnd k. rewrite merge_get by assumption.
    destruct (PyDict.get k d); [reflexivity|]. cbn [PyDict.get]. reflexivity.
Qed.

Lemma X17_witness :
  Forall2
    (fun tool shown =>
       exists d d',
         tool = JObj d /\ shown = JObj d'
         /\ (List.NoDup (PyDict.keys d) ->
             forall k,
               PyDict.get k d'
               = match PyDict.get k d with
                 | Some v => Some v
                 | None => if String.eqb k "server" then Some (JStr "alpha") else None
                 end))
    [JObj [("name", JStr "sum")]; JObj [("name", JStr "rm"); ("server", JStr "awp_admin")]]
    [JObj [("server", JStr "alpha"); ("name", JStr "sum")];
     JObj [("server", JStr "awp_admin"); ("name", JStr "rm")]].
Proof.
  apply (X17_tool_attribution "alpha"
           [JObj [("name", JStr "sum")];
            JObj [("name", JStr "rm"); ("server", JStr "awp_admin")]]).
  reflexivity.
Defined.

(** ** Authentication *)

(** X18.  The identities granted without any validation, in every environment: a
    request without credentials is the local administrator, and a bearer
    value that begins with [awc_system_] is the system root, whatever
    follows the prefix; both are administrators.  In a deployment that sets
    no [FLOWISE_INTERNAL_API_KEY], the bearer value [flowise-internal] is
    the Flowise service, an administrator too. *)
Theorem X18_identities_granted_without_validation (E : environment) :
  get_user_info E None = inr local_admin
  /\ (forall tok, startswith tok "awc_system_" = true ->
                  get_user_info E (Some tok) = inr system_root)
  /\ (getenv E "FLOWISE_INTERNAL_API_KEY" = None ->
      get_user_info E (Some "flowise-internal") = inr flowise_service)
  /\ truthy (is_admin local_admin) = true
  /\ truthy (is_admin system_root) = true
  /\ truthy (is_admin flowise_service) = true.
Proof.
  split; [reflexivity|]. split.
  - intros tok H. unfold get_user_info. rewrite H.
    destruct tok; [discriminate|]. reflexivity.
  - split; [| auto].
    intros H. unfold get_user_info, service_or_jwt, getenv_default. rewrite H. reflexivity.
Qed.

(** X19.  Every failure of [get_user_info] is an HTTP error: no other exception
    leaves the dependency. *)
Theorem X19_authentication_fails_with_http_errors
    (E : environment) (credentials : option string) (e : exn) :
  get_user_info E credentials = inl e ->
  exists c d, e = HTTPException c d.
Proof.
  unfold get_user_info. destruct credentials as [tok|]; [| discriminate].
  assert (Hs : service_or_jwt E tok = inl e -> exists c d, e = HTTPException c d).
  { unfold service_or_jwt.
    destruct (negb (String.eqb tok "") && String.eqb tok _); [discriminate|].
    destruct (negb (String.eqb tok "") && String.eqb tok _); [discriminate|].
    apply jwt_identity_error. }
  destruct (negb (String.eqb tok "") && startswith tok "awc_system_"); [discriminate|].
  destruct (negb (String.eqb tok "") && startswith tok "awc_"
            && negb (startswith tok "awc_system_")); [| exact Hs].
  destruct (validate_api_key E tok); [discriminate | exact Hs].
Qed.

Lemma X19_witness :
  exists c d, HTTPException 401 "Token validation failed: Not enough segments"
              = HTTPException c d.
Proof.
  apply (X19_authentication_fails_with_http_errors default_env (Some "not-a-token")).
  reflexivity.
Defined.

(** X20.  Who is an administrator among the users of the identity provider.  A
    token of the identity provider that validates yields an administrator
    exactly when one of its groups is listed in
    [AAD_AUTHORIZED_ADMIN_GROUPS]; when that list is empty or unset, every
    such user is an administrator. *)
Theorem X20_administrators_among_directory_users
    (E : environment) (tok : string) (header p : pydict) (u : user_info) :
  jwt_get_unverified_header E tok = inr header ->
  eq_str (PyDict.get_default "alg" (JStr "RS256") header) "HS256"
  && negb (truthy (dict_get_none "kid" header)) = false ->
  azure_jwt_validate E tok (dict_get_none "kid" header) = inr p ->
  jwt_identity E tok = inr u ->
  groups u = PyDict.get_default "groups" (JArr []) p
  /\ (group_list E "AAD_AUTHORIZED_ADMIN_GROUPS" = [] -> is_admin u = JBool true)
  /\ (group_list E "AAD_AUTHORIZED_ADMIN_GROUPS" <> [] ->
      forall gs, py_iter (groups u) = inr gs ->
        is_admin u
        = JBool (existsb
                   (fun g => existsb (fun a => eq_str g a)
                               (group_list E "AAD_AUTHORIZED_ADMIN_GROUPS")) gs)).
Proof.
  intros Hh Halg Hv. unfold jwt_identity. rewrite Hh, Halg, Hv.
  unfold azure_user, get_authorized_groups.
  destruct (is_user_authorized _ _) as [e|ok]; [discriminate|].
  destruct (negb ok); [discriminate|].
  unfold is_admin_user, is_user_authorized.
  destruct (group_list E "AAD_AUTHORIZED_ADMIN_GROUPS") as [|a l] eqn:Hadm.
  - intros H. inversion H; subst. cbn [groups is_admin].
    split; [reflexivity|]. split; [reflexivity|]. congruence.
  - destruct (py_iter (PyDict.get_default "groups" (JArr []) p)) as [e|gs] eqn:Hit;
      [discriminate|].
    intros H. inversion H; subst. cbn [groups is_admin].
    split; [reflexivity|]. split; [discriminate|].
    intros _ gs' Hgs. rewrite Hit in Hgs. inversion Hgs; subst. reflexivity.
Qed.

Lemma X20_witness :
  groups (mkUser (Some "jwt") [("oid", JStr "u-17"); ("name", JStr "Pat");
                               ("groups", JArr [JStr "staff"])]
            (JStr "u-17") (JStr "Pat") JNull JNull (JArr [JStr "staff"]) (JBool true))
  = PyDict.get_default "groups" (JArr [])
      [("oid", JStr "u-17"); ("name", JStr "Pat"); ("groups", JArr [JStr "staff"])]
  /\ (group_list (sso_env []) "AAD_AUTHORIZED_ADMIN_GROUPS" = [] ->
      is_admin (mkUser (Some "jwt") [("oid", JStr "u-17"); ("name", JStr "Pat");
                                     ("groups", JArr [JStr "staff"])]
                  (JStr "u-17") (JStr "Pat") JNull JNull (JArr [JStr "staff"]) (JBool true))
      = JBool true)
  /\ (group_list (sso_env []) "AAD_AUTHORIZED_ADMIN_GROUPS" <> [] ->
      forall gs,
        py_iter (groups (mkUser (Some "jwt") [("oid", JStr "u-17"); ("name", JStr "Pat");
                                              ("groups", JArr [JStr "staff"])]
                           (JStr "u-17") (JStr "Pat") JNull JNull (JArr [JStr "staff"])
                           (JBool true))) = inr gs ->
        is_admin (mkUser (Some "jwt") [("oid", JStr "u-17"); ("name", JStr "Pat");
                                       ("groups", JArr [JStr "staff"])]
                    (JStr "u-17") (JStr "Pat") JNull JNull (JArr [JStr "staff"]) (JBool true))
        = JBool (existsb
                   (fun g => existsb (fun a => eq_str g a)
                               (group_list (sso_env []) "AAD_AUTHORIZED_ADMIN_GROUPS")) gs)).
Proof.
  apply (X20_administrators_among_directory_users (sso_env []) "jwt"
           [("alg", JStr "RS256"); ("kid", JStr "key-1")]
           [("oid", JStr "u-17"); ("name", JStr "Pat"); ("groups", JArr [JStr "staff"])]).
  - reflexivity.
  - reflexivity.
  - reflexivity.
  - reflexivity.
Defined.

(** ** Tokens and the admin gate *)

Lemma usable_nonempty (t : option string) (s : string) : usable t = Some s -> s <> "".
Proof.
  destruct t as [x|]; [| discriminate]. cbn.
  destruct (String.eqb x "") eqn:Hx; [discriminate|].
  intros H. inversion H; subst. now apply String.eqb_neq.
Qed.

(** X21.  The token that [proxy_mcp_request] hands to [route_request]: when there
    is one, the target is a registered provider flagged [supports_obo],
    authentication is on, the shared service principal is off, the caller
    carries a token other than the system marker, and the token handed over
    is the identity-token header when it is present and the caller's token
    otherwise, never the empty string. *)
Theorem X21_user_token_goes_to_obo_providers_only
    (E : environment) (mgr : MCPManager) (target : string) (ui : option user_info)
    (hdrs : headers) (t : string) :
  select_user_token E mgr target ui hdrs = Some t ->
  exists srv u tok,
    PyDict.get target (servers mgr) = Some srv
    /\ supports_obo (config srv) = true
    /\ ENABLE_AUTH E = true
    /\ env_is_true E "AZURE_MCP_USE_SHARED_SP" "false" = false
    /\ ui = Some u
    /\ usable (token u) = Some tok
    /\ tok <> SYSTEM_SP_AUTH
    /\ t <> ""
    /\ t = match usable (x_azure_id_token hdrs) with
           | Some id_token => id_token
           | None => tok
           end.
Proof.
  unfold select_user_token. destruct ui as [u|]; [| discriminate].
  destruct (PyDict.get target (servers mgr)) as [srv|]; [| discriminate].
  destruct (supports_obo (config srv)) eqn:Hobo; [| discriminate].
  destruct (ENABLE_AUTH E) eqn:Hauth; [| discriminate]. cbn [andb].
  destruct (usable (token u)) as [tok|] eqn:Htok; [| discriminate].
  destruct (env_is_true E "AZURE_MCP_USE_SHARED_SP" "false") eqn:Hsp; [discriminate|].
  destruct (String.eqb tok SYSTEM_SP_AUTH) eqn:Hsys; [discriminate|]. cbn [negb andb].
  intros H. exists srv, u, tok.
  split; [reflexivity|]. split; [exact Hobo|]. split; [reflexivity|].
  split; [reflexivity|]. split; [reflexivity|]. split; [exact Htok|].
  split; [now apply String.eqb_neq|].
  destruct (usable (x_azure_id_token hdrs)) as [idt|] eqn:Hid; inversion H; subst t.
  - split; [eapply usable_nonempty; eauto | reflexivity].
  - split; [eapply usable_nonempty; eauto | reflexivity].
Qed.

Lemma X21_witness :
  exists srv u tok,
    PyDict.get "awp_azure" (servers obo_manager) = Some srv
    /\ supports_obo (config srv) = true
    /\ ENABLE_AUTH default_env = true
    /\ env_is_true default_env "AZURE_MCP_USE_SHARED_SP" "false" = false
    /\ Some plain_user = Some u
    /\ usable (token u) = Some tok
    /\ tok <> SYSTEM_SP_AUTH
    /\ "user-jwt" <> ""
    /\ "user-jwt" = match usable (x_azure_id_token no_headers) with
                    | Some id_token => id_token
                    | None => tok
                    end.
Proof.
  apply (X21_user_token_goes_to_obo_providers_only default_env obo_manager "awp_azure"
           (Some plain_user) no_headers "user-jwt").
  reflexivity.
Defined.

(** X22.  [route_request] forwards a request verbatim when it is given no usable
    token, or when the request is no [tools/call]: the request written to
    the child is the request received, so a token is never added to
    [tools/list], [initialize] or any other method. *)
Theorem X22_requests_without_injection_are_forwarded_verbatim
    (target : string) (request : pydict) (user_token : option string)
    (mgr : MCPManager) (srv : MCPServer) :
  PyDict.get target (servers mgr) = Some srv ->
  live srv ->
  usable user_token = None \/ eq_str (dict_get_none "method" request) "tools/call" = false ->
  last_written (snd (route_request target request user_token mgr)) target = Some request.
Proof.
  intros Hg Hlive Hno.
  assert (Hfwd : last_written (snd (on_server target (send_request request) mgr)) target
                 = Some request).
  { unfold on_server. rewrite Hg.
    pose proof (send_request_written request srv Hlive) as Hw.
    destruct (send_request request srv) as [r srv'].
    cbn [snd] in *. unfold last_written. cbn [servers set_servers].
    rewrite get_set_eq. exact Hw. }
  unfold route_request. rewrite Hg.
  destruct Hlive as (Hst & _). rewrite Hst. cbn [is_running negb].
  destruct Hno as [Hu|Hm].
  - rewrite Hu. exact Hfwd.
  - rewrite Hm. destruct (usable user_token); exact Hfwd.
Qed.

Lemma X22_witness :
  last_written (snd (route_request "awp_azure" sample_request (Some "user-jwt") obo_manager))
    "awp_azure"
  = Some sample_request.
Proof.
  apply (X22_requests_without_injection_are_forwarded_verbatim "awp_azure" sample_request
           (Some "user-jwt") obo_manager
           (sample_running "awp_azure" true [call_reply (JStr "1")])).
  - reflexivity.
  - apply sample_running_live.
  - right. reflexivity.
Defined.

(** X23.  The admin gate keeps the request away from the provider.  A request
    that names [admin] or [awp_admin], made by a caller without the admin
    flag, is refused with 403 by [POST /mcp], [POST /mcp/tool] and
    [POST /call] alike, and the manager, its children included, and the
    audit queue are exactly as before. *)
Theorem X23_admin_gate_leaves_state_untouched
    (E : environment) (target : string) (ui : option user_info) (hdrs : headers)
    (mgr : MCPManager) (tasks : list audit_record) :
  gated target ui = true ->
  (forall req,
      given (server req) = Some target ->
      proxy_mcp_request E req hdrs ui (mkApp (Some mgr) tasks)
      = (Raise (forbidden target), mkApp (Some mgr) tasks))
  /\ (forall tool_call,
        given (tc_server tool_call) = Some target ->
        McpTool.call_mcp_tool E tool_call hdrs ui (mkApp (Some mgr) tasks)
        = (Raise (forbidden target), mkApp (Some mgr) tasks))
  /\ (forall tool arguments,
        Call.call_mcp_tool (mkCall target tool arguments) hdrs ui (mkApp (Some mgr) tasks)
        = (Raise (forbidden target), mkApp (Some mgr) tasks)).
Proof.
  intros Hgate. unfold gated in Hgate.
  assert (Hproxy : forall req,
             given (server req) = Some target ->
             proxy_mcp_request E req hdrs ui (mkApp (Some mgr) tasks)
             = (Raise (forbidden target), mkApp (Some mgr) tasks)).
  { intros req Hgiven. unfold proxy_mcp_request.
    unfold bind at 1. unfold get_state at 1. cbn [mcp_manager].
    unfold bind at 1. unfold with_manager at 1. cbn [mcp_manager background_tasks].
    unfold resolve_target. rewrite Hgiven. cbn [ret]. rewrite Hgate. reflexivity. }
  split; [exact Hproxy|]. split.
  - intros tool_call Hgiven. unfold McpTool.call_mcp_tool. apply Hproxy. exact Hgiven.
  - intros tool arguments. unfold Call.call_mcp_tool, try_except.
    unfold bind at 1. unfold get_state at 1. cbn [mcp_manager call_server].
    rewrite Hgate. reflexivity.
Qed.

Lemma X23_witness :
  (forall req,
      given (server req) = Some "awp_admin" ->
      proxy_mcp_request default_env req no_headers (Some plain_user)
        (mkApp (Some admin_manager) [])
      = (Raise (forbidden "awp_admin"), mkApp (Some admin_manager) []))
  /\ (forall tool_call,
        given (tc_server tool_call) = Some "awp_admin" ->
        McpTool.call_mcp_tool default_env tool_call no_headers (Some plain_user)
          (mkApp (Some admin_manager) [])
        = (Raise (forbidden "awp_admin"), mkApp (Some admin_manager) []))
  /\ (forall tool arguments,
        Call.call_mcp_tool (mkCall "awp_admin" tool arguments) no_headers (Some plain_user)
          (mkApp (Some admin_manager) [])
        = (Raise (forbidden "awp_admin"), mkApp (Some admin_manager) [])).
Proof.
  apply (X23_admin_gate_leaves_state_untouched default_env "awp_admin" (Some plain_user)
           no_headers admin_manager []).
  reflexivity.
Defined.

(** ** Errors of [POST /call] *)

Lemma read_response_exn (request_id : json) (n : nat) :
  forall p e p', read_response request_id n p = (Raise e, p') -> is_http_exception e = false.
Proof.
  induction n as [|n IH]; intros p e p' H.
  - cbn in H. inversion H. reflexivity.
  - cbn [read_response] in H. unfold bind, readline in H.
    destruct (stdout p) as [|l rest].
    + destruct (alive p && negb (exits p)); [discriminate|]. inversion H. reflexivity.
    + destruct l as [| |v]; try (inversion H; reflexivity).
      destruct v as [| | | | |d]; try (inversion H; reflexivity).
      destruct (same_id request_id (dict_get_none "id" d)); [discriminate|].
      eapply IH; eauto.
Qed.

Lemma send_request_exn (request : pydict) (self : MCPServer) e self' :
  send_request request self = (Raise e, self') -> is_http_exception e = false.
Proof.
  intros H.
  destruct (status self) eqn:Hst;
    try (rewrite send_request_not_running in H by (left; congruence);
         inversion H; reflexivity).
  destruct (proc self) as [p|] eqn:Hp;
    [| rewrite send_request_not_running in H by (now right); inversion H; reflexivity ].
  rewrite (send_request_running request self p Hst Hp) in H.
  destruct (alive p) eqn:Ha.
  - rewrite write_then_read_live in H by assumption.
    destruct (read_response _ _ _) as [[a|e0|] p1] eqn:Hr; try discriminate.
    apply read_response_exn in Hr.
    destruct (alive p1); inversion H; subst; exact Hr.
  - rewrite write_then_read_dead in H by assumption. rewrite Ha in H.
    inversion H. reflexivity.
Qed.

Lemma route_request_exn (n : string) (q : pydict) (t : option string)
    (mgr : MCPManager) e mgr' :
  route_request n q t mgr = (Raise e, mgr') -> is_http_exception e = false.
Proof.
  unfold route_request.
  destruct (PyDict.get n (servers mgr)) as [srv|] eqn:Hg; [| intros H; inversion H; reflexivity].
  destruct (negb (is_running (status srv))); [intros H; inversion H; reflexivity|].
  assert (Hsend : forall q', on_server n (send_request q') mgr = (Raise e, mgr') ->
                             is_http_exception e = false).
  { intros q' H. unfold on_server in H. rewrite Hg in H.
    destruct (send_request q' srv) as [r srv'] eqn:Hs. inversion H; subst.
    eapply send_request_exn; eauto. }
  destruct (usable t) as [tok|]; [| apply Hsend].
  destruct (eq_str (dict_get_none "method" q) "tools/call"); [| apply Hsend].
  destruct (inject_user_token q tok) as [e0|q'] eqn:Hi; [| apply Hsend].
  intros H. inversion H; subst.
  unfold inject_user_token in Hi.
  repeat match type of Hi with
         | match ?x with _ => _ end = _ => destruct x; try discriminate
         end; inversion Hi; reflexivity.
Qed.

(** X24.  [POST /call] fails with HTTP errors only: 503 without a manager, 403
    at the admin gate, and 500 for everything the provider round-trip
    raises, an unknown server and a provider that is not running
    included. *)
Theorem X24_call_endpoint_fails_with_http_errors
    (call_request : MCPCallRequest) (hdrs : headers) (ui : option user_info)
    (a : app) (e : exn) :
  fst (Call.call_mcp_tool call_request hdrs ui a) = Raise e ->
  exists c d,
    e = HTTPException c d
    /\ ((c = 503 /\ mcp_manager a = None)
        \/ (c = 403 /\ gated (call_server call_request) ui = true)
        \/ (c = 500 /\ gated (call_server call_request) ui = false
            /\ exists mgr, mcp_manager a = Some mgr
                 /\ (PyDict.get (call_server call_request) (servers mgr) = None ->
                     d = "Unknown MCP server: " ++ call_server call_request))).
Proof.
  unfold Call.call_mcp_tool, try_except.
  unfold bind at 1. unfold get_state at 1.
  destruct (mcp_manager a) as [mgr|] eqn:Hm.
  2: { cbn. intros H. inversion H. do 2 eexists. split; [reflexivity|]. left. auto. }
  fold (gated (call_server call_request) ui).
  destruct (gated (call_server call_request) ui) eqn:Hgate.
  { cbn. intros H. inversion H. do 2 eexists. split; [reflexivity|]. right. left. auto. }
  unfold bind at 1. unfold with_manager at 1. rewrite Hm.
  match goal with
  | |- context [route_request ?n ?q ?t mgr] =>
      destruct (route_request n q t mgr) as [[res|e0|] mgr1] eqn:Hr
  end; cbn [fst snd ret raise]; try discriminate.
  pose proof (route_request_exn _ _ _ _ _ _ Hr) as Hne.
  rewrite Hne. cbn. intros H. inversion H.
  do 2 eexists. split; [reflexivity|]. right. right.
  split; [reflexivity|]. split; [reflexivity|].
  exists mgr. split; [reflexivity|].
  intros Hnone. unfold route_request in Hr. rewrite Hnone in Hr. inversion Hr. reflexivity.
Qed.

Lemma X24_witness :
  exists c d,
    HTTPException 500 "Unknown MCP server: gamma" = HTTPException c d
    /\ ((c = 503 /\ mcp_manager (mkApp (Some alpha_manager) []) = None)
        \/ (c = 403 /\ gated (call_server (mkCall "gamma" "sum" [])) (Some plain_user) = true)
        \/ (c = 500 /\ gated (call_server (mkCall "gamma" "sum" [])) (Some plain_user) = false
            /\ exists mgr, mcp_manager (mkApp (Some alpha_manager) []) = Some mgr
                 /\ (PyDict.get (call_server (mkCall "gamma" "sum" [])) (servers mgr) = None ->
                     d = "Unknown MCP server: " ++ call_server (mkCall "gamma" "sum" [])))).
Proof.
  apply (X24_call_endpoint_fails_with_http_errors (mkCall "gamma" "sum" []) no_headers
           (Some plain_user) (mkApp (Some alpha_manager) [])
           (HTTPException 500 "Unknown MCP server: gamma")).
  reflexivity.
Defined.

(** ** The user id passed to the code providers *)

(** X25.  For a [tools/call] to [awp_agenticwork_cli] or [awp_agenticode] by a
    caller with a user id, with [arguments] given as an object: the
    provider receives the caller's id as [user_id] when the arguments hold
    none, a falsy one or the text [default], and otherwise the [user_id]
    the caller wrote, unchanged. *)
Theorem X25_user_id_passed_to_code_providers
    (req : MCPRequest) (target : string) (uid : json) (hdrs : headers) (args : pydict) :
  method req = "tools/call" ->
  truthy uid = true ->
  In target servers_needing_user_id ->
  PyDict.get "arguments" (params req) = Some (JObj args) ->
  exists p,
    params_to_send req target uid hdrs = inr p
    /\ json_path ["arguments"; "user_id"] (JObj p)
       = Some (if negb (truthy (dict_get_none "user_id" args))
                  || eq_str (dict_get_none "user_id" args) "default"
               then uid
               else dict_get_none "user_id" args).
Proof.
  intros Hm Hu Hin Hargs. unfold params_to_send.
  rewrite Hm, Hu. cbn [String.eqb Ascii.eqb Bool.eqb andb].
  assert (Hex : existsb (String.eqb target) servers_needing_user_id = true).
  { apply existsb_exists. exists target. split; [exact Hin | apply String.eqb_refl]. }
  rewrite Hex, Hargs.
  assert (Hd : (if truthy (JObj args) then py_dict (JObj args) else inr []) = inr args).
  { destruct args; reflexivity. }
  rewrite Hd.
  set (inject := negb (truthy (dict_get_none "user_id" args))
                 || eq_str (dict_get_none "user_id" args) "default").
  set (args1 := if inject then PyDict.set "user_id" uid args else args).
  set (p1 := if inject then PyDict.set "arguments" (JObj args1) (params req) else params req).
  assert (H1 : PyDict.get "arguments" p1 = Some (JObj args1)).
  { subst p1 args1. destruct inject; [apply get_set_eq | exact Hargs]. }
  assert (H2 : PyDict.get "user_id" args1
               = Some (if inject then uid else dict_get_none "user_id" args)).
  { subst args1. destruct inject eqn:Hi; [apply get_set_eq|].
    subst inject. apply orb_false_iff in Hi. destruct Hi as [Ht _].
    unfold dict_get_none, PyDict.get_default in *.
    destruct (PyDict.get "user_id" args); [reflexivity | discriminate]. }
  destruct (py_in_list _ serverless_tools && negb (truthy (dict_get_none "api_key" args1))).
  - destruct (negb (String.eqb _ "") && startswith _ "awc_").
    + eexists. split; [reflexivity|]. cbn [json_path]. rewrite get_set_eq.
      rewrite get_set_ne by discriminate. rewrite H2. reflexivity.
    + eexists. split; [reflexivity|]. cbn [json_path]. rewrite H1, H2. reflexivity.
  - eexists. split; [reflexivity|]. cbn [json_path]. rewrite H1, H2. reflexivity.
Qed.

Lemma X25_witness :
  exists p,
    params_to_send
      (mkRequest "tools/call"
         [("name", JStr "run"); ("arguments", JObj [("user_id", JStr "someone-else")])]
         "1" (Some "awp_agenticode"))
      "awp_agenticode" (JStr "u-17") no_headers = inr p
    /\ json_path ["arguments"; "user_id"] (JObj p)
       = Some (if negb (truthy (dict_get_none "user_id" [("user_id", JStr "someone-else")]))
                  || eq_str (dict_get_none "user_id" [("user_id", JStr "someone-else")])
                       "default"
               then JStr "u-17"
               else dict_get_none "user_id" [("user_id", JStr "someone-else")]).
Proof.
  apply (X25_user_id_passed_to_code_providers
           (mkRequest "tools/call"
              [("name", JStr "run"); ("arguments", JObj [("user_id", JStr "someone-else")])]
              "1" (Some "awp_agenticode"))
           "awp_agenticode" (JStr "u-17") no_headers [("user_id", JStr "someone-else")]).
  - reflexivity.
  - reflexivity.
  - right. left. reflexivity.
  - reflexivity.
Defined.

(** ** Health *)

Lemma fold_set_map {V W} (f : V -> W) (d : list (string * V)) :
  forall acc,
    List.NoDup (PyDict.keys d) ->
    (forall k, In k (PyDict.keys d) -> ~ In k (PyDict.keys acc)) ->
    fold_left (fun acc e => PyDict.set (fst e) (f (snd e)) acc) d acc
    = (acc ++ map (fun e => (fst e, f (snd e))) d)%list.
Proof.
  induction d as [|[k v] d IH]; intros acc Hnd Hacc; cbn [fold_left map fst snd].
  - now rewrite app_nil_r.
  - cbn [PyDict.keys map fst] in Hnd. apply List.NoDup_cons_iff in Hnd.
    destruct Hnd as [Hni Hnd].
    assert (Hset : PyDict.set k (f v) acc = (acc ++ [(k, f v)])%list).
    { assert (Hk : ~ In k (PyDict.keys acc)) by (apply Hacc; now left).
      clear -Hk. induction acc as [|[k' v'] acc IH]; [reflexivity|].
      cbn. destruct (String.eqb k k') eqn:He.
      - apply String.eqb_eq in He. subst. exfalso. apply Hk. now left.
      - rewrite IH; [reflexivity|]. intros H. apply Hk. now right. }
    rewrite Hset, IH; [now rewrite <- app_assoc | exact Hnd |].
    intros k' Hk' Hin. unfold PyDict.keys in Hin. rewrite map_app in Hin.
    apply in_app_or in Hin. destruct Hin as [Hin|[<-|[]]].
    + apply (Hacc k'); [now right | exact Hin].
    + contradiction.
Qed.

Lemma get_server_status_map (mgr : MCPManager) :
  List.NoDup (PyDict.keys (servers mgr)) ->
  get_server_status mgr = map (fun e => (fst e, status_entry (snd e))) (servers mgr).
Proof.
  intros Hnd. unfold get_server_status.
  rewrite (fold_set_map status_entry (servers mgr) [] Hnd); [reflexivity|].
  intros k _ [].
Qed.

(** X26.  [GET /health] counts the providers by their status alone: it reports
    the number of registered providers and the number of those that are
    [RUNNING], and it is [healthy] as soon as one provider is [RUNNING],
    [degraded] when none is, and [unhealthy] only without a manager. *)
Theorem X26_health_reflects_running_providers
    (E : environment) (mgr : MCPManager) (tasks : list audit_record) :
  List.NoDup (PyDict.keys (servers mgr)) ->
  let h := health_check E (mkApp (Some mgr) tasks) in
  let running := List.filter (fun e => is_running (status (snd e))) (servers mgr) in
  dict_get_none "status" h
  = JStr (match running with [] => "degraded" | _ => "healthy" end)
  /\ json_path ["servers"; "total"] (JObj h) = Some (JInt (Z.of_nat (length (servers mgr))))
  /\ json_path ["servers"; "running"] (JObj h) = Some (JInt (Z.of_nat (length running)))
  /\ (length running <= length (servers mgr))%nat
  /\ dict_get_none "status" (health_check E (mkApp None tasks)) = JStr "unhealthy".
Proof.
  intros Hnd. cbv zeta. unfold health_check. cbn [mcp_manager].
  rewrite (get_server_status_map mgr Hnd).
  assert (Hf : forall l : list (string * MCPServer),
             List.filter (fun e => eq_str (dict_get_none "status" (snd e)) "running")
               (map (fun e => (fst e, status_entry (snd e))) l)
             = map (fun e => (fst e, status_entry (snd e)))
                 (List.filter (fun e => is_running (status (snd e))) l)).
  { induction l as [|[k s] l IH]; [reflexivity|].
    cbn [map List.filter fst snd].
    assert (Hs : eq_str (dict_get_none "status" (status_entry s)) "running"
                 = is_running (status s))
      by (destruct s as [c p st le]; destruct st; reflexivity).
    rewrite Hs. destruct (is_running (status s)); cbn [map fst snd]; now rewrite IH. }
  rewrite Hf.
  split.
  - unfold dict_get_none, PyDict.get_default. cbn [PyDict.get String.eqb Ascii.eqb Bool.eqb].
    destruct (List.filter _ (servers mgr)); reflexivity.
  - split; [| split; [| split]].
    + cbn. now rewrite length_map.
    + cbn. now rewrite length_map.
    + apply List.filter_length_le.
    + reflexivity.
Qed.

Lemma X26_witness :
  dict_get_none "status" (health_check default_env (mkApp (Some catalog_manager) []))
  = JStr (match List.filter (fun e => is_running (status (snd e))) (servers catalog_manager)
          with [] => "degraded" | _ => "healthy" end)
  /\ json_path ["servers"; "total"]
       (JObj (health_check default_env (mkApp (Some catalog_manager) [])))
     = Some (JInt (Z.of_nat (length (servers catalog_manager))))
  /\ json_path ["servers"; "running"]
       (JObj (health_check default_env (mkApp (Some catalog_manager) [])))
     = Some (JInt (Z.of_nat
                     (length (List.filter (fun e => is_running (status (snd e)))
                                (servers catalog_manager)))))
  /\ (length (List.filter (fun e => is_running (status (snd e))) (servers catalog_manager))
      <= length (servers catalog_manager))%nat
  /\ dict_get_none "status" (health_check default_env (mkApp None [])) = JStr "unhealthy".
Proof.
  apply (X26_health_reflects_running_providers default_env catalog_manager []).
  cbn. constructor; [| constructor; [| constructor]].
  - intros [H|[]]. discriminate.
  - intros [].
Defined.

(** ** The management endpoints and an unknown provider *)

(** X27.  A provider id that is not registered: the start, stop, restart and
    delete endpoints answer 500 with the text of the manager's
    [ValueError]; the endpoints of the enabled flag answer 404 with the same
    text; the tools endpoint answers 404 with its own.  In every case the
    state is untouched. *)
Theorem X27_management_endpoints_on_unknown_provider
    (E : environment) (server_id : string) (mgr : MCPManager)
    (tasks : list audit_record) (ui : option user_info) (b : bool) :
  PyDict.mem server_id (servers mgr) = false ->
  let a := mkApp (Some mgr) tasks in
  let unknown := "Unknown server: " ++ server_id in
  Endpoint.start_server E server_id a = (Raise (HTTPException 500 unknown), a)
  /\ Servers.stop_server server_id a = (Raise (HTTPException 500 unknown), a)
  /\ Servers.restart_server E server_id a = (Raise (HTTPException 500 unknown), a)
  /\ Servers.delete_server server_id a = (Raise (HTTPException 500 unknown), a)
  /\ Servers.get_server_enabled server_id a = (Raise (HTTPException 404 unknown), a)
  /\ (truthy (admin_flag ui) = true ->
      Endpoint.set_server_enabled E server_id b ui a
      = (Raise (HTTPException 404 unknown), a))
  /\ Servers.list_server_tools server_id a
     = (Raise (HTTPException 404 ("Server " ++ server_id ++ " not found")), a).
Proof.
  intros Hmem. cbv zeta.
  assert (Hget : PyDict.get server_id (servers mgr) = None).
  { unfold PyDict.mem in Hmem. destruct (PyDict.get server_id (servers mgr)); congruence. }
  repeat split.
  - unfold Endpoint.start_server, bind, get_state, try_except, with_manager, start_server.
    cbn [mcp_manager background_tasks]. rewrite Hmem. reflexivity.
  - unfold Servers.stop_server, bind, get_state, try_except, with_manager, stop_server.
    cbn [mcp_manager background_tasks]. rewrite Hmem. reflexivity.
  - unfold Servers.restart_server, bind, get_state, try_except, with_manager, restart_server.
    cbn [mcp_manager background_tasks]. rewrite Hmem. reflexivity.
  - assert (Hrm : delete_server server_id mgr = (Raise (unknown_server server_id), mgr))
      by (unfold delete_server, remove_server; rewrite Hget; reflexivity).
    unfold Servers.delete_server, bind, get_state, try_except, with_manager.
    cbn [mcp_manager background_tasks]. rewrite Hrm. reflexivity.
  - unfold Servers.get_server_enabled, bind, get_state, get_server_enabled.
    cbn [mcp_manager]. rewrite Hget. reflexivity.
  - intros Hadm.
    assert (Hse : set_server_enabled E server_id b mgr
                  = (Raise (unknown_server server_id), mgr))
      by (unfold set_server_enabled; rewrite Hget; reflexivity).
    unfold Endpoint.set_server_enabled. unfold bind at 1. unfold get_state at 1.
    cbn [mcp_manager]. rewrite Hadm. cbn [negb].
    unfold try_except, bind, with_manager.
    cbn [mcp_manager background_tasks]. rewrite Hse. reflexivity.
  - unfold Servers.list_server_tools, bind, get_state.
    cbn [mcp_manager]. rewrite Hmem. reflexivity.
Qed.

Lemma X27_witness :
  Endpoint.start_server default_env "gamma" (mkApp (Some alpha_manager) [])
  = (Raise (HTTPException 500 ("Unknown server: " ++ "gamma")), mkApp (Some alpha_manager) [])
  /\ Servers.stop_server "gamma" (mkApp (Some alpha_manager) [])
     = (Raise (HTTPException 500 ("Unknown server: " ++ "gamma")),
        mkApp (Some alpha_manager) [])
  /\ Servers.restart_server default_env "gamma" (mkApp (Some alpha_manager) [])
     = (Raise (HTTPException 500 ("Unknown server: " ++ "gamma")),
        mkApp (Some alpha_manager) [])
  /\ Servers.delete_server "gamma" (mkApp (Some alpha_manager) [])
     = (Raise (HTTPException 500 ("Unknown server: " ++ "gamma")),
        mkApp (Some alpha_manager) [])
  /\ Servers.get_server_enabled "gamma" (mkApp (Some alpha_manager) [])
     = (Raise (HTTPException 404 ("Unknown server: " ++ "gamma")),
        mkApp (Some alpha_manager) [])
  /\ (truthy (admin_flag (Some local_admin)) = true ->
      Endpoint.set_server_enabled default_env "gamma" false (Some local_admin)
        (mkApp (Some alpha_manager) [])
      = (Raise (HTTPException 404 ("Unknown server: " ++ "gamma")),
         mkApp (Some alpha_manager) []))
  /\ Servers.list_server_tools "gamma" (mkApp (Some alpha_manager) [])
     = (Raise (HTTPException 404 ("Server " ++ "gamma" ++ " not found")),
        mkApp (Some alpha_manager) []).
Proof.
  apply (X27_management_endpoints_on_unknown_provider default_env "gamma" alpha_manager []
           (Some local_admin) false).
  reflexivity.
Defined.

(** ** Restarting a provider *)

(** X28.  [restart_server] of a registered provider never raises and keeps the
    configuration.  It spawns exactly one child, after which the provider
    is [RUNNING] or [FAILED], unless the provider is marked [RUNNING] while
    its child is gone: then neither [stop] nor [start] does anything, and
    the manager is left exactly as it was. *)
Theorem X28_restart_server_outcomes
    (E : environment) (i : string) (mgr : MCPManager) (srv : MCPServer) :
  PyDict.get i (servers mgr) = Some srv ->
  let mgr' := snd (restart_server E i mgr) in
  (forall e, fst (restart_server E i mgr) <> Raise e)
  /\ (stale_running srv = true -> restart_server E i mgr = (Ret tt, mgr))
  /\ (stale_running srv = false ->
      spawns mgr' = S (spawns mgr)
      /\ exists srv',
           PyDict.get i (servers mgr') = Some srv'
           /\ config srv' = config srv
           /\ (status srv' = RUNNING \/ status srv' = FAILED)).
Proof.
  intros Hg. cbv zeta. unfold restart_server.
  assert (Hmem : PyDict.mem i (servers mgr) = true) by (apply mem_get; eauto).
  rewrite Hmem. cbn [negb].
  destruct (stop_spec srv) as (s1 & Hstop & Hc1 & Hdead & Hst1).
  set (m1 := set_servers (PyDict.set i s1 (servers mgr)) mgr).
  assert (Hg1 : PyDict.get i (servers m1) = Some s1)
    by (subst m1; cbn [servers set_servers]; apply get_set_eq).
  destruct (start_registered_spec E i m1 s1 Hg1) as (r & s2 & Hs & Hnr & Hc2 & Hst2).
  assert (Heq : (on_server i stop ;;; start_registered E i) mgr
                = (r, if is_running (status s1) then m1
                      else set_spawns (S (spawns m1))
                             (set_servers (PyDict.set i s2 (servers m1)) m1))).
  { unfold bind, on_server. rewrite Hg, Hstop. exact Hs. }
  rewrite Heq. cbn [fst snd].
  split; [exact Hnr|]. split.
  - intros Hstale. unfold stale_running in Hstale.
    apply andb_true_iff in Hstale. destruct Hstale as [Hrun Hgone].
    assert (Hsame : s1 = srv).
    { unfold stop in Hstop. destruct (proc srv) as [c|].
      - destruct (alive c); [discriminate | inversion Hstop; reflexivity].
      - inversion Hstop; reflexivity. }
    subst s1. rewrite Hrun in Hs |- *.
    assert (Hm1 : m1 = mgr).
    { subst m1. rewrite (set_same _ _ _ Hg). apply set_servers_same. }
    rewrite Hm1 in Hs |- *.
    unfold start_registered in Hs. rewrite Hg, Hrun in Hs. inversion Hs. reflexivity.
  - intros Hfresh.
    assert (Hnot : is_running (status s1) = false).
    { unfold stale_running in Hfresh. unfold stop in Hstop.
      destruct (is_running (status srv)) eqn:Hrun; cbn [andb] in Hfresh.
      - destruct (proc srv) as [c|]; [| discriminate].
        destruct (alive c); [| discriminate]. inversion Hstop. reflexivity.
      - destruct Hst1 as [Hst1| ->]; [rewrite Hst1; reflexivity | exact Hrun]. }
    rewrite Hnot. cbn [spawns set_spawns servers set_servers].
    split; [reflexivity|]. exists s2.
    split; [apply get_set_eq|]. split; [congruence | exact Hst2].
Qed.

Lemma X28_witness :
  (forall e, fst (restart_server default_env "alpha" stale_manager) <> Raise e)
  /\ (stale_running (mkServer (sample_config "alpha" true false)
                       (Some (mkProcess 4242 false true [] [] "killed")) RUNNING None)
      = true ->
      restart_server default_env "alpha" stale_manager = (Ret tt, stale_manager))
  /\ (stale_running (mkServer (sample_config "alpha" true false)
                       (Some (mkProcess 4242 false true [] [] "killed")) RUNNING None)
      = false ->
      spawns (snd (restart_server default_env "alpha" stale_manager))
      = S (spawns stale_manager)
      /\ exists srv',
           PyDict.get "alpha" (servers (snd (restart_server default_env "alpha" stale_manager)))
           = Some srv'
           /\ config srv'
              = config (mkServer (sample_config "alpha" true false)
                          (Some (mkProcess 4242 false true [] [] "killed")) RUNNING None)
           /\ (status srv' = RUNNING \/ status srv' = FAILED)).
Proof.
  apply (X28_restart_server_outcomes default_env "alpha" stale_manager).
  reflexivity.
Defined.

(** ** The registry stays well formed *)

Lemma keeps_keys {A} (m : M MCPManager A) (mgr : MCPManager) :
  keeps_configs m ->
  PyDict.keys (servers (snd (m mgr))) = PyDict.keys (servers mgr).
Proof.
  intros Hm. destruct (m mgr) as [r mgr'] eqn:H. cbn [snd].
  exact (proj1 (Hm _ _ _ H)).
Qed.

Lemma assign_enabled_keys (i : string) (b : bool) (mgr : MCPManager) :
  PyDict.keys (servers (assign_enabled i b mgr)) = PyDict.keys (servers mgr).
Proof.
  unfold assign_enabled. destruct (PyDict.get i (servers mgr)) as [s|] eqn:Hg; [|reflexivity].
  cbn [servers set_servers]. apply keys_set_mem, mem_get. eauto.
Qed.

Lemma run_keys_NoDup (E : environment) (op : operation) (mgr : MCPManager) :
  List.NoDup (PyDict.keys (servers mgr)) ->
  List.NoDup (PyDict.keys (servers (run E op mgr))).
Proof.
  intros Hnd.
  destruct op as [| |i|i|i|i|c|i b|n q t|]; cbn [run].
  - rewrite (keeps_keys _ mgr (keeps_start_all E)). exact Hnd.
  - rewrite (keeps_keys _ mgr keeps_stop_all). exact Hnd.
  - rewrite (keeps_keys _ mgr (keeps_start_server E i)). exact Hnd.
  - rewrite (keeps_keys _ mgr (keeps_stop_server i)). exact Hnd.
  - rewrite (keeps_keys _ mgr (keeps_restart_server E i)). exact Hnd.
  - destruct (PyDict.get i (servers mgr)) as [srv|] eqn:Hg.
    + destruct (remove_server_registered i mgr srv Hnd Hg) as (mgr' & Hrm & _ & _ & Hn & _).
      rewrite Hrm. exact Hn.
    + unfold remove_server. rewrite Hg. exact Hnd.
  - destruct (add_server E c mgr) as [r mgr1] eqn:Hadd. cbn [snd].
    destruct (add_server_inv _ _ _ _ _ Hadd) as [(e & _ & ->)|(n & srv & _ & Hsrv & _)];
      [exact Hnd|].
    rewrite Hsrv. now apply keys_set_NoDup.
  - destruct (PyDict.get i (servers mgr)) as [srv|] eqn:Hg.
    + rewrite (set_server_enabled_state E i b mgr srv Hg).
      assert (H1 : List.NoDup (PyDict.keys (servers (saved i b (assign_enabled i b mgr))))).
      { rewrite saved_servers, assign_enabled_keys. exact Hnd. }
      destruct (b && negb (is_running (status srv))).
      * rewrite (keeps_keys _ _ (keeps_start_registered E i)). exact H1.
      * destruct (negb b && is_running (status srv)); [| exact H1].
        rewrite (keeps_keys _ _ (keeps_on_server i stop stop_config)). exact H1.
    + unfold set_server_enabled. rewrite Hg. exact Hnd.
  - rewrite (keeps_keys _ mgr (keeps_route_request n q t)). exact Hnd.
  - rewrite (keeps_keys _ mgr (keeps_list_all_tools E)). exact Hnd.
Qed.

Lemma NoDup_map_filter {A B} (f : A -> B) (p : A -> bool) (l : list A) :
  List.NoDup (map f l) -> List.NoDup (map f (List.filter p l)).
Proof.
  induction l as [|x l IH]; cbn [map List.filter]; intros Hnd; [constructor|].
  apply List.NoDup_cons_iff in Hnd. destruct Hnd as [Hni Hnd].
  destruct (p x); cbn [map]; [| now apply IH].
  constructor; [| now apply IH].
  intros Hin. apply Hni. apply in_map_iff in Hin. destruct Hin as (y & Hy & Hin).
  apply filter_In in Hin. apply in_map_iff. exists y. tauto.
Qed.

Lemma initialize_servers_keys_NoDup (E : environment) :
  List.NoDup (PyDict.keys (initialize_servers E)).
Proof.
  unfold initialize_servers, PyDict.keys. rewrite map_map.
  apply NoDup_map_filter. cbn [builtin_table map fst snd builtin].
  repeat (constructor; [cbn [In]; intuition discriminate|]). constructor.
Qed.

Lemma load_enabled_states_keys (r : redis) (names : list string) :
  forall mgr,
    PyDict.keys (servers (load_enabled_states r names mgr)) = PyDict.keys (servers mgr).
Proof.
  induction names as [|q names IH]; intros mgr; cbn [load_enabled_states]; [reflexivity|].
  destruct (redis_get r _) as [e|[v|]]; [reflexivity | | apply IH].
  rewrite IH. apply assign_enabled_keys.
Qed.

Lemma loaded_well_formed (r : redis) d (spawns uuids : nat) :
  List.NoDup (PyDict.keys d) ->
  (forall k s, PyDict.get k d = Some s -> name (config s) = k) ->
  well_formed (load_enabled_states r (PyDict.keys d) (mkManager d (Some r) spawns uuids)).
Proof.
  intros Hnd Hnames. split.
  - rewrite load_enabled_states_keys, servers_mkManager. exact Hnd.
  - intros k s Hg.
    pose proof (load_enabled_states_flag_only r k (PyDict.keys d)
                  (mkManager d (Some r) spawns uuids)) as Hf.
    rewrite servers_mkManager, Hg in Hf.
    destruct (PyDict.get k d) as [s0|] eqn:H0; [| simpl in Hf; tauto].
    simpl in Hf. destruct Hf as (b & ->).
    rewrite <- (Hnames k s0 H0). destruct s0 as [c pr st le]. reflexivity.
Qed.

Lemma new_manager_cases (E : environment) (rc : option redis) (spawns uuids : nat) :
  new_manager E rc spawns uuids
  = match rc with
    | Some r =>
        load_enabled_states r (PyDict.keys (initialize_servers E))
          (mkManager (initialize_servers E) (Some r) spawns uuids)
    | None => mkManager (initialize_servers E) None spawns uuids
    end.
Proof. destruct rc; reflexivity. Qed.

(** X29.  The registry is a dictionary of providers keyed by their names, and
    stays one: the manager built at start-up holds no key twice and every
    provider under the name of its configuration, and every operation of
    the manager keeps both. *)
Theorem X29_registry_stays_well_formed (E : environment) :
  (forall (rc : option redis) (spawns uuids : nat),
      well_formed (new_manager E rc spawns uuids))
  /\ (forall (op : operation) (mgr : MCPManager),
         well_formed mgr -> well_formed (run E op mgr)).
Proof.
  split.
  - intros rc spawns uuids. rewrite new_manager_cases.
    assert (Hnames : forall k s, PyDict.get k (initialize_servers E) = Some s ->
                                 name (config s) = k)
      by (intros k s Hg; exact (proj2 (initialize_servers_defaults E k s Hg))).
    destruct rc as [r|].
    + apply loaded_well_formed; [apply initialize_servers_keys_NoDup | exact Hnames].
    + split; rewrite servers_mkManager;
        [apply initialize_servers_keys_NoDup | exact Hnames].
  - intros op mgr [Hnd Hnames]. split; [now apply run_keys_NoDup|].
    intros k s' Hg.
    pose proof (registry_evolution E op mgr k Hnd) as Hev. rewrite Hg in Hev.
    destruct (PyDict.get k (servers mgr)) as [s|] eqn:Hk.
    + rewrite Hev. specialize (Hnames k s Hk).
      destruct op; try exact Hnames.
      destruct (String.eqb k server_id); exact Hnames.
    + destruct Hev as (c & _ & Hn). exact Hn.
Qed.

(** ** Sign-in: the state parameter and the verifier *)

(** X30.  The sign-in round trip.  [generate_auth_url] stores a newly drawn
    verifier under a newly drawn state and sends the digest of that very
    verifier as the challenge.  An exchange for that state made less than
    600 seconds later hands the same verifier to the identity provider; once
    the provider has answered, whatever it answered, the state is used up:
    the entry is gone and every further exchange for it fails with
    [ValueError] before the provider is asked.  From 600 seconds on, the
    first exchange already fails so. *)
Theorem X30_sign_in_state_is_bound_and_single_use
    (I : msal_environment) (self : AzureOAuthService) (t0 : Z) :
  answers (oauth_redis self) = true ->
  secrets_verifier I (draws self) <> "" ->
  let verifier := secrets_verifier I (draws self) in
  let state := secrets_token_urlsafe I (S (draws self)) in
  let self1 := snd (generate_auth_url I t0 self) in
  let invalid := Raise (ValueError "Invalid or expired state parameter") in
  fst (generate_auth_url I t0 self)
  = Ret [ ("auth_url",
           JStr (get_authorization_request_url I state (sha256_challenge I verifier)));
          ("state", JStr state) ]
  /\ (forall code t1 result,
         t1 < t0 + 600 ->
         acquire_token_by_authorization_code I code verifier = inr result ->
         let self2 := snd (exchange_code_for_token I code state t1 self1) in
         (PyDict.mem "error" result = false ->
          forall access_token,
            PyDict.get "access_token" result = Some access_token ->
            exists tokens,
              fst (exchange_code_for_token I code state t1 self1) = Ret tokens
              /\ dict_get_none "access_token" tokens = access_token)
         /\ stored (oauth_redis self2) !! ("pkce:" ++ state) = None
         /\ forall (I' : msal_environment) code' t2,
              exchange_code_for_token I' code' state t2 self2 = (invalid, self2))
  /\ (forall code t1,
         t0 + 600 <= t1 ->
         exchange_code_for_token I code state t1 self1 = (invalid, self1)).
Proof.
  intros Hans Hv. cbv zeta.
  set (verifier := secrets_verifier I (draws self)).
  set (state := secrets_token_urlsafe I (S (draws self))).
  set (st1 := mkExpiring (<["pkce:" ++ state := (verifier, t0 + 600)]>
                            (stored (oauth_redis self))) true).
  assert (Hgen : generate_auth_url I t0 self
                 = (Ret [ ("auth_url",
                           JStr (get_authorization_request_url I state
                                   (sha256_challenge I verifier)));
                          ("state", JStr state) ],
                    mkOAuth st1 (S (S (draws self))))).
  { unfold generate_auth_url, generate_pkce_challenge, bind, draw, ret, on_redis, setex.
    cbn [oauth_redis draws]. rewrite Hans. reflexivity. }
  rewrite Hgen. cbn [fst snd].
  set (self1 := mkOAuth st1 (S (S (draws self)))).
  assert (Hinvalid : forall (I' : msal_environment) code' t2 (s : AzureOAuthService),
             answers (oauth_redis s) = true ->
             stored (oauth_redis s) !! ("pkce:" ++ state) = None ->
             exchange_code_for_token I' code' state t2 s
             = (Raise (ValueError "Invalid or expired state parameter"), s)).
  { intros I' code' t2 s Ha Hnone.
    unfold exchange_code_for_token, bind, on_redis, store_get.
    rewrite Ha, Hnone. destruct s as [[en an] dr]. cbn in Ha |- *. subst an. reflexivity. }
  split; [reflexivity|]. split.
  - intros code t1 result Ht Hacq.
    assert (Hex : exchange_code_for_token I code state t1 self1
                  = (if PyDict.mem "error" result then
                       Raise (RuntimeError
                                ("Failed to acquire token: "
                                 ++ py_str (PyDict.get_default "error_description"
                                              (dict_get_none "error" result) result)))
                     else
                       match PyDict.get "access_token" result with
                       | None => Raise (KeyError "access_token")
                       | Some access_token =>
                           Ret [ ("access_token", access_token);
                                 ("refresh_token", dict_get_none "refresh_token" result);
                                 ("id_token", dict_get_none "id_token" result);
                                 ("expires_in",
                                  PyDict.get_default "expires_in" (JInt 3600) result);
                                 ("token_type",
                                  PyDict.get_default "token_type" (JStr "Bearer") result) ]
                       end,
                     mkOAuth (mkExpiring (delete ("pkce:" ++ state) (stored st1)) true)
                       (S (S (draws self))))).
    { unfold exchange_code_for_token. unfold bind at 1. unfold on_redis at 1.
      unfold store_get. cbn [oauth_redis self1 answers st1 stored draws].
      rewrite lookup_insert_eq.
      assert (Hlt : (t1 <? t0 + 600) = true) by (apply Z.ltb_lt; exact Ht).
      rewrite Hlt.
      assert (Hne : String.eqb verifier "" = false) by (now apply String.eqb_neq).
      rewrite Hne. unfold bind at 1. rewrite Hacq. cbn [lift_sum ret].
      unfold bind at 1. unfold on_redis at 1. unfold store_delete.
      cbn [oauth_redis answers stored draws].
      destruct (PyDict.mem "error" result); [reflexivity|].
      destruct (PyDict.get "access_token" result); reflexivity. }
    rewrite Hex. cbn [fst snd oauth_redis stored].
    split; [| split].
    + intros Hnoerr access_token Hat. rewrite Hnoerr, Hat.
      eexists. split; reflexivity.
    + apply lookup_delete_eq.
    + intros I' code' t2. apply Hinvalid; [reflexivity|]. cbn. apply lookup_delete_eq.
  - intros code t1 Ht.
    unfold exchange_code_for_token, bind, on_redis, store_get.
    cbn [oauth_redis self1 answers st1 stored draws].
    rewrite lookup_insert_eq.
    assert (Hge : (t1 <? t0 + 600) = false) by (apply Z.ltb_ge; exact Ht).
    rewrite Hge. reflexivity.
Qed.

Lemma X30_witness :
  exchange_code_for_token sample_msal "code-2" (secrets_token_urlsafe sample_msal 1) 20
    (snd (exchange_code_for_token sample_msal "code-1"
            (secrets_token_urlsafe sample_msal 1) 10
            (snd (generate_auth_url sample_msal 0 sample_service))))
  = (Raise (ValueError "Invalid or expired state parameter"),
     snd (exchange_code_for_token sample_msal "code-1"
            (secrets_token_urlsafe sample_msal 1) 10
            (snd (generate_auth_url sample_msal 0 sample_service)))).
Proof.
  assert (Hv : secrets_verifier sample_msal (draws sample_service) <> "")
    by (cbn; discriminate).
  destruct (X30_sign_in_state_is_bound_and_single_use sample_msal sample_service 0
              eq_refl Hv) as (_ & Hexchange & _).
  destruct (Hexchange "code-1" 10
              [("access_token",
                JStr ("code-1" ++ "/" ++ secrets_verifier sample_msal 0))]
              eq_refl eq_refl) as (_ & _ & Hagain).
  exact (Hagain sample_msal "code-2" 20).
Defined.
